(** * The record repository of [database.py]: a shallow embedding

    [database.py] keeps person records in three PostgreSQL tables
    ([persons], [contact_info], [documents]) and reaches them through
    [Database.execute_with_retry].  The embedding below follows the file
    top-down: Python exceptions, the payload dictionaries, the tables and the
    SQL statements the methods issue, the retrying executor, and finally the
    public methods of [Database]. *)

From Stdlib Require Import ZArith List String Ascii Bool Lia Permutation Sorted.
Import ListNotations.

Local Open Scope string_scope.
Local Open Scope Z_scope.

Set Implicit Arguments.

(** ** Exceptions and results *)

(** The exceptions that reach [execute_with_retry].  The first two are the
    ones its first [except] clause names; the others are what psycopg2 and
    Python raise for the statements of this file. *)
Inductive exn : Type :=
| OperationalError
| InterfaceError
| PoolError
| UndefinedTable
| DuplicateTable
| NotNullViolation
| ForeignKeyViolation
| StringDataRightTruncation
| InvalidEscapeSequence
| KeyError (key : string)
| TypeError.

(** [except (psycopg2.OperationalError, psycopg2.InterfaceError)] *)
Definition is_transient (e : exn) : bool :=
  match e with
  | OperationalError | InterfaceError => true
  | _ => false
  end.

Inductive result (A : Type) : Type :=
| Ok (a : A)
| Raise (e : exn).

Arguments Ok {A} a.
Arguments Raise {A} e.

Definition rbind {A B} (r : result A) (k : A -> result B) : result B :=
  match r with
  | Ok a => k a
  | Raise e => Raise e
  end.

(** ** Payload dictionaries *)

(** A key of a Python dict as the methods look at it: absent, bound to
    [None], or bound to a value. *)
Inductive field (A : Type) : Type :=
| Missing
| PyNone
| Val (a : A).

Arguments Missing {A}.
Arguments PyNone {A}.
Arguments Val {A} a.

(** [utils.load_image] builds [{'url': ..., 'preview_data': ...}]. *)
Record image : Type := mk_image {
  url : string;
  preview_data : string
}.

(** A calendar date (a day number). *)
Definition date : Type := Z.

(** The [record] / [updated_data] dictionary handed to [add_record] and
    [update_record]; one field per key the methods read. *)
Record payload : Type := mk_payload {
  full_name : field string;
  father_name : field string;
  mother_name : field string;
  dob : field date;
  gender : field string;
  nid : field string;
  voter_no : field string;
  permanent_address : field string;
  present_address : field string;
  image_data : field image;
  description : field string;
  mobile_numbers : field (list string);
  whatsapp_numbers : field (list string);
  facebook_links : field (list string);
  website_links : field (list string);
  pdf_urls : field (list string)
}.

(** [d[key]]: [KeyError] when the key is absent; a bound [None] becomes SQL
    NULL. *)
Definition getitem {A} (key : string) (f : field A) : result (option A) :=
  match f with
  | Missing => Raise (KeyError key)
  | PyNone => Ok None
  | Val a => Ok (Some a)
  end.

(** [d.get(key)] *)
Definition get {A} (f : field A) : option A :=
  match f with
  | Val a => Some a
  | _ => None
  end.

(** [d.get(key, [])] as the iterable of a [for] loop: iterating [None] is a
    [TypeError]. *)
Definition get_list {A} (f : field (list A)) : result (list A) :=
  match f with
  | Missing => Ok []
  | PyNone => Raise TypeError
  | Val l => Ok l
  end.

(** [key in d] *)
Definition contains_key {A} (f : field A) : bool :=
  match f with
  | Missing => false
  | _ => true
  end.

(** [Json(d.get('image_data')) if d.get('image_data') else None]: a dict
    with the two keys of [load_image] is truthy. *)
Definition json_image (f : field image) : option image := get f.

(** ** Tables *)

Record person_row : Type := mk_person {
  p_id : Z;
  p_full_name : string;
  p_father_name : string;
  p_mother_name : string;
  p_dob : date;
  p_gender : string;
  p_nid : string;
  p_voter_no : option string;
  p_permanent_address : string;
  p_present_address : string;
  p_image_data : option image;
  p_description : option string;
  p_created_at : Z
}.

Record contact_row : Type := mk_contact {
  ci_id : Z;
  ci_person_id : Z;
  ci_type : string;
  ci_value : string
}.

Record document_row : Type := mk_document {
  d_id : Z;
  d_person_id : Z;
  d_url : string;
  d_type : string
}.

(** A table: its rows in insertion order and the next value of the SERIAL
    sequence of its [id] column.  The sequence is kept with the table, so a
    rolled-back INSERT gives its id back (PostgreSQL would skip it); the ids
    stay unique either way. *)
Record table (R : Type) : Type := mk_table {
  rows : list R;
  next_id : Z
}.

Definition empty_table (R : Type) : table R := mk_table [] 1.

(** The database: each table exists or not. *)
Record db : Type := mk_db {
  persons : option (table person_row);
  contact_info : option (table contact_row);
  documents : option (table document_row)
}.

(** ** The cursor: statements run against the database and may raise *)

Definition cursor (A : Type) : Type := db -> result (A * db).

Definition ret {A} (a : A) : cursor A := fun s => Ok (a, s).

Definition bind {A B} (c : cursor A) (k : A -> cursor B) : cursor B :=
  fun s =>
    match c s with
    | Ok (a, s') => k a s'
    | Raise e => Raise e
    end.

Definition lift {A} (r : result A) : cursor A :=
  fun s => rbind r (fun a => Ok (a, s)).

Declare Scope cursor_scope.
Delimit Scope cursor_scope with cursor.
Notation "x <- c ;; k" := (bind c (fun x => k))
  (at level 61, c at next level, right associativity) : cursor_scope.
Notation "c ;; k" := (bind c (fun _ => k))
  (at level 61, right associativity) : cursor_scope.

(** [for x in l: body(x)] *)
Fixpoint for_each {A} (l : list A) (body : A -> cursor unit) : cursor unit :=
  match l with
  | [] => ret tt
  | x :: l' => bind (body x) (fun _ => for_each l' body)
  end.

(** *** Column types *)

Definition all_spaces (s : string) : bool :=
  forallb (Ascii.eqb " "%char) (list_ascii_of_string s).

(** Assignment to a [VARCHAR(n)] column: a longer value is an error unless
    the excess is blank, in which case it is cut to [n] characters. *)
Definition varchar (n : nat) (v : option string) : result (option string) :=
  match v with
  | None => Ok None
  | Some s =>
      if (String.length s <=? n)%nat then Ok (Some s)
      else if all_spaces (substring n (String.length s - n) s)
           then Ok (Some (substring 0 n s))
           else Raise StringDataRightTruncation
  end.

(** A [NOT NULL] column. *)
Definition not_null {A} (v : option A) : result A :=
  match v with
  | Some a => Ok a
  | None => Raise NotNullViolation
  end.

(** *** Data definition statements *)

(** [DROP TABLE IF EXISTS persons CASCADE] (and likewise for the other two
    tables): the table goes, with the foreign keys that point to it. *)
Definition drop_persons : cursor unit :=
  fun s => Ok (tt, mk_db None (contact_info s) (documents s)).

Definition drop_contact_info : cursor unit :=
  fun s => Ok (tt, mk_db (persons s) None (documents s)).

Definition drop_documents : cursor unit :=
  fun s => Ok (tt, mk_db (persons s) (contact_info s) None).

(** [CREATE TABLE persons (...)] *)
Definition create_persons : cursor unit :=
  fun s =>
    match persons s with
    | Some _ => Raise DuplicateTable
    | None => Ok (tt, mk_db (Some (empty_table _)) (contact_info s) (documents s))
    end.

(** [CREATE TABLE IF NOT EXISTS contact_info (... REFERENCES persons(id) ...)] *)
Definition create_contact_info_if_not_exists : cursor unit :=
  fun s =>
    match contact_info s with
    | Some _ => Ok (tt, s)
    | None =>
        match persons s with
        | None => Raise UndefinedTable
        | Some _ => Ok (tt, mk_db (persons s) (Some (empty_table _)) (documents s))
        end
    end.

(** [CREATE TABLE IF NOT EXISTS documents (... REFERENCES persons(id) ...)] *)
Definition create_documents_if_not_exists : cursor unit :=
  fun s =>
    match documents s with
    | Some _ => Ok (tt, s)
    | None =>
        match persons s with
        | None => Raise UndefinedTable
        | Some _ => Ok (tt, mk_db (persons s) (contact_info s) (Some (empty_table _)))
        end
    end.

(** *** Data manipulation statements *)

Local Open Scope cursor_scope.

Definition the_persons : cursor (table person_row) :=
  fun s => match persons s with Some t => Ok (t, s) | None => Raise UndefinedTable end.

Definition the_contact_info : cursor (table contact_row) :=
  fun s => match contact_info s with Some t => Ok (t, s) | None => Raise UndefinedTable end.

Definition the_documents : cursor (table document_row) :=
  fun s => match documents s with Some t => Ok (t, s) | None => Raise UndefinedTable end.

Definition set_persons (t : table person_row) : cursor unit :=
  fun s => Ok (tt, mk_db (Some t) (contact_info s) (documents s)).

Definition set_contact_info (t : table contact_row) : cursor unit :=
  fun s => Ok (tt, mk_db (persons s) (Some t) (documents s)).

Definition set_documents (t : table document_row) : cursor unit :=
  fun s => Ok (tt, mk_db (persons s) (contact_info s) (Some t)).

(** [person_id INTEGER REFERENCES persons(id)]: the referenced row must
    exist.  (After [DROP TABLE persons CASCADE] the constraint is gone.) *)
Definition references_persons (person_id : Z) : cursor unit :=
  fun s =>
    match persons s with
    | None => Ok (tt, s)
    | Some t =>
        if existsb (fun p => p_id p =? person_id) (rows t)
        then Ok (tt, s) else Raise ForeignKeyViolation
    end.

(** [INSERT INTO persons (full_name, ..., created_at) VALUES (...) RETURNING id] *)
Definition insert_persons
    (v_full_name v_father_name v_mother_name : option string) (v_dob : option date)
    (v_gender v_nid v_voter_no v_permanent_address v_present_address : option string)
    (v_image_data : option image) (v_description : option string) (v_created_at : Z)
  : cursor Z :=
  t <- the_persons ;;
  c1 <- lift (rbind (varchar 255 v_full_name) not_null) ;;
  c2 <- lift (rbind (varchar 255 v_father_name) not_null) ;;
  c3 <- lift (rbind (varchar 255 v_mother_name) not_null) ;;
  c4 <- lift (not_null v_dob) ;;
  c5 <- lift (rbind (varchar 50 v_gender) not_null) ;;
  c6 <- lift (rbind (varchar 100 v_nid) not_null) ;;
  c7 <- lift (varchar 100 v_voter_no) ;;
  c8 <- lift (not_null v_permanent_address) ;;
  c9 <- lift (not_null v_present_address) ;;
  set_persons
    (mk_table
       (rows t ++ [mk_person (next_id t) c1 c2 c3 c4 c5 c6 c7 c8 c9
                             v_image_data v_description v_created_at])
       (next_id t + 1)) ;;
  ret (next_id t).

(** [INSERT INTO contact_info (person_id, type, value) VALUES (%s, %s, %s)] *)
Definition insert_contact_info (person_id : Z) (type value : string) : cursor unit :=
  t <- the_contact_info ;;
  c_type <- lift (rbind (varchar 50 (Some type)) not_null) ;;
  c_value <- lift (rbind (varchar 255 (Some value)) not_null) ;;
  references_persons person_id ;;
  set_contact_info
    (mk_table (rows t ++ [mk_contact (next_id t) person_id c_type c_value])
              (next_id t + 1)).

(** [INSERT INTO documents (person_id, url, type) VALUES (%s, %s, %s)] *)
Definition insert_documents (person_id : Z) (v_url type : string) : cursor unit :=
  t <- the_documents ;;
  c_type <- lift (rbind (varchar 50 (Some type)) not_null) ;;
  references_persons person_id ;;
  set_documents
    (mk_table (rows t ++ [mk_document (next_id t) person_id v_url c_type])
              (next_id t + 1)).

(** [UPDATE persons SET full_name = %s, ..., description = %s WHERE id = %s].
    The new values are cast to the column types once for the statement; the
    NOT NULL constraints are checked on the rows that are rewritten.  The
    columns [id] and [created_at] are not in the SET list. *)
Definition update_persons
    (v_full_name v_father_name v_mother_name : option string) (v_dob : option date)
    (v_gender v_nid v_voter_no v_permanent_address v_present_address : option string)
    (v_image_data : option image) (v_description : option string) (record_id : Z)
  : cursor unit :=
  t <- the_persons ;;
  o1 <- lift (varchar 255 v_full_name) ;;
  o2 <- lift (varchar 255 v_father_name) ;;
  o3 <- lift (varchar 255 v_mother_name) ;;
  o5 <- lift (varchar 50 v_gender) ;;
  o6 <- lift (varchar 100 v_nid) ;;
  c7 <- lift (varchar 100 v_voter_no) ;;
  if existsb (fun p => p_id p =? record_id) (rows t) then
    c1 <- lift (not_null o1) ;;
    c2 <- lift (not_null o2) ;;
    c3 <- lift (not_null o3) ;;
    c4 <- lift (not_null v_dob) ;;
    c5 <- lift (not_null o5) ;;
    c6 <- lift (not_null o6) ;;
    c8 <- lift (not_null v_permanent_address) ;;
    c9 <- lift (not_null v_present_address) ;;
    set_persons
      (mk_table
         (map (fun p =>
                 if p_id p =? record_id
                 then mk_person (p_id p) c1 c2 c3 c4 c5 c6 c7 c8 c9
                                v_image_data v_description (p_created_at p)
                 else p)
              (rows t))
         (next_id t))
  else ret tt.

(** [DELETE FROM contact_info WHERE person_id = %s] *)
Definition delete_contact_info_of (record_id : Z) : cursor unit :=
  t <- the_contact_info ;;
  set_contact_info
    (mk_table (filter (fun c => negb (ci_person_id c =? record_id)) (rows t))
              (next_id t)).

(** [DELETE FROM documents WHERE person_id = %s] *)
Definition delete_documents_of (record_id : Z) : cursor unit :=
  t <- the_documents ;;
  set_documents
    (mk_table (filter (fun d => negb (d_person_id d =? record_id)) (rows t))
              (next_id t)).

(** [ON DELETE CASCADE]: the child rows that point to a deleted person go
    with it. *)
Definition cascade (deleted : Z -> bool) : cursor unit :=
  fun s =>
    Ok (tt,
        mk_db (persons s)
              (option_map
                 (fun t => mk_table (filter (fun c => negb (deleted (ci_person_id c))) (rows t))
                                    (next_id t))
                 (contact_info s))
              (option_map
                 (fun t => mk_table (filter (fun d => negb (deleted (d_person_id d))) (rows t))
                                    (next_id t))
                 (documents s))).

(** [DELETE FROM persons WHERE id = %s] *)
Definition delete_persons_where_id (record_id : Z) : cursor unit :=
  t <- the_persons ;;
  set_persons
    (mk_table (filter (fun p => negb (p_id p =? record_id)) (rows t)) (next_id t)) ;;
  cascade (fun i => existsb (fun p => (p_id p =? record_id) && (p_id p =? i)) (rows t)).

(** [DELETE FROM contact_info] *)
Definition delete_all_contact_info : cursor unit :=
  t <- the_contact_info ;;
  set_contact_info (mk_table [] (next_id t)).

(** [DELETE FROM documents] *)
Definition delete_all_documents : cursor unit :=
  t <- the_documents ;;
  set_documents (mk_table [] (next_id t)).

(** [DELETE FROM persons] *)
Definition delete_all_persons : cursor unit :=
  t <- the_persons ;;
  set_persons (mk_table [] (next_id t)) ;;
  cascade (fun i => existsb (fun p => p_id p =? i) (rows t)).

(** *** The aggregating SELECT *)

(** [FROM persons p LEFT JOIN contact_info ci ON p.id = ci.person_id
     LEFT JOIN documents d ON p.id = d.person_id], the rows of one [p]: an
    outer join keeps [p] with a NULL partner when nothing matches. *)
Definition outer {A} (l : list A) : list (option A) :=
  match l with
  | [] => [None]
  | _ => map Some l
  end.

Definition joined : Type := (option contact_row * option document_row)%type.

Definition left_join (p : person_row) (cis : list contact_row) (ds : list document_row)
  : list joined :=
  list_prod (outer (filter (fun c => p_id p =? ci_person_id c) cis))
            (outer (filter (fun d => p_id p =? d_person_id d) ds)).

Definition option_string_dec (x y : option string) : {x = y} + {x <> y}.
Proof. decide equality; apply string_dec. Defined.

(** [array_agg(DISTINCT e)]: NULL when no row is aggregated, else the
    distinct values (in no guaranteed order). *)
Definition array_agg_distinct (l : list (option string)) : option (list (option string)) :=
  match l with
  | [] => None
  | _ => Some (nodup option_string_dec l)
  end.

(** [array_agg(DISTINCT CASE WHEN ci.type = kind THEN ci.value END)
     FILTER (WHERE ci.type = kind)] over the joined rows of one person. *)
Definition contact_agg (kind : string) (g : list joined) : option (list (option string)) :=
  array_agg_distinct
    (map (fun j => match fst j with
                   | Some c => if ci_type c =? kind then Some (ci_value c) else None
                   | None => None
                   end)
         (filter (fun j => match fst j with
                           | Some c => ci_type c =? kind
                           | None => false
                           end) g))%string.

(** [array_agg(DISTINCT d.url) FILTER (WHERE d.type = 'pdf')] *)
Definition pdf_agg (g : list joined) : option (list (option string)) :=
  array_agg_distinct
    (map (fun j => option_map d_url (snd j))
         (filter (fun j => match snd j with
                           | Some d => d_type d =? "pdf"
                           | None => false
                           end) g))%string.

(** A row of the result ([RealDictCursor]): [p.*] and the five aggregates. *)
Record aggregated_row : Type := mk_agg {
  a_person : person_row;
  a_mobile_numbers : option (list (option string));
  a_whatsapp_numbers : option (list (option string));
  a_facebook_links : option (list (option string));
  a_website_links : option (list (option string));
  a_pdf_urls : option (list (option string))
}.

Definition aggregate (cis : list contact_row) (ds : list document_row) (p : person_row)
  : aggregated_row :=
  let g := left_join p cis ds in
  mk_agg p (contact_agg "mobile" g) (contact_agg "whatsapp" g)
         (contact_agg "facebook" g) (contact_agg "website" g) (pdf_agg g).

(** [ORDER BY p.created_at DESC], as a stable insertion sort. *)
Fixpoint insert_desc (p : person_row) (l : list person_row) : list person_row :=
  match l with
  | [] => [p]
  | q :: l' =>
      if p_created_at q <=? p_created_at p then p :: l else q :: insert_desc p l'
  end.

Definition order_by_created_at_desc (l : list person_row) : list person_row :=
  fold_right insert_desc [] l.

(** [SELECT p.*, array_agg(...) ... FROM ... WHERE <cond> GROUP BY p.id
     [ORDER BY p.created_at DESC]]; [id] is the primary key, so every person
    row is a group of its own. *)
Definition select_aggregated (cond : person_row -> bool) (ordered : bool)
  : cursor (list aggregated_row) :=
  tp <- the_persons ;;
  tc <- the_contact_info ;;
  td <- the_documents ;;
  let ps := filter cond (rows tp) in
  ret (map (aggregate (rows tc) (rows td))
           (if ordered then order_by_created_at_desc ps else ps)).

(** *** ILIKE *)

Inductive like_token : Type :=
| AnyString            (* % *)
| AnyChar              (* _ *)
| Lit (c : ascii).

(** A LIKE pattern: [%] and [_] are wildcards, a backslash quotes the next
    character; a pattern may not end in a lone backslash. *)
Fixpoint like_pattern (p : list ascii) : option (list like_token) :=
  match p with
  | [] => Some []
  | c :: p' =>
      if Ascii.eqb c "\"%char then
        match p' with
        | [] => None
        | c' :: p'' => option_map (cons (Lit c')) (like_pattern p'')
        end
      else if Ascii.eqb c "%"%char then option_map (cons AnyString) (like_pattern p')
      else if Ascii.eqb c "_"%char then option_map (cons AnyChar) (like_pattern p')
      else option_map (cons (Lit c)) (like_pattern p')
  end.

Fixpoint like_match (ts : list like_token) (s : list ascii) : bool :=
  match ts with
  | [] => match s with [] => true | _ => false end
  | AnyString :: ts' =>
      (fix skip (s : list ascii) : bool :=
         like_match ts' s || match s with [] => false | _ :: s' => skip s' end) s
  | AnyChar :: ts' =>
      match s with [] => false | _ :: s' => like_match ts' s' end
  | Lit c :: ts' =>
      match s with [] => false | c' :: s' => Ascii.eqb c c' && like_match ts' s' end
  end.

(** Case folding of ILIKE, on the letters A-Z. *)
Definition to_lower (c : ascii) : ascii :=
  let n := nat_of_ascii c in
  if ((65 <=? n) && (n <=? 90))%nat then ascii_of_nat (n + 32) else c.

Definition lower (s : string) : list ascii := map to_lower (list_ascii_of_string s).

(** [text ILIKE pattern], for a pattern that [like_pattern] has read: both
    sides are folded to lower case. *)
Definition ilike (text : string) (pattern : list like_token) : bool :=
  like_match pattern (lower text).

(** ** What Python makes of a result row *)

(** [list(filter(None, xs))]: the truthy elements; [None] and the empty
    string are falsy. *)
Definition filter_None (xs : list (option string)) : list string :=
  flat_map (fun x => match x with
                     | Some s => if (s =? "")%string then [] else [s]
                     | None => []
                     end) xs.

(** [xs or []] *)
Definition or_empty {A} (xs : option (list A)) : list A :=
  match xs with
  | Some l => l
  | None => []
  end.

(** Iterating a value that may be [None] (what [filter(None, xs)] does to
    its second argument). *)
Definition iter {A} (xs : option (list A)) : result (list A) :=
  match xs with
  | Some l => Ok l
  | None => Raise TypeError
  end.

(** The dictionary the read methods return: [**record] and the five lists. *)
Record person_dict : Type := mk_dict {
  out_person : person_row;
  out_mobile_numbers : list string;
  out_whatsapp_numbers : list string;
  out_facebook_links : list string;
  out_website_links : list string;
  out_pdf_urls : list string
}.

(** ** The connection pool and the executor *)

(** What goes wrong with the connection during one attempt of
    [execute_with_retry], as the environment decides it. *)
Inductive fault : Type :=
| NoFault
| AcquireFails (e : exn)   (* [get_connection()] raises [e]; [conn] stays [None] *)
| ExecuteFails (e : exn)   (* [conn.cursor()] or a statement raises [e] *)
| CommitFails (e : exn).   (* [conn.commit()] raises [e] *)

(** The calls on the pool, the connection and the clock, in the order made. *)
Inductive event : Type :=
| GetConn (acquired : bool)
| Commit
| Rollback
| Sleep (seconds : Z)
| PutConn.

(** The world a method runs in: the committed database, the wall clock
    (microseconds), the faults of the attempts to come and the calls made so
    far. *)
Record world : Type := mk_world {
  store : db;
  clock : Z;
  faults : list fault;
  log : list event
}.

Definition emit (e : event) (w : world) : world :=
  mk_world (store w) (clock w) (faults w) (log w ++ [e]).

(** [conn.commit()] *)
Definition commit (s : db) (w : world) : world :=
  emit Commit (mk_world s (clock w) (faults w) (log w)).

(** [conn.rollback()] inside [try: ... except: pass]: the statements of the
    attempt never reached the committed database. *)
Definition rollback (w : world) : world := emit Rollback w.

(** [time.sleep(seconds)] *)
Definition sleep (seconds : Z) (w : world) : world :=
  emit (Sleep seconds) (mk_world (store w) (clock w + seconds * 1000000) (faults w) (log w)).

(** [return_connection(conn)] in the [finally] clause, under [if conn:]. *)
Definition return_connection (held : bool) (w : world) : world :=
  if held then emit PutConn w else w.

(** The body of the [try]: [get_connection()], the cursor, the operation and
    [commit()].  The result also tells whether [conn] was assigned. *)
Definition try_body {A} (operation : Z -> cursor A) (w : world)
  : result (A * db) * bool * world :=
  let w0 := mk_world (store w) (clock w) (tl (faults w)) (log w) in
  match hd NoFault (faults w) with
  | AcquireFails e => (Raise e, false, emit (GetConn false) w0)
  | ExecuteFails e => (Raise e, true, emit (GetConn true) w0)
  | CommitFails e =>
      match operation (clock w) (store w) with
      | Ok _ => (Raise e, true, emit (GetConn true) w0)
      | Raise e' => (Raise e', true, emit (GetConn true) w0)
      end
  | NoFault => (operation (clock w) (store w), true, emit (GetConn true) w0)
  end.

(** [for attempt in range(max_retries)], counted by the attempts that
    remain; [attempt == max_retries - 1] is [remaining = 1].  When the loop
    ends without [return] or [raise] the function returns [None]. *)
Fixpoint execute_loop {A} (operation : Z -> cursor A) (remaining : nat) (w : world)
  : result (option A) * world :=
  match remaining with
  | O => (Ok None, w)
  | S remaining' =>
      match try_body operation w with
      | (Ok (r, s'), held, w1) =>
          (Ok (Some r), return_connection held (commit s' w1))
      | (Raise e, held, w1) =>
          let w2 := if held then rollback w1 else w1 in
          if is_transient e then
            match remaining' with
            | O => (Raise e, return_connection held w2)
            | S _ => execute_loop operation remaining' (return_connection held (sleep 1 w2))
            end
          else (Raise e, return_connection held w2)
      end
  end.

Definition execute_with_retry {A} (operation : Z -> cursor A) (max_retries : nat) (w : world)
  : result (option A) * world :=
  execute_loop operation max_retries w.

(** ** The methods of [Database] *)

Definition _create_tables : cursor unit :=
  drop_persons ;;
  drop_contact_info ;;
  drop_documents ;;
  create_persons ;;
  create_contact_info_if_not_exists ;;
  create_documents_if_not_exists.

Definition create_tables (w : world) : result unit * world :=
  match execute_with_retry (fun _ => _create_tables) 3 w with
  | (Ok _, w') => (Ok tt, w')
  | (Raise e, w') => (Raise e, w')
  end.

(** The five [for] loops that insert the children of [person_id]; the last
    one is guarded in [update_record] only. *)
Definition insert_contacts (person_id : Z) (record : payload) : cursor unit :=
  l <- lift (get_list (mobile_numbers record)) ;;
  for_each l (fun mobile => insert_contact_info person_id "mobile" mobile) ;;
  l <- lift (get_list (whatsapp_numbers record)) ;;
  for_each l (fun whatsapp => insert_contact_info person_id "whatsapp" whatsapp) ;;
  l <- lift (get_list (facebook_links record)) ;;
  for_each l (fun fb_link => insert_contact_info person_id "facebook" fb_link) ;;
  l <- lift (get_list (website_links record)) ;;
  for_each l (fun website => insert_contact_info person_id "website" website).

Definition _add_record (now : Z) (record : payload) : cursor Z :=
  let image := json_image (image_data record) in
  v1 <- lift (getitem "full_name" (full_name record)) ;;
  v2 <- lift (getitem "father_name" (father_name record)) ;;
  v3 <- lift (getitem "mother_name" (mother_name record)) ;;
  v4 <- lift (getitem "dob" (dob record)) ;;
  v5 <- lift (getitem "gender" (gender record)) ;;
  v6 <- lift (getitem "nid" (nid record)) ;;
  v8 <- lift (getitem "permanent_address" (permanent_address record)) ;;
  v9 <- lift (getitem "present_address" (present_address record)) ;;
  person_id <- insert_persons v1 v2 v3 v4 v5 v6 (get (voter_no record)) v8 v9
                              image (get (description record)) now ;;
  insert_contacts person_id record ;;
  l <- lift (get_list (pdf_urls record)) ;;
  for_each l (fun u => insert_documents person_id u "pdf") ;;
  ret person_id.

Definition add_record (record : payload) (w : world) : option Z * world :=
  match execute_with_retry (fun now => _add_record now record) 3 w with
  | (Ok r, w') => (r, w')
  | (Raise _, w') => (None, w')
  end.

Definition to_dict_or_empty (record : aggregated_row) : person_dict :=
  mk_dict (a_person record)
          (filter_None (or_empty (a_mobile_numbers record)))
          (filter_None (or_empty (a_whatsapp_numbers record)))
          (filter_None (or_empty (a_facebook_links record)))
          (filter_None (or_empty (a_website_links record)))
          (filter_None (or_empty (a_pdf_urls record))).

Definition _get_all_records : cursor (list person_dict) :=
  records <- select_aggregated (fun _ => true) true ;;
  match records with
  | [] => ret []
  | _ => ret (map to_dict_or_empty records)
  end.

Definition get_all_records (w : world) : list person_dict * world :=
  match execute_with_retry (fun _ => _get_all_records) 3 w with
  | (Ok r, w') => (or_empty r, w')
  | (Raise _, w') => ([], w')
  end.

Definition _get_record (record_id : Z) : cursor (option person_dict) :=
  records <- select_aggregated (fun p => p_id p =? record_id) false ;;
  match records with
  | record :: _ =>
      m <- lift (iter (a_mobile_numbers record)) ;;
      w <- lift (iter (a_whatsapp_numbers record)) ;;
      f <- lift (iter (a_facebook_links record)) ;;
      s <- lift (iter (a_website_links record)) ;;
      ret (Some (mk_dict (a_person record) (filter_None m) (filter_None w)
                         (filter_None f) (filter_None s)
                         (filter_None (or_empty (a_pdf_urls record)))))
  | [] => ret None
  end.

(** No [try] here: what [execute_with_retry] raises reaches the caller. *)
Definition get_record (record_id : Z) (w : world) : result (option person_dict) * world :=
  match execute_with_retry (fun _ => _get_record record_id) 3 w with
  | (Ok (Some r), w') => (Ok r, w')
  | (Ok None, w') => (Ok None, w')
  | (Raise e, w') => (Raise e, w')
  end.

Definition _update_record (record_id : Z) (updated_data : payload) : cursor bool :=
  let image := json_image (image_data updated_data) in
  v1 <- lift (getitem "full_name" (full_name updated_data)) ;;
  v2 <- lift (getitem "father_name" (father_name updated_data)) ;;
  v3 <- lift (getitem "mother_name" (mother_name updated_data)) ;;
  v4 <- lift (getitem "dob" (dob updated_data)) ;;
  v5 <- lift (getitem "gender" (gender updated_data)) ;;
  v6 <- lift (getitem "nid" (nid updated_data)) ;;
  v8 <- lift (getitem "permanent_address" (permanent_address updated_data)) ;;
  v9 <- lift (getitem "present_address" (present_address updated_data)) ;;
  update_persons v1 v2 v3 v4 v5 v6 (get (voter_no updated_data)) v8 v9
                 image (get (description updated_data)) record_id ;;
  delete_contact_info_of record_id ;;
  insert_contacts record_id updated_data ;;
  (if contains_key (pdf_urls updated_data) then
     delete_documents_of record_id ;;
     l <- lift (iter (get (pdf_urls updated_data))) ;;
     for_each l (fun u => insert_documents record_id u "pdf")
   else ret tt) ;;
  ret true.

Definition update_record (record_id : Z) (updated_data : payload) (w : world)
  : option bool * world :=
  match execute_with_retry (fun _ => _update_record record_id updated_data) 3 w with
  | (Ok r, w') => (r, w')
  | (Raise _, w') => (Some false, w')
  end.

Definition _search_records (query : string) : cursor (list person_dict) :=
  match like_pattern (lower ("%" ++ query ++ "%")) with
  | None => lift (Raise InvalidEscapeSequence)
  | Some pattern =>
      records <- select_aggregated (fun p => ilike (p_full_name p) pattern) true ;;
      match records with
      | [] => ret []
      | _ => ret (map to_dict_or_empty records)
      end
  end.

Definition search_records (query : string) (w : world) : list person_dict * world :=
  match execute_with_retry (fun _ => _search_records query) 3 w with
  | (Ok r, w') => (or_empty r, w')
  | (Raise _, w') => ([], w')
  end.

Definition _delete_record (record_id : Z) : cursor bool :=
  delete_contact_info_of record_id ;;
  delete_documents_of record_id ;;
  delete_persons_where_id record_id ;;
  ret true.

Definition delete_record (record_id : Z) (w : world) : option bool * world :=
  match execute_with_retry (fun _ => _delete_record record_id) 3 w with
  | (Ok r, w') => (r, w')
  | (Raise _, w') => (Some false, w')
  end.

Definition _delete_all_records : cursor bool :=
  delete_all_contact_info ;;
  delete_all_documents ;;
  delete_all_persons ;;
  ret true.

Definition delete_all_records (w : world) : option bool * world :=
  match execute_with_retry (fun _ => _delete_all_records) 3 w with
  | (Ok r, w') => (r, w')
  | (Raise _, w') => (Some false, w')
  end.

(** ** Vocabulary of the properties *)

(** The next attempt meets no connection fault. *)
Definition no_fault (w : world) : Prop := hd NoFault (faults w) = NoFault.

(** The state [create_tables] leaves behind. *)
Definition fresh_db : db :=
  mk_db (Some (empty_table _)) (Some (empty_table _)) (Some (empty_table _)).

(** The integrity constraints of the schema: the three tables exist, [id]
    is a key of [persons] below the sequence, and every child row points to
    a person. *)
Definition wf (s : db) : Prop :=
  match persons s, contact_info s, documents s with
  | Some tp, Some tc, Some td =>
      NoDup (map p_id (rows tp))
      /\ Forall (fun p => p_id p < next_id tp) (rows tp)
      /\ Forall (fun c => In (ci_person_id c) (map p_id (rows tp))) (rows tc)
      /\ Forall (fun d => In (d_person_id d) (map p_id (rows tp))) (rows td)
  | _, _, _ => False
  end.

(** A required key: present, bound to text of at most [n] characters. *)
Definition text_within (n : nat) (f : field string) : bool :=
  match f with
  | Val s => (String.length s <=? n)%nat
  | _ => false
  end.

Definition present {A} (f : field A) : bool :=
  match f with
  | Val _ => true
  | _ => false
  end.

(** A child list: absent or a list, of values of at most [n] characters. *)
Definition values_within (n : nat) (f : field (list string)) : bool :=
  match f with
  | Missing => true
  | PyNone => false
  | Val l => forallb (fun s => (String.length s <=? n)%nat) l
  end.

Definition is_list {A} (f : field (list A)) : bool :=
  match f with
  | PyNone => false
  | _ => true
  end.

(** A payload the schema accepts: the mandatory keys are bound, every text
    fits its column, and the child lists are lists. *)
Definition valid_payload (r : payload) : bool :=
  text_within 255 (full_name r) && text_within 255 (father_name r)
  && text_within 255 (mother_name r) && present (dob r)
  && text_within 50 (gender r) && text_within 100 (nid r)
  && match get (voter_no r) with
     | Some s => (String.length s <=? 100)%nat
     | None => true
     end
  && present (permanent_address r) && present (present_address r)
  && values_within 255 (mobile_numbers r) && values_within 255 (whatsapp_numbers r)
  && values_within 255 (facebook_links r) && values_within 255 (website_links r)
  && is_list (pdf_urls r).

(** The list a [for] loop over [d.get(key, [])] runs through. *)
Definition submitted (f : field (list string)) : list string :=
  match f with
  | Val l => l
  | _ => []
  end.

Definition nonempty_list (f : field (list string)) : bool :=
  match f with
  | Val (_ :: _) => true
  | _ => false
  end.

(** Each of the four contact lists has at least one entry. *)
Definition has_contacts (r : payload) : bool :=
  nonempty_list (mobile_numbers r) && nonempty_list (whatsapp_numbers r)
  && nonempty_list (facebook_links r) && nonempty_list (website_links r).

(** No child list has an entry. *)
Definition no_children (r : payload) : bool :=
  match submitted (mobile_numbers r), submitted (whatsapp_numbers r),
        submitted (facebook_links r), submitted (website_links r),
        submitted (pdf_urls r) with
  | [], [], [], [], [] => true
  | _, _, _, _, _ => false
  end.

(** The scalar columns of a row are those of a payload. *)
Definition scalars_of (r : payload) (p : person_row) : Prop :=
  full_name r = Val (p_full_name p)
  /\ father_name r = Val (p_father_name p)
  /\ mother_name r = Val (p_mother_name p)
  /\ dob r = Val (p_dob p)
  /\ gender r = Val (p_gender p)
  /\ nid r = Val (p_nid p)
  /\ get (voter_no r) = p_voter_no p
  /\ permanent_address r = Val (p_permanent_address p)
  /\ present_address r = Val (p_present_address p)
  /\ get (image_data r) = p_image_data p
  /\ get (description r) = p_description p.

(** [got] lists, each once, the non-empty values among [given]. *)
Definition distinct_nonempty (given got : list string) : Prop :=
  NoDup got /\ forall v, In v got <-> (In v given /\ v <> "").

(** The stored contact values of one kind of one person, and the urls of
    its pdf documents, with their repetitions. *)
Definition kind_values (cis : list contact_row) (person_id : Z) (kind : string)
  : list string :=
  map ci_value
      (filter (fun c => (person_id =? ci_person_id c) && (ci_type c =? kind)%string) cis).

Definition pdf_urls_of (ds : list document_row) (person_id : Z) : list string :=
  map d_url
      (filter (fun d => (person_id =? d_person_id d) && (d_type d =? "pdf")%string) ds).

Definition contact_values (s : db) (person_id : Z) (kind : string) : list string :=
  match contact_info s with
  | Some t => kind_values (rows t) person_id kind
  | None => []
  end.

Definition pdf_values (s : db) (person_id : Z) : list string :=
  match documents s with
  | Some t => pdf_urls_of (rows t) person_id
  | None => []
  end.

(** The person rows of a store. *)
Definition person_rows (s : db) : list person_row :=
  match persons s with
  | Some t => rows t
  | None => []
  end.

(** [x] occurs in [s] (as a run of consecutive characters). *)
Fixpoint prefixb (x s : list ascii) : bool :=
  match x with
  | [] => true
  | c :: x' =>
      match s with
      | [] => false
      | c' :: s' => Ascii.eqb c c' && prefixb x' s'
      end
  end.

Fixpoint infixb (x s : list ascii) : bool :=
  prefixb x s || match s with [] => false | _ :: s' => infixb x s' end.

(** [name] contains [q], letter case aside. *)
Definition contains_ci (q name : string) : bool := infixb (lower q) (lower name).


Definition count_event (e : event -> bool) (l : list event) : nat :=
  List.length (filter e l).

Definition is_rollback (e : event) : bool :=
  match e with Rollback => true | _ => false end.

Definition is_commit (e : event) : bool :=
  match e with Commit => true | _ => false end.

Definition is_attempt (e : event) : bool :=
  match e with GetConn _ => true | _ => false end.

(** *** The Executor contract, attempt by attempt

    The contract of the Executor (acquire, execute, commit; roll back and
    retry on a transient failure, at most three attempts one second apart;
    roll back and give up on any other failure), written out for the three
    attempts with the calls each one makes.  A rollback is issued on the
    connection of the failed attempt, so there is none when the attempt
    failed to obtain a connection. *)

Inductive outcome (A : Type) : Type :=
| Done (r : A) (s : db)
| Failed (e : exn) (held : bool).

Arguments Done {A} r s.
Arguments Failed {A} e held.

(** What one attempt comes to, under fault [f], at time [now], on the
    committed database [s]. *)
Definition attempt_outcome {A} (operation : Z -> cursor A) (f : fault) (now : Z) (s : db)
  : outcome A :=
  match f, operation now s with
  | AcquireFails e, _ => Failed e false
  | ExecuteFails e, _ => Failed e true
  | _, Raise e => Failed e true
  | CommitFails e, Ok _ => Failed e true
  | NoFault, Ok (r, s') => Done r s'
  end.

Definition calls_of_success : list event := [GetConn true; Commit; PutConn].

Definition calls_of_final_failure (held : bool) : list event :=
  if held then [GetConn true; Rollback; PutConn] else [GetConn false].

Definition calls_of_retried_failure (held : bool) : list event :=
  if held then [GetConn true; Rollback; Sleep 1; PutConn] else [GetConn false; Sleep 1].

Definition second : Z := 1000000.

Definition retry_policy {A} (operation : Z -> cursor A) (w : world)
  : result (option A) * world :=
  let s := store w in
  let t := clock w in
  let f i := nth i (faults w) NoFault in
  let rest i := skipn i (faults w) in
  match attempt_outcome operation (f 0%nat) t s with
  | Done r s' => (Ok (Some r), mk_world s' t (rest 1%nat) (log w ++ calls_of_success))
  | Failed e1 h1 =>
      if negb (is_transient e1) then
        (Raise e1, mk_world s t (rest 1%nat) (log w ++ calls_of_final_failure h1))
      else
        let l1 := (log w ++ calls_of_retried_failure h1)%list in
        match attempt_outcome operation (f 1%nat) (t + second) s with
        | Done r s' =>
            (Ok (Some r), mk_world s' (t + second) (rest 2%nat) (l1 ++ calls_of_success))
        | Failed e2 h2 =>
            if negb (is_transient e2) then
              (Raise e2, mk_world s (t + second) (rest 2%nat) (l1 ++ calls_of_final_failure h2))
            else
              let l2 := (l1 ++ calls_of_retried_failure h2)%list in
              match attempt_outcome operation (f 2%nat) (t + second + second) s with
              | Done r s' =>
                  (Ok (Some r),
                   mk_world s' (t + second + second) (rest 3%nat) (l2 ++ calls_of_success))
              | Failed e3 h3 =>
                  (Raise e3,
                   mk_world s (t + second + second) (rest 3%nat)
                            (l2 ++ calls_of_final_failure h3))
              end
        end
  end.


Definition is_sleep (e : event) : bool :=
  match e with Sleep _ => true | _ => false end.

Definition is_acquired (e : event) : bool :=
  match e with GetConn true => true | _ => false end.

(** ** Concrete worlds used in the examples *)

Definition sample_payload : payload :=
  mk_payload (Val "Alice Roy") (Val "Anil Roy") (Val "Mina Roy") (Val 7305)
             (Val "Female") (Val "1990123456") (Val "") (Val "Dhaka") (Val "Sylhet")
             PyNone (Val "")
             (Val ["01711"; "01711"]) (Val ["01811"]) (Val ["fb.com/alice"])
             (Val ["alice.example"]) (Val ["https://i.example/p1.png"]).

Definition fresh_world : world := mk_world fresh_db 1000 [] [].

Definition sample_person (id : Z) (name : string) (created : Z) : person_row :=
  mk_person id name "Anil Roy" "Mina Roy" 7305 "Female" "1990123456" None
            "Dhaka" "Sylhet" None None created.

(** A database left by an earlier run: one person with one contact and one
    document. *)
Definition stale_db : db :=
  mk_db (Some (mk_table [sample_person 1 "Alice Roy" 500] 2))
        (Some (mk_table [mk_contact 1 1 "mobile" "01711"] 2))
        (Some (mk_table [mk_document 1 1 "https://i.example/p1.png" "pdf"] 2)).

Definition stale_world : world := mk_world stale_db 1000 [] [].

(** A valid payload without children, and the world after adding it to the
    fresh database. *)
Definition bare_payload : payload :=
  mk_payload (Val "Alice Roy") (Val "Anil Roy") (Val "Mina Roy") (Val 7305)
             (Val "Female") (Val "1990123456") (Val "") (Val "Dhaka") (Val "Sylhet")
             PyNone (Val "") (Val []) (Val []) (Val []) (Val []) (Val []).

Definition bare_world : world := snd (add_record bare_payload fresh_world).

(** The columns of [persons] that no UPDATE of this file assigns. *)
Definition identity_columns (s : db) : list (Z * Z) :=
  map (fun p => (p_id p, p_created_at p)) (person_rows s).

(** A statement that, when it succeeds, leaves [f] of the database as it
    was. *)
Definition preserves {X A} (f : db -> X) (c : cursor A) : Prop :=
  forall s a s', c s = Ok (a, s') -> f s' = f s.

(** The text bound to a key, and the row a valid payload is stored as. *)
Definition text (f : field string) : string :=
  match f with
  | Val s => s
  | _ => ""
  end.

Definition row_of (r : payload) (id created : Z) : person_row :=
  mk_person id (text (full_name r)) (text (father_name r)) (text (mother_name r))
            (match dob r with Val d => d | _ => 0 end)
            (text (gender r)) (text (nid r)) (get (voter_no r))
            (text (permanent_address r)) (text (present_address r))
            (get (image_data r)) (get (description r)) created.

(** The rows a loop of INSERTs appends, with the ids the sequence gives
    them from [n] on. *)
Fixpoint numbered_contacts (person_id : Z) (kind : string) (l : list string) (n : Z)
  : list contact_row :=
  match l with
  | [] => []
  | v :: l' => mk_contact n person_id kind v :: numbered_contacts person_id kind l' (n + 1)
  end.

Fixpoint numbered_documents (person_id : Z) (l : list string) (n : Z) : list document_row :=
  match l with
  | [] => []
  | u :: l' => mk_document n person_id u "pdf" :: numbered_documents person_id l' (n + 1)
  end.

(** The contact rows of a payload, in the order of the four loops. *)
Definition contacts_of (person_id : Z) (r : payload) (n : Z) : list contact_row :=
  let l1 := submitted (mobile_numbers r) in
  let l2 := submitted (whatsapp_numbers r) in
  let l3 := submitted (facebook_links r) in
  let l4 := submitted (website_links r) in
  let n2 := n + Z.of_nat (List.length l1) in
  let n3 := n2 + Z.of_nat (List.length l2) in
  let n4 := n3 + Z.of_nat (List.length l3) in
  (numbered_contacts person_id "mobile" l1 n
   ++ numbered_contacts person_id "whatsapp" l2 n2
   ++ numbered_contacts person_id "facebook" l3 n3
   ++ numbered_contacts person_id "website" l4 n4)%list.

Definition contacts_count (r : payload) : Z :=
  Z.of_nat (List.length (submitted (mobile_numbers r)))
  + Z.of_nat (List.length (submitted (whatsapp_numbers r)))
  + Z.of_nat (List.length (submitted (facebook_links r)))
  + Z.of_nat (List.length (submitted (website_links r))).

(** The five lists of a returned dictionary are the distinct non-empty
    values stored for its person. *)
Definition children_of (s : db) (d : person_dict) : Prop :=
  let i := p_id (out_person d) in
  distinct_nonempty (contact_values s i "mobile") (out_mobile_numbers d)
  /\ distinct_nonempty (contact_values s i "whatsapp") (out_whatsapp_numbers d)
  /\ distinct_nonempty (contact_values s i "facebook") (out_facebook_links d)
  /\ distinct_nonempty (contact_values s i "website") (out_website_links d)
  /\ distinct_nonempty (pdf_values s i) (out_pdf_urls d).

(** The five lists of a returned dictionary are the distinct non-empty
    values of a payload. *)
Definition children_from (r : payload) (d : person_dict) : Prop :=
  distinct_nonempty (submitted (mobile_numbers r)) (out_mobile_numbers d)
  /\ distinct_nonempty (submitted (whatsapp_numbers r)) (out_whatsapp_numbers d)
  /\ distinct_nonempty (submitted (facebook_links r)) (out_facebook_links d)
  /\ distinct_nonempty (submitted (website_links r)) (out_website_links d)
  /\ distinct_nonempty (submitted (pdf_urls r)) (out_pdf_urls d).

(** The three tables exist. *)
Definition has_tables (s : db) : Prop :=
  persons s <> None /\ contact_info s <> None /\ documents s <> None.

(** The id the next INSERT INTO persons receives. *)
Definition next_person_id (s : db) : Z :=
  match persons s with
  | Some tp => next_id tp
  | None => 0
  end.

(** The database after a successful [add_record] of [r] at time [now]. *)
Definition added (r : payload) (now : Z) (s : db) : db :=
  match persons s, contact_info s, documents s with
  | Some tp, Some tc, Some td =>
      mk_db (Some (mk_table (rows tp ++ [row_of r (next_id tp) now]) (next_id tp + 1)))
            (Some (mk_table (rows tc ++ contacts_of (next_id tp) r (next_id tc))
                            (next_id tc + contacts_count r)))
            (Some (mk_table (rows td
                             ++ numbered_documents (next_id tp) (submitted (pdf_urls r))
                                                   (next_id td))
                            (next_id td + Z.of_nat (List.length (submitted (pdf_urls r))))))
  | _, _, _ => s
  end.

(** The row an UPDATE of [record_id] makes of [p]. *)
Definition rewritten (r : payload) (record_id : Z) (p : person_row) : person_row :=
  if p_id p =? record_id then row_of r (p_id p) (p_created_at p) else p.

(** The database after a successful [update_record] of [record_id] with
    [r]. *)
Definition updated (r : payload) (record_id : Z) (s : db) : db :=
  match persons s, contact_info s, documents s with
  | Some tp, Some tc, Some td =>
      mk_db (Some (mk_table (map (rewritten r record_id) (rows tp)) (next_id tp)))
            (Some (mk_table
                     (filter (fun c => negb (ci_person_id c =? record_id)) (rows tc)
                      ++ contacts_of record_id r (next_id tc))
                     (next_id tc + contacts_count r)))
            (if contains_key (pdf_urls r)
             then Some (mk_table
                          (filter (fun d => negb (d_person_id d =? record_id)) (rows td)
                           ++ numbered_documents record_id (submitted (pdf_urls r))
                                                 (next_id td))
                          (next_id td + Z.of_nat (List.length (submitted (pdf_urls r)))))
             else Some td)
  | _, _, _ => s
  end.

(** A person with this id is stored. *)
Definition person_exists (s : db) (record_id : Z) : bool :=
  existsb (fun p => p_id p =? record_id) (person_rows s).

(** A payload that keeps its own documents apart: one person with a
    document, then an update without the key [pdf_urls]. *)
Definition payload_without_pdf_key : payload :=
  mk_payload (Val "Alice Rahman") (Val "Anil Roy") (Val "Mina Roy") (Val 7305)
             (Val "Female") (Val "1990123456") (Val "") (Val "Dhaka") (Val "Sylhet")
             PyNone (Val "")
             (Val ["01999"]) (Val ["01811"]) (Val ["fb.com/alice"])
             (Val ["alice.example"]) Missing.

Definition sample_world : world := snd (add_record sample_payload fresh_world).

(** The contact and document rows of a store. *)
Definition contact_rows (s : db) : list contact_row :=
  match contact_info s with
  | Some t => rows t
  | None => []
  end.

Definition document_rows (s : db) : list document_row :=
  match documents s with
  | Some t => rows t
  | None => []
  end.

(** The dictionary [get_all_records] and [search_records] build for a
    person row of a store. *)
Definition dict_of (s : db) (p : person_row) : person_dict :=
  to_dict_or_empty (aggregate (contact_rows s) (document_rows s) p).

(** The same world when the clock reads [t]. *)
Definition at_time (t : Z) (w : world) : world :=
  mk_world (store w) t (faults w) (log w).

(** [p] is not older than [q]. *)
Definition newer_first (p q : person_row) : Prop := p_created_at q <= p_created_at p.

Definition dict_newer_first (a b : person_dict) : Prop :=
  newer_first (out_person a) (out_person b).

(** Three further valid payloads, named as in the ordering example. *)
Definition payload_named (name : string) : payload :=
  mk_payload (Val name) (Val "Anil Roy") (Val "Mina Roy") (Val 7305)
             (Val "Male") (Val "1990123456") (Val "") (Val "Dhaka") (Val "Sylhet")
             PyNone (Val "") (Val []) (Val []) (Val []) (Val []) (Val []).

(** A character LIKE gives a meaning to. *)
Definition special (c : ascii) : bool :=
  Ascii.eqb c "\"%char || Ascii.eqb c "%"%char || Ascii.eqb c "_"%char.

(** A query without the characters LIKE gives a meaning to. *)
Definition plain (q : string) : bool :=
  forallb (fun c => negb (special c)) (list_ascii_of_string q).

(** The fresh database after adding "Alice Roy" and then "bob alice". *)
Definition two_names_world : world :=
  let w1 := at_time 2000 (snd (add_record (payload_named "Alice Roy") fresh_world)) in
  snd (add_record (payload_named "bob alice") w1).

Definition names (ds : list person_dict) : list string :=
  map (fun d => p_full_name (out_person d)) ds.

(** A connection that fails under every attempt of one call. *)
Definition broken_world : world :=
  mk_world (store bare_world) 5000
           [ExecuteFails OperationalError; ExecuteFails OperationalError;
            ExecuteFails OperationalError] [].

(** A list of a dictionary is empty when nothing of its kind is stored. *)
Definition empty_when_none (s : db) (d : person_dict) : Prop :=
  let i := p_id (out_person d) in
  (contact_values s i "mobile" = [] -> out_mobile_numbers d = [])
  /\ (contact_values s i "whatsapp" = [] -> out_whatsapp_numbers d = [])
  /\ (contact_values s i "facebook" = [] -> out_facebook_links d = [])
  /\ (contact_values s i "website" = [] -> out_website_links d = [])
  /\ (pdf_values s i = [] -> out_pdf_urls d = []).

(** ** Further vocabulary: the rest of [database.py] *)

Definition is_putconn (e : event) : bool :=
  match e with PutConn => true | _ => false end.

(** The first mandatory key a payload lacks, in the order [_add_record] and
    [_update_record] read them. *)
Definition missing_key (r : payload) : option string :=
  if negb (contains_key (full_name r)) then Some "full_name"
  else if negb (contains_key (father_name r)) then Some "father_name"
  else if negb (contains_key (mother_name r)) then Some "mother_name"
  else if negb (contains_key (dob r)) then Some "dob"
  else if negb (contains_key (gender r)) then Some "gender"
  else if negb (contains_key (nid r)) then Some "nid"
  else if negb (contains_key (permanent_address r)) then Some "permanent_address"
  else if negb (contains_key (present_address r)) then Some "present_address"
  else None.

(** A statement that, when it succeeds, keeps an invariant of the
    database. *)
Definition keeps {A} (I : db -> Prop) (c : cursor A) : Prop :=
  forall s a s', I s -> c s = Ok (a, s') -> I s'.

(** The database after a successful [delete_record]. *)
Definition deleted (record_id : Z) (s : db) : db :=
  match persons s, contact_info s, documents s with
  | Some tp, Some tc, Some td =>
      mk_db (Some (mk_table (filter (fun p => negb (p_id p =? record_id)) (rows tp))
                            (next_id tp)))
            (Some (mk_table (filter (fun c => negb (ci_person_id c =? record_id)) (rows tc))
                            (next_id tc)))
            (Some (mk_table (filter (fun d => negb (d_person_id d =? record_id)) (rows td))
                            (next_id td)))
  | _, _, _ => s
  end.

(** A payload without the key [full_name]. *)
Definition payload_without_name : payload :=
  mk_payload Missing (Val "Anil Roy") (Val "Mina Roy") (Val 7305)
             (Val "Female") (Val "1990123456") (Val "") (Val "Dhaka") (Val "Sylhet")
             PyNone (Val "") (Val ["01711"]) (Val []) (Val []) (Val []) (Val []).

(** One of the four contact kinds has no stored value for the person. *)
Definition lacks_contact_kind (s : db) (record_id : Z) : bool :=
  match contact_values s record_id "mobile", contact_values s record_id "whatsapp",
        contact_values s record_id "facebook", contact_values s record_id "website" with
  | _ :: _, _ :: _, _ :: _, _ :: _ => false
  | _, _, _, _ => true
  end.

(** The database after a successful [delete_all_records]: the rows go, the
    sequences stay. *)
Definition emptied (s : db) : db :=
  match persons s, contact_info s, documents s with
  | Some tp, Some tc, Some td =>
      mk_db (Some (mk_table [] (next_id tp))) (Some (mk_table [] (next_id tc)))
            (Some (mk_table [] (next_id td)))
  | _, _, _ => s
  end.

(** The rows of the three tables, table by table ([None] for a table that
    does not exist).  The sequences are left out: PostgreSQL does not give
    back the ids a rolled-back INSERT took. *)
Definition rows_of (s : db)
  : option (list person_row) * option (list contact_row) * option (list document_row) :=
  (option_map (@rows _) (persons s), option_map (@rows _) (contact_info s),
   option_map (@rows _) (documents s)).

(** A payload whose person row is accepted and whose mobile number is too
    long for its column: the INSERT into [contact_info] fails after the
    INSERT into [persons]. *)
Definition payload_with_long_contact : payload :=
  mk_payload (Val "Alice Roy") (Val "Anil Roy") (Val "Mina Roy") (Val 7305)
             (Val "Female") (Val "1990123456") (Val "") (Val "Dhaka") (Val "Sylhet")
             PyNone (Val "")
             (Val [string_of_list_ascii (repeat "9"%char 300)]) (Val []) (Val []) (Val [])
             (Val []).
(** ** The connection pool: [init_connection_pool] and [get_connection] *)

(** The calls [init_connection_pool] and [get_connection] make, in the
    order made. *)
Inductive pool_call : Type :=
| NewPool (built : bool)       (* [pool.SimpleConnectionPool(...)] *)
| PoolSleep (seconds : Z)      (* [time.sleep(seconds)] *)
| Lease (leased : bool).       (* [self.connection_pool.getconn()] *)

(** The [Database] object as the two methods see it: whether
    [self.connection_pool] is set, what the constructor calls and the
    [getconn] calls to come will do (build or lease, or raise, as the
    environment decides), the wall clock in seconds and the calls made. *)
Record pool_state : Type := mk_pool {
  connection_pool : bool;
  constructions : list (option exn);
  leases : list (option exn);
  pool_clock : Z;
  pool_calls : list pool_call
}.

Definition pool_emit (c : pool_call) (p : pool_state) : pool_state :=
  mk_pool (connection_pool p) (constructions p) (leases p) (pool_clock p)
          (pool_calls p ++ [c]).

(** [self.connection_pool = pool.SimpleConnectionPool(1, 20, ...)]: reading
    a secret or connecting may raise, and then nothing is assigned. *)
Definition new_pool (p : pool_state) : result unit * pool_state :=
  let p0 := mk_pool (connection_pool p) (tl (constructions p)) (leases p) (pool_clock p)
                    (pool_calls p) in
  match hd None (constructions p) with
  | None =>
      (Ok tt, pool_emit (NewPool true)
                (mk_pool true (constructions p0) (leases p0) (pool_clock p0) (pool_calls p0)))
  | Some e => (Raise e, pool_emit (NewPool false) p0)
  end.

Definition pool_sleep (seconds : Z) (p : pool_state) : pool_state :=
  pool_emit (PoolSleep seconds)
    (mk_pool (connection_pool p) (constructions p) (leases p) (pool_clock p + seconds)
             (pool_calls p)).

(** [for attempt in range(max_retries)], counted by the attempts that
    remain; [attempt == max_retries - 1] is [remaining = 1].  [except
    Exception] catches whatever the constructor raises. *)
Fixpoint init_loop (remaining : nat) (p : pool_state) : result unit * pool_state :=
  match remaining with
  | O => (Ok tt, p)
  | S remaining' =>
      match (if connection_pool p then (Ok tt, p) else new_pool p) with
      | (Ok _, p1) => (Ok tt, p1)
      | (Raise e, p1) =>
          match remaining' with
          | O => (Raise e, p1)
          | S _ => init_loop remaining' (pool_sleep 1 p1)
          end
      end
  end.

Definition init_connection_pool (p : pool_state) : result unit * pool_state :=
  init_loop 3 p.

(** [self.connection_pool.getconn()] *)
Definition getconn (p : pool_state) : result unit * pool_state :=
  let p0 := mk_pool (connection_pool p) (constructions p) (tl (leases p)) (pool_clock p)
                    (pool_calls p) in
  match hd None (leases p) with
  | None => (Ok tt, pool_emit (Lease true) p0)
  | Some e => (Raise e, pool_emit (Lease false) p0)
  end.

Definition get_connection (p : pool_state) : result unit * pool_state :=
  match (if connection_pool p then (Ok tt, p) else init_connection_pool p) with
  | (Ok _, p1) => getconn p1
  | (Raise e, p1) => (Raise e, p1)
  end.

Definition count_call (f : pool_call -> bool) (l : list pool_call) : nat :=
  List.length (filter f l).

Definition is_new_pool (c : pool_call) : bool :=
  match c with NewPool _ => true | _ => false end.

Definition is_pool_sleep (c : pool_call) : bool :=
  match c with PoolSleep _ => true | _ => false end.

Definition is_lease (c : pool_call) : bool :=
  match c with Lease _ => true | _ => false end.

(** The errors of the first [n] constructor calls to come, when they all
    fail. *)
Fixpoint all_fail (n : nat) (l : list (option exn)) : option (list exn) :=
  match n with
  | O => Some []
  | S n' =>
      match l with
      | Some e :: rest => option_map (cons e) (all_fail n' rest)
      | _ => None
      end
  end.

(** * The user interface *)

From Stdlib Require DecimalString DecimalZ.

(** ** Python values, [st.session_state] and [st.secrets] *)

(** The values the scripts keep in the session state and read from the
    secrets. *)
Inductive pyval : Type :=
| VNone
| VBool (b : bool)
| VInt (n : Z)
| VStr (s : string).

(** [bool(v)] *)
Definition truthy (v : pyval) : bool :=
  match v with
  | VNone => false
  | VBool b => b
  | VInt n => negb (n =? 0)
  | VStr s => negb (s =? "")%string
  end.

(** A dict-like object with string keys. *)
Definition mapping : Type := string -> option pyval.

Definition empty_mapping : mapping := fun _ => None.

(** [d[key] = v] *)
Definition set_item (key : string) (v : pyval) (d : mapping) : mapping :=
  fun k => if (k =? key)%string then Some v else d k.

(** [d.get(key)]: [None] when the key is absent. *)
Definition get_item (key : string) (d : mapping) : pyval :=
  match d key with
  | Some v => v
  | None => VNone
  end.

(** [key in d] *)
Definition has_key (key : string) (d : mapping) : bool :=
  match d key with
  | Some _ => true
  | None => false
  end.

(** [str(n)], as an f-string formats an integer. *)
Definition str (n : Z) : string :=
  DecimalString.NilEmpty.string_of_int (Z.to_int n).

(** [v == n] for an integer [n]; [True == 1] and [False == 0] in Python. *)
Definition equals_int (v : pyval) (n : Z) : bool :=
  match v with
  | VInt m => m =? n
  | VBool b => (if b then 1 else 0) =? n
  | _ => false
  end.

(** [s == v] for a string [s]. *)
Definition equals_str (s : string) (v : pyval) : bool :=
  match v with
  | VStr t => (s =? t)%string
  | _ => false
  end.

(** ** The upload service ([utils.py]) *)

(** What a [requests.post] to the image host comes to. *)
Inductive response : Type :=
| Unreachable                (* [requests.post] raises *)
| Refused                    (* [raise_for_status()] raises *)
| Unreadable                 (* [response.json()['data']['url']] raises *)
| Hosted (image_url : string).

(** The image host as [upload_to_imgbb] sees it: [IMGBB_API_KEY] in the
    environment, the responses to come and the names posted so far. *)
Record host : Type := mk_host {
  api_key : option string;
  responses : list response;
  posted : list string
}.

(** [upload_to_imgbb(image_data, name)]; the bytes play no part in the
    control flow and are left out.  [not api_key] holds for an unset and for
    an empty variable. *)
Definition upload_to_imgbb (name : string) (h : host) : option string * host :=
  match api_key h with
  | None => (None, h)
  | Some key =>
      if (key =? "")%string then (None, h)
      else
        let h' := mk_host (api_key h) (tl (responses h)) (posted h ++ [name]) in
        match hd Unreachable (responses h) with
        | Hosted image_url => (Some image_url, h')
        | _ => (None, h')
        end
  end.

(** An uploaded image file: its name and the base64 text of the PNG that
    PIL makes of it, [None] when [Image.open], [thumbnail] or [save]
    raises. *)
Record image_file : Type := mk_image_file {
  image_name : string;
  png : option string
}.

(** [if image_url] *)
Definition nonempty (s : string) : bool := negb (s =? "")%string.

Definition load_image (file : option image_file) (h : host) : option image * host :=
  match file with
  | None => (None, h)
  | Some f =>
      match png f with
      | None => (None, h)
      | Some preview =>
          match upload_to_imgbb (image_name f) h with
          | (Some image_url, h1) =>
              (if nonempty image_url then Some (mk_image image_url preview) else None, h1)
          | (None, h1) => (None, h1)
          end
      end
  end.

(** An uploaded PDF file: its name and what [convert_from_bytes] makes of
    it, [None] when reading or converting raises; of each page, whether
    [image.save] succeeds. *)
Record pdf_file : Type := mk_pdf_file {
  pdf_name : string;
  pages : option (list bool)
}.

(** [for i, image in enumerate(images)]; [None] when a page raises. *)
Fixpoint upload_pages (name : string) (i : nat) (images : list bool)
    (image_urls : list string) (h : host) : option (list string) * host :=
  match images with
  | [] => (Some image_urls, h)
  | saved :: rest =>
      if saved then
        match upload_to_imgbb (name ++ "_page_" ++ str (Z.of_nat i + 1)) h with
        | (Some image_url, h1) =>
            upload_pages name (S i) rest
              (if nonempty image_url then image_urls ++ [image_url] else image_urls) h1
        | (None, h1) => upload_pages name (S i) rest image_urls h1
        end
      else (None, h)
  end.

Definition process_pdf (file : pdf_file) (h : host) : list string * host :=
  match pages file with
  | None => ([], h)
  | Some images =>
      match upload_pages (pdf_name file) 0 images [] h with
      | (Some image_urls, h1) => (image_urls, h1)
      | (None, h1) => ([], h1)
      end
  end.

(** ** Script runs *)

(** What the scripts raise besides the exceptions of the data layer. *)
Inductive ui_exn : Type :=
| AttributeError (name : string)
| Python (e : exn).

(** What a script run puts on the page, as far as it tells one outcome from
    another. *)
Inductive message : Type :=
| st_error (text : string)
| st_info (text : string)
| st_success (text : string)
| st_exception (text : string) (e : ui_exn)   (* [st.error(f"...: {str(e)}")] *)
| record_card (record : person_dict).

(** What a script run works on. *)
Record state : Type := mk_state {
  session_state : mapping;
  secrets : mapping;
  imgbb : host;
  database : world;
  screen : list message
}.

(** How a piece of script ends: it returns, [st.rerun()] or [st.stop()]
    unwinds it (they derive from [BaseException], so [except Exception] lets
    them through), or an exception does. *)
Inductive control (A : Type) : Type :=
| Returned (a : A)
| Rerun
| Stopped
| Raised (e : ui_exn).

Arguments Returned {A} a.
Arguments Rerun {A}.
Arguments Stopped {A}.
Arguments Raised {A} e.

Definition action (A : Type) : Type := state -> control A * state.

Definition done {A} (a : A) : action A := fun s => (Returned a, s).

Definition and_then {A B} (c : action A) (k : A -> action B) : action B :=
  fun s =>
    match c s with
    | (Returned a, s1) => k a s1
    | (Rerun, s1) => (Rerun, s1)
    | (Stopped, s1) => (Stopped, s1)
    | (Raised e, s1) => (Raised e, s1)
    end.

Declare Scope action_scope.
Delimit Scope action_scope with action.
Notation "'let*' x ':=' c 'in' k" := (and_then c (fun x => k))
  (at level 10, x name, c at level 100, k at level 200) : action_scope.
Notation "c '>>' k" := (and_then c (fun _ => k))
  (at level 61, right associativity) : action_scope.
Local Open Scope action_scope.

Definition st_rerun {A} : action A := fun s => (Rerun, s).

Definition st_stop {A} : action A := fun s => (Stopped, s).

Definition raise {A} (e : ui_exn) : action A := fun s => (Raised e, s).

(** [try: body except Exception as e: handler] *)
Definition try_except {A} (body : action A) (handler : ui_exn -> action A) : action A :=
  fun s =>
    match body s with
    | (Raised e, s1) => handler e s1
    | r => r
    end.

Definition show (m : message) : action unit :=
  fun s => (Returned tt,
            mk_state (session_state s) (secrets s) (imgbb s) (database s) (screen s ++ [m])).

(** [st.session_state[key] = v] *)
Definition assign (key : string) (v : pyval) : action unit :=
  fun s => (Returned tt,
            mk_state (set_item key v (session_state s)) (secrets s) (imgbb s) (database s)
                     (screen s)).

Definition read_session : action mapping := fun s => (Returned (session_state s), s).

(** A call of a function of [utils.py]. *)
Definition on_host {A} (f : host -> A * host) : action A :=
  fun s => let (a, h) := f (imgbb s) in
           (Returned a, mk_state (session_state s) (secrets s) h (database s) (screen s)).

(** A call of a method of [db]. *)
Definition on_database {A} (f : world -> A * world) : action A :=
  fun s => let (a, w) := f (database s) in
           (Returned a, mk_state (session_state s) (secrets s) (imgbb s) w (screen s)).

Fixpoint for_loop {A} (l : list A) (body : A -> action unit) : action unit :=
  match l with
  | [] => done tt
  | x :: rest => body x >> for_loop rest body
  end.

(** ** [components.py]: the entry form *)

(** [st.text_input(label, value=value, key=key)]: the widget gives what the
    session holds under its key, the default otherwise, and the session
    holds it from then on. *)
Definition text_input (value key : string) : action string :=
  fun s =>
    let v := match session_state s key with
             | Some (VStr typed) => typed
             | _ => value
             end in
    (Returned v,
     mk_state (set_item key (VStr v) (session_state s)) (secrets s) (imgbb s) (database s)
              (screen s)).

(** [initial_values[i] if initial_values and i < len(initial_values) else ""] *)
Definition initial_value (initial_values : option (list string)) (i : nat) : string :=
  match initial_values with
  | Some (x :: l) => if (i <? List.length (x :: l))%nat then nth i (x :: l) "" else ""
  | _ => ""
  end.

(** [for i in range(inputs)], with [values] as built so far. *)
Fixpoint inputs_loop (key_prefix : string) (initial_values : option (list string))
    (indices : list nat) (values : list string) : action (list string) :=
  match indices with
  | [] => done values
  | i :: rest =>
      let* value := text_input (initial_value initial_values i)
                               (key_prefix ++ "_" ++ str (Z.of_nat i)) in
      inputs_loop key_prefix initial_values rest
                  (if nonempty value then values ++ [value] else values)
  end.

(** [st.session_state.get(f"{key_prefix}_count", max(1, len(initial_values
    or [])))] as [range] takes it: a bool counts as an integer, anything
    else that is no integer is a [TypeError]. *)
Definition inputs_of (key_prefix : string) (initial_values : option (list string))
    (ss : mapping) : result Z :=
  match ss (key_prefix ++ "_count") with
  | None => Ok (Z.max 1 (Z.of_nat (List.length (or_empty initial_values))))
  | Some (VInt n) => Ok n
  | Some (VBool b) => Ok (if b then 1 else 0)
  | Some _ => Raise TypeError
  end.

Definition render_multiple_inputs (key_prefix : string)
    (initial_values : option (list string)) : action (list string) :=
  let* ss := read_session in
  match inputs_of key_prefix initial_values ss with
  | Raise e => raise (Python e)
  | Ok inputs =>
      let* values := inputs_loop key_prefix initial_values (seq 0 (Z.to_nat inputs)) [] in
      let* ss1 := read_session in
      if truthy (get_item ("add_" ++ key_prefix) ss1) then
        assign (key_prefix ++ "_count") (VInt (inputs + 1)) >>
        assign ("add_" ++ key_prefix) (VBool false) >>
        st_rerun
      else done values
  end.

(** [gender_options] *)
Inductive gender_option : Type := Male | Female | Other.

Definition gender_text (g : gender_option) : string :=
  match g with
  | Male => "Male"
  | Female => "Female"
  | Other => "Other"
  end.

(** What the widgets of the form that have no key give in one run, as the
    user left them: the texts, the date and the option picked, the files
    uploaded and the buttons clicked.  A text widget gives a string, or
    [None] when its default is [None] and it is left alone. *)
Record entry_widgets : Type := mk_entry {
  full_name_text : string;
  father_name_text : string;
  mother_name_text : string;
  dob_picked : date;
  gender_picked : gender_option;
  nid_text : string;
  voter_no_text : option string;
  permanent_address_text : string;
  present_address_text : string;
  image_uploaded : option image_file;
  pdf_uploaded : list pdf_file;
  description_text : option string;
  submit_clicked : bool;
  add_mobile_clicked : bool;
  add_whatsapp_clicked : bool;
  add_facebook_clicked : bool;
  add_website_clicked : bool
}.

(** A value bound to a key of the payload. *)
Definition bound {A} (v : option A) : field A :=
  match v with
  | Some a => Val a
  | None => PyNone
  end.

(** [for key_prefix in [...]: if f"{key_prefix}_count" not in
    st.session_state: st.session_state[f"{key_prefix}_count"] = 1] *)
Definition init_counts (prefixes : list string) : action unit :=
  for_loop prefixes
    (fun key_prefix =>
       let* ss := read_session in
       if has_key (key_prefix ++ "_count") ss then done tt
       else assign (key_prefix ++ "_count") (VInt 1)).

(** [for pdf_file in pdf_files: pdf_urls.extend(process_pdf(pdf_file))] *)
Fixpoint extend_pdf_urls (pdf_files : list pdf_file) (pdf_urls : list string)
  : action (list string) :=
  match pdf_files with
  | [] => done pdf_urls
  | file :: rest =>
      let* new_urls := on_host (process_pdf file) in
      extend_pdf_urls rest (pdf_urls ++ new_urls)
  end.

(** [all([full_name, father_name, mother_name, nid, permanent_address,
    present_address])] *)
Definition required_filled (ui : entry_widgets) : bool :=
  forallb nonempty
    [full_name_text ui; father_name_text ui; mother_name_text ui; nid_text ui;
     permanent_address_text ui; present_address_text ui].

(** What the form does with the values of its widgets: the [if submitted:]
    block and, when the form was not submitted, the buttons below it.  The
    key ['id'] of the dictionary returned is left out: no method of [db]
    reads it. *)
Definition on_submit (record : option person_dict) (ui : entry_widgets)
    (mobile_numbers whatsapp_numbers facebook_links website_links : list string)
  : action (option payload) :=
  if submit_clicked ui then
    if negb (required_filled ui) then
      show (st_error "Please fill all required fields marked with *") >>
      done None
    else
      let* image_data :=
        match image_uploaded ui with
        | Some file => on_host (load_image (Some file))
        | None =>
            done match record with
                 | Some r => p_image_data (out_person r)
                 | None => None
                 end
        end in
      let* pdf_urls :=
        extend_pdf_urls (pdf_uploaded ui)
                        match record with
                        | Some r => out_pdf_urls r
                        | None => []
                        end in
      done (Some (mk_payload (Val (full_name_text ui)) (Val (father_name_text ui))
                             (Val (mother_name_text ui)) (Val (dob_picked ui))
                             (Val (gender_text (gender_picked ui))) (Val (nid_text ui))
                             (bound (voter_no_text ui)) (Val (permanent_address_text ui))
                             (Val (present_address_text ui)) (bound image_data)
                             (bound (description_text ui)) (Val mobile_numbers)
                             (Val whatsapp_numbers) (Val facebook_links)
                             (Val website_links) (Val pdf_urls)))
  else
    (if add_mobile_clicked ui then assign "add_mobile" (VBool true) else done tt) >>
    (if add_whatsapp_clicked ui then assign "add_whatsapp" (VBool true) else done tt) >>
    (if add_facebook_clicked ui then assign "add_facebook" (VBool true) else done tt) >>
    (if add_website_clicked ui then assign "add_website" (VBool true) else done tt) >>
    done None.

(** [render_entry_form(record)] *)
Definition render_entry_form (record : option person_dict) (ui : entry_widgets)
  : action (option payload) :=
  init_counts ["mobile"; "whatsapp"; "facebook"; "website"] >>
  let* mobile_numbers :=
    render_multiple_inputs "mobile" (option_map out_mobile_numbers record) in
  let* whatsapp_numbers :=
    render_multiple_inputs "whatsapp" (option_map out_whatsapp_numbers record) in
  let* facebook_links :=
    render_multiple_inputs "facebook" (option_map out_facebook_links record) in
  let* website_links :=
    render_multiple_inputs "website" (option_map out_website_links record) in
  on_submit record ui mobile_numbers whatsapp_numbers facebook_links website_links.

(** ** [components.py]: the record card *)

(** The buttons of the pages that carry a record id in their key. *)
Record record_buttons : Type := mk_buttons {
  edit_clicked : Z -> bool;      (* [key=f"edit_{record['id']}"] *)
  delete_clicked : Z -> bool     (* [key=f"delete_{record['id']}"] *)
}.

(** [render_record_card(record)]; of what it displays, the model keeps that
    the card of the record is on the page. *)
Definition render_record_card (buttons : record_buttons) (ui : entry_widgets)
    (record : person_dict) : action unit :=
  let id := p_id (out_person record) in
  show (record_card record) >>
  (if edit_clicked buttons id then
     assign "editing_record" (VInt id) >> st_rerun
   else done tt) >>
  let* ss := read_session in
  if equals_int (get_item "editing_record" ss) id then
    let* updated_data := render_entry_form (Some record) ui in
    match updated_data with
    | Some updated =>
        let* ok := on_database (update_record id updated) in
        match ok with
        | Some true =>
            show (st_success "Record updated successfully!") >>
            assign "editing_record" VNone >>
            st_rerun
        | _ => show (st_error "Failed to update record. Please try again.")
        end
    | None => done tt
    end
  else done tt.

(** ** [auth.py] *)

Definition init_auth : action unit :=
  let* ss := read_session in
  if has_key "authenticated" ss then done tt
  else assign "authenticated" (VBool false).

(** [st.session_state.authenticated] *)
Definition authenticated : action pyval :=
  let* ss := read_session in
  match ss "authenticated" with
  | Some v => done v
  | None => raise (AttributeError "authenticated")
  end.

(** [st.secrets[key]] *)
Definition secret (key : string) : action pyval :=
  fun s =>
    match secrets s key with
    | Some v => (Returned v, s)
    | None => (Raised (Python (KeyError key)), s)
    end.

(** [login_form()], with what the password field holds and whether the
    button was clicked. *)
Definition login_form (password : string) (login_clicked : bool) : action pyval :=
  let* v := authenticated in
  if truthy v then done (VBool true)
  else
    (if login_clicked then
       let* web_pass := secret "WEB_PASS" in
       if equals_str password web_pass then
         assign "authenticated" (VBool true) >>
         show (st_success "Successfully logged in!") >>
         st_rerun
       else show (st_error "Incorrect password")
     else done tt) >>
    authenticated.

Definition logout : action unit :=
  let* v := authenticated in
  if truthy v then assign "authenticated" (VBool false) else done tt.

(** ** [app.py] *)

(** The options of the sidebar radio. *)
Inductive page : Type := Data_entry | View_records | Search | Data_management.

(** [page.lower().replace(' ', '_')] *)
Definition page_key (p : page) : string :=
  match p with
  | Data_entry => "data_entry"
  | View_records => "view_records"
  | Search => "search"
  | Data_management => "data_management"
  end.

(** What the user did to the widgets before the run. *)
Record inputs : Type := mk_inputs {
  password_text : string;
  login_button : bool;
  page_picked : page;
  logout_button : bool;
  entry : entry_widgets;
  buttons : record_buttons;
  search_text : string;
  delete_all_button : bool;
  yes_button : bool;
  cancel_button : bool
}.

(** [if key not in st.session_state: st.session_state[key] = v] *)
Definition init_key (key : string) (v : pyval) : action unit :=
  let* ss := read_session in
  if has_key key ss then done tt else assign key v.

(** [db.create_tables()], outside any [try]. *)
Definition db_create_tables : action unit :=
  let* r := on_database create_tables in
  match r with
  | Ok _ => done tt
  | Raise e => raise (Python e)
  end.

Definition data_entry_page (i : inputs) : action unit :=
  try_except
    (let* result := render_entry_form None (entry i) in
     match result with
     | Some record =>
         let* record_id := on_database (add_record record) in
         match record_id with
         | Some id =>
             show (st_success ("Record added successfully! ID: " ++ str id)) >>
             st_rerun
         | None => show (st_error "Failed to add record. Please try again.")
         end
     | None => done tt
     end)
    (fun e => show (st_exception "An error occurred: " e)).

Definition view_records_page (i : inputs) : action unit :=
  try_except
    (let* records := on_database get_all_records in
     match records with
     | [] => show (st_info "No records found. Add some records using the Data Entry form.")
     | _ => for_loop records (render_record_card (buttons i) (entry i))
     end)
    (fun e => show (st_exception "Error loading records: " e)).

Definition search_page (i : inputs) : action unit :=
  if nonempty (search_text i) then
    try_except
      (let* results := on_database (search_records (search_text i)) in
       match results with
       | [] => show (st_info "No matching records found.")
       | _ =>
           show (st_success ("Found " ++ str (Z.of_nat (List.length results))
                             ++ " matching records")) >>
           for_loop results (render_record_card (buttons i) (entry i))
       end)
      (fun e => show (st_exception "Error searching records: " e))
  else done tt.

Definition data_management_page (i : inputs) : action unit :=
  try_except
    (let* records := on_database get_all_records in
     match records with
     | [] => show (st_info "No records available to delete.")
     | _ =>
         for_loop records
           (fun record =>
              let id := p_id (out_person record) in
              if delete_clicked (buttons i) id then
                let* ok := on_database (delete_record id) in
                match ok with
                | Some true =>
                    show (st_success ("Record " ++ str id ++ " deleted successfully!")) >>
                    st_rerun
                | _ => show (st_error "Failed to delete record.")
                end
              else done tt)
     end)
    (fun e => show (st_exception "Error loading records: " e)) >>
  (if delete_all_button i then assign "show_delete_confirmation" (VBool true) else done tt) >>
  let* ss := read_session in
  match ss "show_delete_confirmation" with
  | None => raise (AttributeError "show_delete_confirmation")
  | Some v =>
      if truthy v then
        show (st_error
                "Are you sure you want to delete all records? This action cannot be undone!") >>
        (if yes_button i then
           try_except
             (let* ok := on_database delete_all_records in
              match ok with
              | Some true =>
                  show (st_success "All records deleted successfully!") >>
                  assign "show_delete_confirmation" (VBool false) >>
                  st_rerun
              | _ => show (st_error "Failed to delete all records.")
              end)
             (fun e => show (st_exception "Error deleting all records: " e))
         else done tt) >>
        (if cancel_button i then
           assign "show_delete_confirmation" (VBool false) >> st_rerun
         else done tt)
      else done tt
  end.

(** The script from [db.create_tables()] on: what a run does once the
    login gate is passed. *)
Definition main_content (i : inputs) : action unit :=
  db_create_tables >>
  init_key "current_page" (VStr "entry") >>
  init_key "editing_record" VNone >>
  init_key "show_delete_confirmation" (VBool false) >>
  assign "current_page" (VStr (page_key (page_picked i))) >>
  (if logout_button i then logout >> st_rerun else done tt) >>
  match page_picked i with
  | Data_entry => data_entry_page i
  | View_records => view_records_page i
  | Search => search_page i
  | Data_management => data_management_page i
  end.

(** One run of the script [app.py] in a process that has loaded the module
    [database] before: the imports of its first lines then find their
    modules loaded and run nothing. *)
Definition app_script (i : inputs) : action unit :=
  init_auth >>
  let* logged_in := login_form (password_text i) (login_button i) in
  if negb (truthy logged_in) then st_stop else main_content i.

(** The pool manager before [init_connection_pool]: [self.connection_pool =
    None]. *)
Definition without_pool (p : pool_state) : pool_state :=
  mk_pool false (constructions p) (leases p) (pool_clock p) (pool_calls p).

(** [db = Database()], the last line of [database.py], which the first
    import of the module runs: [__init__] sets [connection_pool] to [None]
    and calls [init_connection_pool()] and [create_tables()]; what either
    raises ends the import. *)
Definition import_database (p : pool_state) : action unit :=
  match fst (init_connection_pool (without_pool p)) with
  | Ok _ => db_create_tables
  | Raise e => raise (Python e)
  end.

(** The first run of [app.py] in a process: [from database import db]
    (line 2) loads the module, then the script runs as ever. *)
Definition first_run (p : pool_state) (i : inputs) : action unit :=
  import_database p >> app_script i.

(** ** Vocabulary of the properties of the user interface *)

(** [IMGBB_API_KEY] is set and not empty. *)
Definition has_api_key (h : host) : bool :=
  match api_key h with
  | Some key => nonempty key
  | None => false
  end.

(** The urls, in order, of the responses that carry one. *)
Definition hosted_urls (rs : list response) : list string :=
  flat_map (fun r => match r with
                     | Hosted image_url => if nonempty image_url then [image_url] else []
                     | _ => []
                     end) rs.

(** The names [process_pdf] gives to the first [n] pages of a file. *)
Definition page_names (name : string) (n : nat) : list string :=
  map (fun i => name ++ "_page_" ++ str (Z.of_nat i + 1)) (seq 0 n).

(** The number of pages before the first one that cannot be saved. *)
Fixpoint saved_pages (images : list bool) : nat :=
  match images with
  | true :: rest => S (saved_pages rest)
  | _ => O
  end.

(** The key of input [i] of a group of inputs, [f"{key_prefix}_{i}"]. *)
Definition widget_key (key_prefix : string) (i : nat) : string :=
  key_prefix ++ "_" ++ str (Z.of_nat i).

(** What input [i] of a group gives: what the session holds under its key,
    the stored value of that position otherwise. *)
Definition widget_value (key_prefix : string) (initial_values : option (list string))
    (ss : mapping) (i : nat) : string :=
  match ss (widget_key key_prefix i) with
  | Some (VStr typed) => typed
  | _ => initial_value initial_values i
  end.

(** The number of inputs the entry form shows for a group: the count the
    session holds, 1 when it holds none. *)
Definition shown_inputs (ss : mapping) (key_prefix : string) : Z :=
  match ss (key_prefix ++ "_count") with
  | Some (VInt n) => n
  | Some (VBool b) => if b then 1 else 0
  | _ => 1
  end.

(** What the entry form submits for a group: the non-empty values of the
    inputs it shows. *)
Definition entered (ss : mapping) (key_prefix : string)
    (initial_values : option (list string)) : list string :=
  filter nonempty
         (map (widget_value key_prefix initial_values ss)
              (seq 0 (Z.to_nat (shown_inputs ss key_prefix)))).

(** The groups of inputs of the entry form. *)
Definition form_prefix (key_prefix : string) : Prop :=
  In key_prefix ["mobile"; "whatsapp"; "facebook"; "website"].

(** The keys of the session state a group of inputs reads and writes. *)
Definition owns (key_prefix key : string) : Prop :=
  key = key_prefix ++ "_count" \/ key = "add_" ++ key_prefix
  \/ exists i, key = widget_key key_prefix i.

(** Two states differ in the session state only, and there only under the
    keys of [keys]. *)
Definition same_but (keys : string -> Prop) (s s' : state) : Prop :=
  secrets s' = secrets s /\ imgbb s' = imgbb s /\ database s' = database s
  /\ screen s' = screen s
  /\ forall k, ~ keys k -> session_state s' k = session_state s k.

(** A state whose session holds the keys [ks]. *)
Definition session_of (ks : list (string * pyval)) : mapping :=
  fold_right (fun kv d => set_item (fst kv) (snd kv) d) empty_mapping ks.

Definition sample_host : host := mk_host (Some "k") [] [].

Definition state_of (ks : list (string * pyval)) (w : world) : state :=
  mk_state (session_of ks) (session_of [("WEB_PASS", VStr "s3cret")]) sample_host w [].

(** The stored values a record hands to the entry form, by group. *)
Definition stored_pdf_urls (record : option person_dict) : list string :=
  match record with
  | Some r => out_pdf_urls r
  | None => []
  end.

(** The payload the entry form makes of the widgets, the image it settled on
    and the new document urls. *)
Definition payload_of (record : option person_dict) (ui : entry_widgets) (ss : mapping)
    (image_data : option image) (new_urls : list string) : payload :=
  mk_payload (Val (full_name_text ui)) (Val (father_name_text ui))
             (Val (mother_name_text ui)) (Val (dob_picked ui))
             (Val (gender_text (gender_picked ui))) (Val (nid_text ui))
             (bound (voter_no_text ui)) (Val (permanent_address_text ui))
             (Val (present_address_text ui)) (bound image_data)
             (bound (description_text ui))
             (Val (entered ss "mobile" (option_map out_mobile_numbers record)))
             (Val (entered ss "whatsapp" (option_map out_whatsapp_numbers record)))
             (Val (entered ss "facebook" (option_map out_facebook_links record)))
             (Val (entered ss "website" (option_map out_website_links record)))
             (Val (stored_pdf_urls record ++ new_urls)%list).

(** The texts of the form fit the columns they go to. *)
Definition texts_fit (ui : entry_widgets) : bool :=
  (String.length (full_name_text ui) <=? 255)%nat
  && (String.length (father_name_text ui) <=? 255)%nat
  && (String.length (mother_name_text ui) <=? 255)%nat
  && (String.length (nid_text ui) <=? 100)%nat
  && match voter_no_text ui with
     | Some t => (String.length t <=? 100)%nat
     | None => true
     end.

(** The values the form submits for its four groups fit their column. *)
Definition contacts_fit (record : option person_dict) (ss : mapping) : bool :=
  forallb (fun v => (String.length v <=? 255)%nat)
          (entered ss "mobile" (option_map out_mobile_numbers record)
           ++ entered ss "whatsapp" (option_map out_whatsapp_numbers record)
           ++ entered ss "facebook" (option_map out_facebook_links record)
           ++ entered ss "website" (option_map out_website_links record)).

(** A filled form, submitted. *)
Definition sample_entry : entry_widgets :=
  mk_entry "Rina Roy" "Anil Roy" "Mina Roy" 7305 Female "1990123456" (Some "") "Dhaka"
           "Sylhet" None [] (Some "") true false false false false.

(** A session in which the form showed two mobile inputs, both filled, and
    one input of each other group, left empty. *)
Definition sample_session : list (string * pyval) :=
  [("authenticated", VBool true); ("mobile_count", VInt 2); ("mobile_0", VStr "01711");
   ("mobile_1", VStr "01811"); ("whatsapp_count", VInt 1); ("whatsapp_0", VStr "");
   ("facebook_count", VInt 1); ("website_count", VInt 1)].

Definition is_card (m : message) : bool :=
  match m with
  | record_card _ => true
  | _ => false
  end.

(** Since the screen was [before], no record card was put on it. *)
Definition no_new_card (before : list message) (s : state) : Prop :=
  exists msgs, screen s = (before ++ msgs)%list /\ Forall (fun m => is_card m = false) msgs.

(** An action keeps a property of the state, however it ends. *)
Definition stays {A} (I : state -> Prop) (a : action A) : Prop :=
  forall s, I s -> I (snd (a s)).

(** The session holds a truthy value under [authenticated]. *)
Definition logged_in (s : state) : bool :=
  truthy (get_item "authenticated" (session_state s)).

(** The password typed is the one of the secrets, and the button was
    clicked. *)
Definition right_password (password : string) (login_clicked : bool) (s : state) : bool :=
  login_clicked
  && match secrets s "WEB_PASS" with
     | Some v => equals_str password v
     | None => false
     end.

(** A property that looks at the screen and the database only. *)
Definition outward (I : state -> Prop) : Prop :=
  forall s s', database s' = database s -> screen s' = screen s -> I s -> I s'.

(** No record card was put on the screen since it was [before], and the
    tables are as [create_tables] leaves them. *)
Definition on_fresh_tables (before : list message) (s : state) : Prop :=
  no_new_card before s /\ store (database s) = fresh_db.

(** A logged-in session on a database that holds a record of an earlier
    run, and one on a connection that fails. *)
Definition logged_in_state : state := state_of sample_session sample_world.

Definition logged_out_state : state := state_of [] sample_world.

(** The inputs of a run in which the user only picked a page. *)
Definition visit (p : page) : inputs :=
  mk_inputs "" false p false
            (mk_entry "" "" "" 0 Male "" (Some "") "" "" None [] (Some "") false false false
                      false false)
            (mk_buttons (fun _ => false) (fun _ => false)) "" false false false.

(** A group of inputs can be shown and is not about to grow: the session
    holds an integer count for it, or none, and its add flag is not set. *)
Definition ready (ss : mapping) (key_prefix : string) : bool :=
  match ss (key_prefix ++ "_count") with
  | Some VNone | Some (VStr _) => false
  | _ => true
  end
  && negb (truthy (get_item ("add_" ++ key_prefix) ss)).

Definition form_ready (ss : mapping) : bool :=
  forallb (ready ss) ["mobile"; "whatsapp"; "facebook"; "website"].

(** The keys of the session state the scripts [auth.py] and [app.py]
    write. *)
Definition script_key (key : string) : Prop :=
  In key ["authenticated"; "current_page"; "editing_record"; "show_delete_confirmation"].

(** The inputs of a run in which the user submitted the filled form of the
    Data Entry page. *)
Definition entry_submitted : inputs :=
  mk_inputs "" false Data_entry false sample_entry
            (mk_buttons (fun _ => false) (fun _ => false)) "" false false false.

(** A person stored with two mobile numbers, and the dictionary the read
    methods return for it. *)
Definition two_mobiles_payload : payload :=
  mk_payload (Val "Rina Roy") (Val "Anil Roy") (Val "Mina Roy") (Val 7305)
             (Val "Female") (Val "1990123456") (Val "") (Val "Dhaka") (Val "Sylhet")
             PyNone (Val "")
             (Val ["01711"; "01811"]) (Val ["01911"]) (Val ["fb.com/rina"])
             (Val ["rina.example"]) (Val ["https://i.example/p1.png"]).

Definition two_mobiles_world : world := snd (add_record two_mobiles_payload fresh_world).

Definition stored_record : person_dict :=
  dict_of (store two_mobiles_world) (row_of two_mobiles_payload 1 1000).

(** A session in which the user opened the edit form of record 1 and
    touched no input. *)
Definition editing_state : state :=
  state_of [("authenticated", VBool true); ("editing_record", VInt 1)] two_mobiles_world.

Definition no_buttons : record_buttons := mk_buttons (fun _ => false) (fun _ => false).

(** A text a [VARCHAR(n)] column refuses: longer than [n], with more than
    blanks beyond. *)
Definition too_long (n : nat) (s : string) : bool :=
  negb (String.length s <=? n)%nat
  && negb (all_spaces (substring n (String.length s - n) s)).

(** A form submitted with a name of 300 characters. *)
Definition long_name_submitted : inputs :=
  mk_inputs "" false Data_entry false
            (mk_entry (string_of_list_ascii (repeat "x"%char 300)) "Anil Roy" "Mina Roy" 7305
                      Female "1990123456" (Some "") "Dhaka" "Sylhet" None [] (Some "") true
                      false false false false)
            (mk_buttons (fun _ => false) (fun _ => false)) "" false false false.

(** The filled form with a one-page PDF uploaded, on a state whose image
    host accepts the page. *)
Definition entry_with_document : entry_widgets :=
  mk_entry "Rina Roy" "Anil Roy" "Mina Roy" 7305 Female "1990123456" (Some "") "Dhaka"
           "Sylhet" None [mk_pdf_file "nid.pdf" (Some [true])] (Some "") true false false
           false false.

Definition uploading_state : state :=
  mk_state (session_of sample_session) (session_of [("WEB_PASS", VStr "s3cret")])
           (mk_host (Some "k") [Hosted "https://i.example/u1.png"] []) fresh_world [].

(** A pool manager whose constructor and leases succeed. *)
Definition working_pool : pool_state := mk_pool false [] [] 0 [].
(** ** The executor *)

Unset Implicit Arguments.

(** One attempt of the loop is one [attempt_outcome]. *)
Lemma try_body_outcome A (operation : Z -> cursor A) (w : world) :
  try_body operation w =
    let w0 := mk_world (store w) (clock w) (tl (faults w)) (log w) in
    match attempt_outcome operation (hd NoFault (faults w)) (clock w) (store w) with
    | Done r s' => (Ok (r, s'), true, emit (GetConn true) w0)
    | Failed e held => (Raise e, held, emit (GetConn held) w0)
    end.
Proof.
  unfold try_body, attempt_outcome.
  destruct (hd NoFault (faults w)); try reflexivity;
    destruct (operation (clock w) (store w)) as [[r s']|e']; reflexivity.
Qed.

(** One turn of the loop. *)
Lemma execute_loop_step A (operation : Z -> cursor A) (n : nat) (w : world) :
  execute_loop operation (S n) w =
    let after calls t := mk_world (store w) t (tl (faults w)) (log w ++ calls) in
    match attempt_outcome operation (hd NoFault (faults w)) (clock w) (store w) with
    | Done r s' =>
        (Ok (Some r),
         mk_world s' (clock w) (tl (faults w)) (log w ++ calls_of_success))
    | Failed e held =>
        if is_transient e then
          match n with
          | O => (Raise e, after (calls_of_final_failure held) (clock w))
          | S _ =>
              execute_loop operation n
                (after (calls_of_retried_failure held) (clock w + second))
          end
        else (Raise e, after (calls_of_final_failure held) (clock w))
    end.
Proof.
  cbn [execute_loop]. rewrite try_body_outcome. cbv zeta.
  destruct (attempt_outcome operation (hd NoFault (faults w)) (clock w) (store w))
    as [r s'|e held].
  - unfold return_connection, commit, emit, calls_of_success.
    cbn [store clock faults log]. rewrite <- !app_assoc. reflexivity.
  - destruct held;
      unfold return_connection, sleep, rollback, emit, calls_of_final_failure,
        calls_of_retried_failure, second;
      cbn [store clock faults log]; rewrite <- ?app_assoc; cbn [app];
      rewrite ?Z.mul_1_l; reflexivity.
Qed.

Lemma execute_with_retry_is_policy A (operation : Z -> cursor A) (w : world) :
  execute_with_retry operation 3 w = retry_policy operation w.
Proof.
  unfold execute_with_retry, retry_policy.
  rewrite execute_loop_step. cbv zeta.
  replace (nth 0 (faults w) NoFault) with (hd NoFault (faults w))
    by (destruct (faults w); reflexivity).
  replace (skipn 1 (faults w)) with (tl (faults w)) by (destruct (faults w); reflexivity).
  destruct (attempt_outcome operation (hd NoFault (faults w)) (clock w) (store w))
    as [r1 s1|e1 h1]; [reflexivity|].
  destruct (is_transient e1); cbn [negb]; [|reflexivity].
  rewrite execute_loop_step. cbv zeta. cbn [store clock faults log].
  replace (nth 1 (faults w) NoFault) with (hd NoFault (tl (faults w)))
    by (destruct (faults w) as [|? [|? ?]]; reflexivity).
  replace (skipn 2 (faults w)) with (tl (tl (faults w)))
    by (destruct (faults w) as [|? [|? ?]]; reflexivity).
  destruct (attempt_outcome operation (hd NoFault (tl (faults w))) (clock w + second)
              (store w)) as [r2 s2|e2 h2]; [reflexivity|].
  destruct (is_transient e2); cbn [negb]; [|reflexivity].
  rewrite execute_loop_step. cbv zeta. cbn [store clock faults log].
  replace (nth 2 (faults w) NoFault) with (hd NoFault (tl (tl (faults w))))
    by (destruct (faults w) as [|? [|? [|? ?]]]; reflexivity).
  replace (skipn 3 (faults w)) with (tl (tl (tl (faults w))))
    by (destruct (faults w) as [|? [|? [|? ?]]]; reflexivity).
  destruct (attempt_outcome operation (hd NoFault (tl (tl (faults w))))
              (clock w + second + second) (store w)) as [r3 s3|e3 h3]; [reflexivity|].
  destruct (is_transient e3); reflexivity.
Qed.

Lemma attempt_outcome_no_fault A (operation : Z -> cursor A) (now : Z) (s : db) :
  attempt_outcome operation NoFault now s =
    match operation now s with
    | Ok (r, s') => Done r s'
    | Raise e => Failed e true
    end.
Proof.
  unfold attempt_outcome. destruct (operation now s) as [[r s']|e]; reflexivity.
Qed.

Lemma attempt_outcome_done A (operation : Z -> cursor A) f now s r s' :
  attempt_outcome operation f now s = Done r s' -> operation now s = Ok (r, s').
Proof.
  unfold attempt_outcome.
  destruct f; destruct (operation now s) as [[r0 s0]|e0]; intro H;
    try discriminate; inversion H; reflexivity.
Qed.

(** A fault-free attempt whose operation succeeds commits and returns. *)
Lemma run_ok A (operation : Z -> cursor A) (w : world) (r : A) (s' : db) :
  no_fault w ->
  operation (clock w) (store w) = Ok (r, s') ->
  execute_with_retry operation 3 w =
    (Ok (Some r), mk_world s' (clock w) (tl (faults w)) (log w ++ calls_of_success)).
Proof.
  intros F H. rewrite execute_with_retry_is_policy. unfold retry_policy.
  replace (nth 0 (faults w) NoFault) with NoFault
    by (unfold no_fault in F; destruct (faults w); simpl in *; congruence).
  rewrite attempt_outcome_no_fault, H.
  destruct (faults w); reflexivity.
Qed.

(** A fault-free attempt whose operation raises a non-transient exception
    rolls back and lets it through. *)
Lemma run_raise A (operation : Z -> cursor A) (w : world) (e : exn) :
  no_fault w ->
  operation (clock w) (store w) = Raise e ->
  is_transient e = false ->
  execute_with_retry operation 3 w =
    (Raise e, mk_world (store w) (clock w) (tl (faults w))
                       (log w ++ calls_of_final_failure true)).
Proof.
  intros F H T. rewrite execute_with_retry_is_policy. unfold retry_policy.
  replace (nth 0 (faults w) NoFault) with NoFault
    by (unfold no_fault in F; destruct (faults w); simpl in *; congruence).
  rewrite attempt_outcome_no_fault, H, T. simpl.
  destruct (faults w); reflexivity.
Qed.

(** Whatever happens, the committed database is the old one or what one
    successful run of the operation on the old one produced. *)
Lemma run_store A (operation : Z -> cursor A) (w : world) :
  store (snd (execute_with_retry operation 3 w)) = store w
  \/ exists now r,
       operation now (store w) = Ok (r, store (snd (execute_with_retry operation 3 w))).
Proof.
  rewrite execute_with_retry_is_policy. unfold retry_policy.
  repeat match goal with
         | |- context [attempt_outcome ?o ?f ?t ?s] =>
             let E := fresh "E" in
             destruct (attempt_outcome o f t s) eqn:E;
             [ right; apply attempt_outcome_done in E; cbn [snd store];
               eexists; eexists; exact E | ]
         | |- context [if negb (is_transient ?e) then _ else _] =>
             destruct (is_transient e); cbn [negb]
         end; left; reflexivity.
Qed.

(** The loop never falls through with three attempts. *)
Lemma run_returns A (operation : Z -> cursor A) (w : world) :
  fst (execute_with_retry operation 3 w) <> Ok None.
Proof.
  rewrite execute_with_retry_is_policy. unfold retry_policy.
  repeat match goal with
         | |- context [attempt_outcome ?o ?f ?t ?s] =>
             destruct (attempt_outcome o f t s)
         | |- context [if negb (is_transient ?e) then _ else _] =>
             destruct (is_transient e); cbn [negb]
         end; discriminate.
Qed.

(** C5, as amended.  [execute_with_retry] with its three attempts is the
    Executor contract attempt by attempt ([retry_policy]): a transient
    failure is followed by a rollback of the connection of that attempt when
    one was acquired, a one-second sleep and a new attempt; the third
    transient failure, or any other failure at once, is raised after the
    same rollback; a success returns after its commit.  In the calls made:
    between one and three attempts, one sleep of one second between
    consecutive attempts, one rollback for each acquired connection that did
    not commit, exactly one commit when a result is returned and none (and
    an unchanged database) when an exception is raised, which after a
    transient exception means all three attempts were used. *)
Theorem execute_with_retry_contract A (operation : Z -> cursor A) (w : world) :
  let run := execute_with_retry operation 3 w in
  run = retry_policy operation w
  /\ exists calls : list event,
       log (snd run) = (log w ++ calls)%list
       /\ (1 <= count_event is_attempt calls <= 3)%nat
       /\ filter is_sleep calls = repeat (Sleep 1) (count_event is_attempt calls - 1)
       /\ (count_event is_rollback calls + count_event is_commit calls
           = count_event is_acquired calls)%nat
       /\ match fst run with
          | Ok (Some _) => count_event is_commit calls = 1%nat
          | Ok None => False
          | Raise e =>
              count_event is_commit calls = 0%nat
              /\ store (snd run) = store w
              /\ (is_transient e = true -> count_event is_attempt calls = 3%nat)
          end.
Proof.
  cbv zeta. split; [apply execute_with_retry_is_policy|].
  rewrite execute_with_retry_is_policy. unfold retry_policy.
  repeat match goal with
         | |- context [attempt_outcome ?o ?f ?t ?s] =>
             let r := fresh "r" in
             let s' := fresh "s" in
             let e := fresh "e" in
             let h := fresh "h" in
             destruct (attempt_outcome o f t s) as [r s'|e h]
         | |- context [if negb (is_transient ?e) then _ else _] =>
             let T := fresh "T" in destruct (is_transient e) eqn:T; cbn [negb]
         end;
    repeat match goal with h : bool |- _ => destruct h end;
    cbn [fst snd log store];
    unfold calls_of_success, calls_of_final_failure, calls_of_retried_failure;
    rewrite <- ?app_assoc;
    (eexists; split; [reflexivity|]);
    cbn; repeat split; try lia; try congruence.
Qed.

Lemma execute_with_retry_contract_witness :
  let run := execute_with_retry (fun _ => ret tt) 3 broken_world in
  fst run = Raise OperationalError
  /\ is_transient OperationalError = true
  /\ exists calls : list event,
       log (snd run) = (log broken_world ++ calls)%list
       /\ count_event is_attempt calls = 3%nat
       /\ count_event is_commit calls = 0%nat
       /\ store (snd run) = store broken_world.
Proof.
  cbv zeta.
  destruct (execute_with_retry_contract unit (fun _ => ret tt) broken_world)
    as (_ & calls & L & _ & _ & _ & M).
  assert (E : fst (execute_with_retry (fun _ => ret tt) 3 broken_world)
              = Raise OperationalError) by reflexivity.
  rewrite E in M. destruct M as (M1 & M2 & M3).
  split; [exact E|]. split; [reflexivity|].
  exists calls. split; [exact L|]. split; [exact (M3 eq_refl)|]. split; assumption.
Defined.

(** C5, as stated, fails: the first attempt fails to obtain a connection
    with a transient [OperationalError]; the executor sleeps and retries
    (and succeeds), and no rollback is ever issued. *)
Lemma execute_with_retry_no_rollback_without_connection :
  let w := mk_world fresh_db 0 [AcquireFails OperationalError] [] in
  let run := execute_with_retry (fun _ => ret tt) 3 w in
  fst run = Ok (Some tt)
  /\ log (snd run) = [GetConn false; Sleep 1; GetConn true; Commit; PutConn]
  /\ count_event is_rollback (log (snd run)) = 0%nat.
Proof. cbv zeta. split; [reflexivity|]. split; reflexivity. Qed.

(** A returned result is the result of one run of the operation on the old
    database, and the new database is the one it produced. *)
Lemma run_result A (operation : Z -> cursor A) (w : world) (r : A) :
  fst (execute_with_retry operation 3 w) = Ok (Some r) ->
  exists now,
    operation now (store w) = Ok (r, store (snd (execute_with_retry operation 3 w))).
Proof.
  rewrite execute_with_retry_is_policy. unfold retry_policy.
  repeat match goal with
         | |- context [attempt_outcome ?o ?f ?t ?s] =>
             let E := fresh "E" in
             destruct (attempt_outcome o f t s) eqn:E;
             [ apply attempt_outcome_done in E; cbn [fst snd store];
               let H := fresh "H" in
               intro H; injection H as H; subst; eexists; exact E | ]
         | |- context [if negb (is_transient ?e) then _ else _] =>
             destruct (is_transient e); cbn [negb]
         end; discriminate.
Qed.

(** ** The schema manager *)

Lemma _create_tables_fresh (s : db) : _create_tables s = Ok (tt, fresh_db).
Proof. reflexivity. Qed.

(** What [create_tables] does: a run that meets no connection fault
    succeeds, and every successful run leaves the three tables empty, with
    their sequences at 1: [persons], [contact_info] and [documents] are all
    dropped and created again, whatever they held. *)
Theorem create_tables_recreates_all_tables (w : world) :
  (no_fault w -> fst (create_tables w) = Ok tt)
  /\ (fst (create_tables w) = Ok tt -> store (snd (create_tables w)) = fresh_db).
Proof.
  unfold create_tables. split.
  - intro F. rewrite (run_ok unit (fun _ => _create_tables) w tt fresh_db F
                         (_create_tables_fresh _)).
    reflexivity.
  - pose proof (run_result unit (fun _ => _create_tables) w) as R.
    pose proof (run_returns unit (fun _ => _create_tables) w) as N.
    destruct (execute_with_retry (fun _ => _create_tables) 3 w) as [[[[]|]|e] w'];
      cbn [fst snd] in *; try discriminate; try congruence.
    intros _. destruct (R tt eq_refl) as [now H].
    rewrite _create_tables_fresh in H. congruence.
Qed.

Lemma create_tables_recreates_all_tables_witness :
  fst (create_tables stale_world) = Ok tt
  /\ store (snd (create_tables stale_world)) = fresh_db.
Proof.
  destruct (create_tables_recreates_all_tables stale_world) as [H1 H2].
  assert (H : fst (create_tables stale_world) = Ok tt) by (apply H1; reflexivity).
  split; [exact H | exact (H2 H)].
Defined.

(** C3 fails in the code.  [create_tables], "Create database tables if they
    don't exist" by its docstring, creates [contact_info] and [documents]
    with IF NOT EXISTS, but drops both before: on a database left by an
    earlier run, with one contact and one document, a run succeeds and
    leaves the two tables without a row. *)
Lemma create_tables_drops_children :
  option_map (@rows _) (contact_info (store stale_world))
    = Some [mk_contact 1 1 "mobile" "01711"]
  /\ option_map (@rows _) (documents (store stale_world))
    = Some [mk_document 1 1 "https://i.example/p1.png" "pdf"]
  /\ fst (create_tables stale_world) = Ok tt
  /\ option_map (@rows _) (contact_info (store (snd (create_tables stale_world)))) = Some []
  /\ option_map (@rows _) (documents (store (snd (create_tables stale_world)))) = Some [].
Proof. repeat split. Qed.

(** ** Exceptions at the boundary of the public methods *)

(** C2 fails for [get_record]: a person stored without a mobile number
    makes [filter(None, None)] raise [TypeError], and [get_record], which has
    no [try], lets it through; so it does with the [OperationalError] of a
    connection that fails three times, where [get_all_records] returns its
    empty list. *)
Theorem get_record_lets_TypeError_escape :
  fst (add_record bare_payload fresh_world) = Some 1
  /\ fst (get_record 1 bare_world) = Raise TypeError
  /\ fst (get_record 1 broken_world) = Raise OperationalError
  /\ fst (get_all_records broken_world) = [].
Proof. vm_compute. repeat split. Qed.

(** ** Generic facts on cursors *)

Lemma bind_inv A B (c : cursor A) (k : A -> cursor B) (s : db) (b : B) (s' : db) :
  bind c k s = Ok (b, s') -> exists a s1, c s = Ok (a, s1) /\ k a s1 = Ok (b, s').
Proof.
  unfold bind. destruct (c s) as [[a s1]|e]; [eauto | discriminate].
Qed.

Lemma lift_inv A (r : result A) (s : db) (a : A) (s' : db) :
  lift r s = Ok (a, s') -> r = Ok a /\ s' = s.
Proof.
  unfold lift, rbind. destruct r; intro H; inversion H; auto.
Qed.

Section Preserves.
Context {X : Type} (f : db -> X).

Lemma preserves_ret A (a : A) : preserves f (ret a).
Proof. intros s a' s' H. inversion H. reflexivity. Qed.

Lemma preserves_lift A (r : result A) : preserves f (lift r).
Proof. intros s a s' H. apply lift_inv in H. destruct H; subst; reflexivity. Qed.

Lemma preserves_bind A B (c : cursor A) (k : A -> cursor B) :
  preserves f c -> (forall a, preserves f (k a)) -> preserves f (bind c k).
Proof.
  intros Hc Hk s b s' H. apply bind_inv in H. destruct H as (a & s1 & H1 & H2).
  rewrite (Hk a _ _ _ H2). eapply Hc; eauto.
Qed.

Lemma preserves_for_each A (l : list A) (body : A -> cursor unit) :
  (forall x, preserves f (body x)) -> preserves f (for_each l body).
Proof.
  intro Hb. induction l as [|x l IH]; simpl.
  - apply preserves_ret.
  - apply preserves_bind; auto.
Qed.

Lemma preserves_if A (b : bool) (c1 c2 : cursor A) :
  preserves f c1 -> preserves f c2 -> preserves f (if b then c1 else c2).
Proof. destruct b; auto. Qed.
End Preserves.

Create HintDb cursor discriminated.

Section Primitives.
Context {X : Type} (f : db -> X).

Lemma preserves_the_persons : preserves f the_persons.
Proof.
  intros s a s'. unfold the_persons. destruct (persons s); intro H; inversion H; auto.
Qed.

Lemma preserves_the_contact_info : preserves f the_contact_info.
Proof.
  intros s a s'. unfold the_contact_info.
  destruct (contact_info s); intro H; inversion H; auto.
Qed.

Lemma preserves_the_documents : preserves f the_documents.
Proof.
  intros s a s'. unfold the_documents.
  destruct (documents s); intro H; inversion H; auto.
Qed.

Lemma preserves_references_persons i : preserves f (references_persons i).
Proof.
  intros s a s'. unfold references_persons.
  destruct (persons s) as [t|]; [destruct (existsb _ _)|]; intro H; inversion H; auto.
Qed.
End Primitives.

#[local] Hint Resolve preserves_ret preserves_lift preserves_the_persons
  preserves_the_contact_info preserves_the_documents preserves_references_persons
  : cursor.

(** Break a sequence of statements into its primitives. *)
Ltac preserving :=
  repeat first
    [ apply preserves_bind; [|intro]
    | apply preserves_for_each; intro
    | apply preserves_if
    | solve [auto with cursor] ].

Lemma set_contact_info_persons t : preserves persons (set_contact_info t).
Proof. intros s a s' H. inversion H. reflexivity. Qed.

Lemma set_documents_persons t : preserves persons (set_documents t).
Proof. intros s a s' H. inversion H. reflexivity. Qed.

Lemma set_persons_contact_info t : preserves contact_info (set_persons t).
Proof. intros s a s' H. inversion H. reflexivity. Qed.

Lemma set_persons_documents t : preserves documents (set_persons t).
Proof. intros s a s' H. inversion H. reflexivity. Qed.

Lemma set_contact_info_documents t : preserves documents (set_contact_info t).
Proof. intros s a s' H. inversion H. reflexivity. Qed.

Lemma set_documents_contact_info t : preserves contact_info (set_documents t).
Proof. intros s a s' H. inversion H. reflexivity. Qed.

#[local] Hint Resolve set_contact_info_persons set_documents_persons
  set_persons_contact_info set_persons_documents set_contact_info_documents
  set_documents_contact_info : cursor.

Lemma insert_contact_info_persons i k v : preserves persons (insert_contact_info i k v).
Proof. unfold insert_contact_info. preserving. Qed.

Lemma insert_documents_persons i u k : preserves persons (insert_documents i u k).
Proof. unfold insert_documents. preserving. Qed.

Lemma delete_contact_info_of_persons i : preserves persons (delete_contact_info_of i).
Proof. unfold delete_contact_info_of. preserving. Qed.

Lemma delete_documents_of_persons i : preserves persons (delete_documents_of i).
Proof. unfold delete_documents_of. preserving. Qed.

Lemma insert_contact_info_documents i k v : preserves documents (insert_contact_info i k v).
Proof. unfold insert_contact_info. preserving. Qed.

Lemma delete_contact_info_of_documents i : preserves documents (delete_contact_info_of i).
Proof. unfold delete_contact_info_of. preserving. Qed.

Lemma insert_documents_contact_info i u k : preserves contact_info (insert_documents i u k).
Proof. unfold insert_documents. preserving. Qed.

Lemma delete_documents_of_contact_info i : preserves contact_info (delete_documents_of i).
Proof. unfold delete_documents_of. preserving. Qed.

#[local] Hint Resolve insert_contact_info_persons insert_documents_persons
  delete_contact_info_of_persons delete_documents_of_persons
  insert_contact_info_documents delete_contact_info_of_documents
  insert_documents_contact_info delete_documents_of_contact_info : cursor.

Lemma insert_contacts_persons i r : preserves persons (insert_contacts i r).
Proof. unfold insert_contacts. preserving. Qed.

Lemma insert_contacts_documents i r : preserves documents (insert_contacts i r).
Proof. unfold insert_contacts. preserving. Qed.

#[local] Hint Resolve insert_contacts_persons insert_contacts_documents : cursor.

Lemma preserves_persons_identity A (c : cursor A) :
  preserves persons c -> preserves identity_columns c.
Proof.
  intros H s a s' E. unfold identity_columns, person_rows. rewrite (H _ _ _ E). reflexivity.
Qed.

(** ** [update_record] and the identity of a person *)

Lemma the_persons_inv s t s1 : the_persons s = Ok (t, s1) -> persons s = Some t /\ s1 = s.
Proof. unfold the_persons. destruct (persons s); intro H; inversion H; auto. Qed.

Lemma the_contact_info_inv s t s1 :
  the_contact_info s = Ok (t, s1) -> contact_info s = Some t /\ s1 = s.
Proof. unfold the_contact_info. destruct (contact_info s); intro H; inversion H; auto. Qed.

Lemma the_documents_inv s t s1 :
  the_documents s = Ok (t, s1) -> documents s = Some t /\ s1 = s.
Proof. unfold the_documents. destruct (documents s); intro H; inversion H; auto. Qed.

(** Take the successful run [H] of a sequence apart, statement by
    statement. *)
Ltac run_inv H :=
  repeat (let H0 := fresh "R" in
          apply bind_inv in H; destruct H as (? & ? & H0 & H);
          first [ apply lift_inv in H0; destruct H0; subst
                | apply the_persons_inv in H0; destruct H0; subst
                | apply the_contact_info_inv in H0; destruct H0; subst
                | apply the_documents_inv in H0; destruct H0; subst
                | idtac ]).

Lemma update_persons_identity v1 v2 v3 v4 v5 v6 v7 v8 v9 v10 v11 i :
  preserves identity_columns (update_persons v1 v2 v3 v4 v5 v6 v7 v8 v9 v10 v11 i).
Proof.
  intros s a s' H. unfold update_persons in H. run_inv H.
  match type of H with context [existsb ?p ?l] => destruct (existsb p l) end.
  - run_inv H. inversion H. unfold identity_columns, person_rows. cbn.
    match goal with E : persons s = Some _ |- _ => rewrite E end.
    rewrite map_map. apply map_ext. intro p. destruct (p_id p =? i); reflexivity.
  - inversion H. reflexivity.
Qed.

Lemma _update_record_identity i r : preserves identity_columns (_update_record i r).
Proof.
  unfold _update_record.
  repeat first
    [ apply update_persons_identity
    | apply preserves_persons_identity; solve [auto with cursor]
    | apply preserves_bind; [|intro]
    | apply preserves_for_each; intro
    | apply preserves_if
    | solve [auto with cursor] ].
Qed.

(** C8.  Whatever the id, the payload and the faults of the connection,
    [update_record] leaves the [id] and [created_at] columns of every person
    as they were. *)
Theorem update_record_keeps_id_and_created_at
    (record_id : Z) (updated_data : payload) (w : world) :
  identity_columns (store (snd (update_record record_id updated_data w)))
  = identity_columns (store w).
Proof.
  unfold update_record.
  pose proof (run_store bool (fun _ => _update_record record_id updated_data) w) as S.
  destruct (execute_with_retry (fun _ => _update_record record_id updated_data) 3 w)
    as [[r|e] w']; cbn [fst snd] in *;
    (destruct S as [S|(now & b & S)];
     [rewrite S; reflexivity
     | exact (_update_record_identity record_id updated_data _ _ _ S)]).
Qed.

(** ** The aggregates of the SELECT *)

Lemma in_outer A (x : A) (l : list A) : In (Some x) (outer l) <-> In x l.
Proof.
  destruct l as [|y l]; simpl.
  - split; [intros [H|[]]; discriminate | tauto].
  - split.
    + intros [H|H]; [inversion H; auto|].
      apply in_map_iff in H. destruct H as (z & E & H). inversion E; subst; auto.
    + intros [H|H]; [subst; auto|]. right. apply in_map. exact H.
Qed.

Lemma outer_inhabited A (l : list A) : exists y, In y (outer l).
Proof. destruct l; simpl; eauto. Qed.

Lemma or_empty_array_agg (l : list (option string)) :
  or_empty (array_agg_distinct l) = nodup option_string_dec l.
Proof. destruct l; reflexivity. Qed.

Lemma in_filter_None (v : string) (l : list (option string)) :
  In v (filter_None l) <-> In (Some v) l /\ v <> "".
Proof.
  unfold filter_None. rewrite in_flat_map. split.
  - intros ([s|] & H & I); [|destruct I].
    destruct (String.eqb_spec s ""); [destruct I|].
    destruct I as [I|[]]. subst. auto.
  - intros [H N]. exists (Some v). split; [exact H|].
    destruct (String.eqb_spec v ""); [contradiction|]. left; reflexivity.
Qed.

Lemma NoDup_filter_None (l : list (option string)) : NoDup l -> NoDup (filter_None l).
Proof.
  induction 1 as [|x l N _ IH]; [constructor|].
  change (filter_None (x :: l)) with
    ((match x with
      | Some s => if (s =? "")%string then [] else [s]
      | None => []
      end) ++ filter_None l)%list.
  destruct x as [s|]; [|exact IH].
  destruct (s =? "")%string; [exact IH|].
  simpl. constructor; [|exact IH].
  intro H. apply in_filter_None in H. tauto.
Qed.

(** The values a contact aggregate ranges over are the stored values of
    that kind for that person. *)
Lemma in_contact_agg_input kind p cis ds (x : option string) :
  In x (map (fun j : joined => match fst j with
                      | Some c => if (ci_type c =? kind)%string then Some (ci_value c) else None
                      | None => None
                      end)
            (filter (fun j : joined => match fst j with
                              | Some c => (ci_type c =? kind)%string
                              | None => false
                              end) (left_join p cis ds)))
  <-> exists v, x = Some v /\ In v (kind_values cis (p_id p) kind).
Proof.
  unfold left_join, kind_values. rewrite in_map_iff. split.
  - intros ([oc od] & E & H). apply filter_In in H. destruct H as [H K].
    apply in_prod_iff in H. destruct H as [Hc _]. cbn [fst] in *.
    destruct oc as [c|]; [|discriminate]. rewrite K in E. subst x.
    exists (ci_value c). split; [reflexivity|].
    apply -> in_outer in Hc. apply filter_In in Hc. destruct Hc as [Hc Hp].
    apply in_map. apply filter_In. split; [exact Hc|]. rewrite Hp, K. reflexivity.
  - intros (v & -> & H). apply in_map_iff in H. destruct H as (c & <- & H).
    apply filter_In in H. destruct H as [Hc K]. apply andb_true_iff in K.
    destruct K as [Kp Kk].
    destruct (outer_inhabited _ (filter (fun d => p_id p =? d_person_id d) ds)) as [od Hd].
    exists (Some c, od). cbn [fst]. rewrite Kk. split; [reflexivity|].
    apply filter_In. cbn [fst]. split; [|exact Kk].
    apply in_prod_iff. split; [|exact Hd].
    apply <- in_outer. apply filter_In. auto.
Qed.

Lemma in_pdf_agg_input p cis ds (x : option string) :
  In x (map (fun j : joined => option_map d_url (snd j))
            (filter (fun j : joined => match snd j with
                              | Some d => (d_type d =? "pdf")%string
                              | None => false
                              end) (left_join p cis ds)))
  <-> exists v, x = Some v /\ In v (pdf_urls_of ds (p_id p)).
Proof.
  unfold left_join, pdf_urls_of. rewrite in_map_iff. split.
  - intros ([oc od] & E & H). apply filter_In in H. destruct H as [H K].
    apply in_prod_iff in H. destruct H as [_ Hd]. cbn [snd] in *.
    destruct od as [d|]; [|discriminate]. subst x.
    exists (d_url d). split; [reflexivity|].
    apply -> in_outer in Hd. apply filter_In in Hd. destruct Hd as [Hd Hp].
    apply in_map. apply filter_In. split; [exact Hd|]. rewrite Hp, K. reflexivity.
  - intros (v & -> & H). apply in_map_iff in H. destruct H as (d & <- & H).
    apply filter_In in H. destruct H as [Hd K]. apply andb_true_iff in K.
    destruct K as [Kp Kk].
    destruct (outer_inhabited _ (filter (fun c => p_id p =? ci_person_id c) cis)) as [oc Hc].
    exists (oc, Some d). cbn [snd]. split; [reflexivity|].
    apply filter_In. cbn [snd]. split; [|exact Kk].
    apply in_prod_iff. split; [exact Hc|].
    apply <- in_outer. apply filter_In. auto.
Qed.

Lemma distinct_nonempty_of_input (l : list (option string)) (values : list string) :
  (forall x, In x l <-> exists v, x = Some v /\ In v values) ->
  distinct_nonempty values (filter_None (nodup option_string_dec l)).
Proof.
  intro H. split.
  - apply NoDup_filter_None, NoDup_nodup.
  - intro v. rewrite in_filter_None, nodup_In, H. split.
    + intros [(v' & E & I) N]. inversion E; subst. auto.
    + intros [I N]. eauto.
Qed.

(** What the read methods make of a contact aggregate: each non-empty
    stored value of the kind, once. *)
Lemma contact_agg_values kind p cis ds :
  distinct_nonempty (kind_values cis (p_id p) kind)
                    (filter_None (or_empty (contact_agg kind (left_join p cis ds)))).
Proof.
  unfold contact_agg. rewrite or_empty_array_agg.
  apply distinct_nonempty_of_input. intro x. apply in_contact_agg_input.
Qed.

Lemma pdf_agg_values p cis ds :
  distinct_nonempty (pdf_urls_of ds (p_id p))
                    (filter_None (or_empty (pdf_agg (left_join p cis ds)))).
Proof.
  unfold pdf_agg. rewrite or_empty_array_agg.
  apply distinct_nonempty_of_input. intro x. apply in_pdf_agg_input.
Qed.

(** The aggregate is NULL exactly when nothing of the kind is stored. *)
Lemma contact_agg_null kind p cis ds :
  contact_agg kind (left_join p cis ds) = None <-> kind_values cis (p_id p) kind = [].
Proof.
  unfold contact_agg.
  match goal with
  | |- array_agg_distinct ?L = None <-> _ =>
      assert (H : forall x, In x L <->
                    exists v, x = Some v /\ In v (kind_values cis (p_id p) kind))
        by (intro x; apply in_contact_agg_input);
      set (l := L) in *; clearbody l
  end.
  split.
  - intro E. destruct l as [|x l']; [|cbn in E; discriminate].
    destruct (kind_values cis (p_id p) kind) as [|v vs]; [reflexivity|].
    destruct (proj2 (H (Some v))). exists v. simpl; auto.
  - intro E. rewrite E in H. destruct l as [|x l']; [reflexivity|].
    destruct (proj1 (H x)) as (v & _ & []). left; reflexivity.
Qed.

Lemma iter_contact_agg kind p cis ds :
  kind_values cis (p_id p) kind <> [] ->
  iter (contact_agg kind (left_join p cis ds))
  = Ok (or_empty (contact_agg kind (left_join p cis ds))).
Proof.
  intro N. destruct (contact_agg kind (left_join p cis ds)) eqn:E; [reflexivity|].
  apply contact_agg_null in E. contradiction.
Qed.

(** ** Inserting the children *)

Lemma varchar_fits (n : nat) (s : string) :
  (String.length s <=? n)%nat = true -> varchar n (Some s) = Ok (Some s).
Proof. intro H. unfold varchar. rewrite H. reflexivity. Qed.

Lemma db_eta (s : db) : mk_db (persons s) (contact_info s) (documents s) = s.
Proof. destruct s; reflexivity. Qed.

Lemma table_eta R (t : table R) : mk_table (rows t) (next_id t) = t.
Proof. destruct t; reflexivity. Qed.

Lemma insert_contact_info_ok person_id kind v s tp tc :
  persons s = Some tp ->
  contact_info s = Some tc ->
  existsb (fun p => p_id p =? person_id) (rows tp) = true ->
  (String.length kind <=? 50)%nat = true ->
  (String.length v <=? 255)%nat = true ->
  insert_contact_info person_id kind v s
  = Ok (tt, mk_db (persons s)
                  (Some (mk_table (rows tc ++ [mk_contact (next_id tc) person_id kind v])
                                  (next_id tc + 1)))
                  (documents s)).
Proof.
  intros Hp Hc He Hk Hv.
  unfold insert_contact_info, bind, the_contact_info, lift, references_persons,
    set_contact_info.
  rewrite Hc, (varchar_fits _ _ Hk), (varchar_fits _ _ Hv). cbn.
  rewrite Hp, He. cbn. rewrite ?Hp. reflexivity.
Qed.

Lemma for_each_insert_contact_info person_id kind (l : list string) :
  forall s tp tc,
    persons s = Some tp ->
    contact_info s = Some tc ->
    l = [] \/ existsb (fun p => p_id p =? person_id) (rows tp) = true ->
    (String.length kind <=? 50)%nat = true ->
    forallb (fun v => (String.length v <=? 255)%nat) l = true ->
    for_each l (fun v => insert_contact_info person_id kind v) s
    = Ok (tt, mk_db (persons s)
                    (Some (mk_table (rows tc ++ numbered_contacts person_id kind l (next_id tc))
                                    (next_id tc + Z.of_nat (List.length l))))
                    (documents s)).
Proof.
  induction l as [|v l IH]; intros s tp tc Hp Hc He Hk Hl.
  - cbn. rewrite app_nil_r, Z.add_0_r, table_eta, <- Hc, db_eta. reflexivity.
  - cbn [forallb] in Hl. apply andb_true_iff in Hl. destruct Hl as [Hv Hl].
    destruct He as [He|He]; [discriminate|].
    cbn [for_each]. unfold bind at 1.
    rewrite (insert_contact_info_ok _ _ _ _ _ _ Hp Hc He Hk Hv).
    erewrite IH; [| exact Hp | reflexivity | right; exact He | exact Hk | exact Hl].
    cbn.
    rewrite <- app_assoc. cbn.
    replace (next_id tc + 1 + Z.of_nat (List.length l))
      with (next_id tc + Z.pos (Pos.of_succ_nat (List.length l))) by lia.
    reflexivity.
Qed.

Lemma insert_documents_ok person_id u s tp td :
  persons s = Some tp ->
  documents s = Some td ->
  existsb (fun p => p_id p =? person_id) (rows tp) = true ->
  insert_documents person_id u "pdf" s
  = Ok (tt, mk_db (persons s) (contact_info s)
                  (Some (mk_table (rows td ++ [mk_document (next_id td) person_id u "pdf"])
                                  (next_id td + 1)))).
Proof.
  intros Hp Hd He.
  unfold insert_documents, bind, the_documents, lift, references_persons, set_documents.
  rewrite Hd. cbn. rewrite Hp, He. cbn. rewrite ?Hp. reflexivity.
Qed.

Lemma for_each_insert_documents person_id (l : list string) :
  forall s tp td,
    persons s = Some tp ->
    documents s = Some td ->
    l = [] \/ existsb (fun p => p_id p =? person_id) (rows tp) = true ->
    for_each l (fun u => insert_documents person_id u "pdf") s
    = Ok (tt, mk_db (persons s) (contact_info s)
                    (Some (mk_table (rows td ++ numbered_documents person_id l (next_id td))
                                    (next_id td + Z.of_nat (List.length l))))).
Proof.
  induction l as [|u l IH]; intros s tp td Hp Hd He.
  - cbn. rewrite app_nil_r, Z.add_0_r, table_eta, <- Hd, db_eta. reflexivity.
  - destruct He as [He|He]; [discriminate|].
    cbn [for_each]. unfold bind at 1.
    rewrite (insert_documents_ok _ _ _ _ _ Hp Hd He).
    erewrite IH; [| exact Hp | reflexivity | right; exact He].
    cbn.
    rewrite <- app_assoc. cbn.
    replace (next_id td + 1 + Z.of_nat (List.length l))
      with (next_id td + Z.pos (Pos.of_succ_nat (List.length l))) by lia.
    reflexivity.
Qed.

Lemma get_list_submitted (f : field (list string)) :
  is_list f = true -> get_list f = Ok (submitted f).
Proof. destruct f; simpl; congruence. Qed.

Lemma values_within_list n (f : field (list string)) :
  values_within n f = true ->
  is_list f = true
  /\ forallb (fun s => (String.length s <=? n)%nat) (submitted f) = true.
Proof. destruct f; simpl; auto; discriminate. Qed.

Lemma no_children_inv (r : payload) :
  no_children r = true ->
  submitted (mobile_numbers r) = [] /\ submitted (whatsapp_numbers r) = []
  /\ submitted (facebook_links r) = [] /\ submitted (website_links r) = []
  /\ submitted (pdf_urls r) = [].
Proof.
  unfold no_children.
  destruct (submitted (mobile_numbers r)), (submitted (whatsapp_numbers r)),
    (submitted (facebook_links r)), (submitted (website_links r)),
    (submitted (pdf_urls r)); intro H; try discriminate; auto.
Qed.

(** The four loops of [insert_contacts]; the person must exist as soon as
    one row is inserted. *)
Lemma insert_contacts_ok person_id (r : payload) s tp tc :
  persons s = Some tp ->
  contact_info s = Some tc ->
  no_children r = true \/ existsb (fun p => p_id p =? person_id) (rows tp) = true ->
  values_within 255 (mobile_numbers r) = true ->
  values_within 255 (whatsapp_numbers r) = true ->
  values_within 255 (facebook_links r) = true ->
  values_within 255 (website_links r) = true ->
  insert_contacts person_id r s
  = Ok (tt, mk_db (persons s)
                  (Some (mk_table (rows tc ++ contacts_of person_id r (next_id tc))
                                  (next_id tc + contacts_count r)))
                  (documents s)).
Proof.
  intros Hp Hc He H1 H2 H3 H4.
  apply values_within_list in H1, H2, H3, H4.
  destruct H1 as [L1 V1], H2 as [L2 V2], H3 as [L3 V3], H4 as [L4 V4].
  assert (He1 : submitted (mobile_numbers r) = []
                \/ existsb (fun p => p_id p =? person_id) (rows tp) = true)
    by (destruct He as [N|He]; [left; apply (no_children_inv _ N)|right; exact He]).
  assert (He2 : submitted (whatsapp_numbers r) = []
                \/ existsb (fun p => p_id p =? person_id) (rows tp) = true)
    by (destruct He as [N|He]; [left; apply (no_children_inv _ N)|right; exact He]).
  assert (He3 : submitted (facebook_links r) = []
                \/ existsb (fun p => p_id p =? person_id) (rows tp) = true)
    by (destruct He as [N|He]; [left; apply (no_children_inv _ N)|right; exact He]).
  assert (He4 : submitted (website_links r) = []
                \/ existsb (fun p => p_id p =? person_id) (rows tp) = true)
    by (destruct He as [N|He]; [left; apply (no_children_inv _ N)|right; exact He]).
  unfold insert_contacts, contacts_of, contacts_count.
  unfold bind at 1. rewrite (get_list_submitted _ L1). cbn [lift rbind].
  unfold bind at 1.
  erewrite for_each_insert_contact_info;
    [| exact Hp | exact Hc | exact He1 | reflexivity | exact V1].
  unfold bind at 1. rewrite (get_list_submitted _ L2). cbn [lift rbind].
  unfold bind at 1.
  erewrite for_each_insert_contact_info;
    [| exact Hp | reflexivity | exact He2 | reflexivity | exact V2].
  cbn [persons contact_info documents rows next_id].
  unfold bind at 1. rewrite (get_list_submitted _ L3). cbn [lift rbind].
  unfold bind at 1.
  erewrite for_each_insert_contact_info;
    [| exact Hp | reflexivity | exact He3 | reflexivity | exact V3].
  cbn [persons contact_info documents rows next_id].
  unfold bind at 1. rewrite (get_list_submitted _ L4). cbn [lift rbind].
  erewrite for_each_insert_contact_info;
    [| exact Hp | reflexivity | exact He4 | reflexivity | exact V4].
  cbn [persons contact_info documents rows next_id].
  rewrite <- !app_assoc.
  match goal with
  | |- Ok (tt, mk_db _ (Some (mk_table _ ?n1)) _) = Ok (tt, mk_db _ (Some (mk_table _ ?n2)) _) =>
      replace n1 with n2 by lia; reflexivity
  end.
Qed.

(** ** [add_record] *)

Lemma text_within_val n (f : field string) :
  text_within n f = true -> f = Val (text f) /\ (String.length (text f) <=? n)%nat = true.
Proof. destruct f; simpl; intro H; try discriminate; auto. Qed.

Lemma present_val (f : field string) : present f = true -> f = Val (text f).
Proof. destruct f; simpl; intro H; try discriminate; auto. Qed.

Lemma existsb_app_last (p : person_row) (l : list person_row) :
  existsb (fun q => p_id q =? p_id p) (l ++ [p]) = true.
Proof.
  rewrite existsb_app. simpl. rewrite Z.eqb_refl, orb_true_r. reflexivity.
Qed.

(** The row a valid payload is stored as carries its scalar fields. *)
Lemma scalars_of_row_of (r : payload) (id created : Z) :
  valid_payload r = true -> scalars_of r (row_of r id created).
Proof.
  unfold valid_payload. rewrite !andb_true_iff.
  intros [[[[[[[[[[[[[H1 H2] H3] H4] H5] H6] _] H8] H9] _] _] _] _] _].
  apply text_within_val in H1, H2, H3, H5, H6. apply present_val in H8, H9.
  unfold scalars_of, row_of; cbn.
  repeat split; try tauto.
  destruct (dob r); simpl in *; congruence.
Qed.

(** On a database with its three tables, the statements of [_add_record]
    for a valid payload all succeed: one person row under the next id of the
    sequence, then the children. *)
Lemma _add_record_ok (now : Z) (r : payload) (s : db) tp tc td :
  persons s = Some tp ->
  contact_info s = Some tc ->
  documents s = Some td ->
  valid_payload r = true ->
  _add_record now r s
  = Ok (next_id tp,
        mk_db (Some (mk_table (rows tp ++ [row_of r (next_id tp) now]) (next_id tp + 1)))
              (Some (mk_table (rows tc ++ contacts_of (next_id tp) r (next_id tc))
                              (next_id tc + contacts_count r)))
              (Some (mk_table (rows td
                               ++ numbered_documents (next_id tp) (submitted (pdf_urls r))
                                                     (next_id td))
                              (next_id td
                               + Z.of_nat (List.length (submitted (pdf_urls r))))))).
Proof.
  intros Hp Hc Hd V. pose proof V as V0.
  unfold valid_payload in V. rewrite !andb_true_iff in V.
  destruct V as [[[[[[[[[[[[[H1 H2] H3] H4] H5] H6] H7] H8] H9] C1] C2] C3] C4] L5].
  apply text_within_val in H1, H2, H3, H5, H6. apply present_val in H8, H9.
  destruct H1 as [E1 F1], H2 as [E2 F2], H3 as [E3 F3], H5 as [E5 F5], H6 as [E6 F6].
  unfold _add_record.
  rewrite E1, E2, E3, E5, E6, H8, H9.
  destruct (dob r) as [| |d] eqn:E4; try discriminate.
  cbn [getitem]. unfold bind at 1. cbn [lift rbind].
  unfold bind at 1. cbn [lift rbind].
  unfold bind at 1. cbn [lift rbind].
  unfold bind at 1. cbn [lift rbind].
  unfold bind at 1. cbn [lift rbind].
  unfold bind at 1. cbn [lift rbind].
  unfold bind at 1. cbn [lift rbind].
  unfold bind at 1. cbn [lift rbind].
  unfold bind at 1.
  assert (I : insert_persons (Some (text (full_name r))) (Some (text (father_name r)))
                (Some (text (mother_name r))) (Some d) (Some (text (gender r)))
                (Some (text (nid r))) (get (voter_no r))
                (Some (text (permanent_address r))) (Some (text (present_address r)))
                (json_image (image_data r)) (get (description r)) now s
              = Ok (next_id tp,
                    mk_db (Some (mk_table (rows tp ++ [row_of r (next_id tp) now])
                                          (next_id tp + 1)))
                          (contact_info s) (documents s))).
  { unfold insert_persons, bind, the_persons, lift, set_persons, ret.
    rewrite Hp, (varchar_fits _ _ F1), (varchar_fits _ _ F2), (varchar_fits _ _ F3),
      (varchar_fits _ _ F5), (varchar_fits _ _ F6). cbn [rbind not_null].
    assert (V7 : varchar 100 (get (voter_no r)) = Ok (get (voter_no r))).
    { destruct (get (voter_no r)) as [v|]; [apply varchar_fits; exact H7|reflexivity]. }
    rewrite V7. cbn [rbind not_null].
    unfold row_of, json_image. rewrite E4. reflexivity. }
  rewrite I.
  unfold bind at 1.
  erewrite insert_contacts_ok;
    [| reflexivity | exact Hc
     | right; apply (existsb_app_last (row_of r (next_id tp) now) (rows tp))
     | exact C1 | exact C2 | exact C3 | exact C4].
  cbn [persons contact_info documents].
  unfold bind at 1. rewrite (get_list_submitted _ L5). cbn [lift rbind].
  unfold bind at 1.
  erewrite for_each_insert_documents;
    [| reflexivity | exact Hd
     | right; apply (existsb_app_last (row_of r (next_id tp) now) (rows tp))].
  reflexivity.
Qed.

(** ** The stored values of a person *)

Lemma kind_values_app cis1 cis2 i k :
  kind_values (cis1 ++ cis2) i k = (kind_values cis1 i k ++ kind_values cis2 i k)%list.
Proof. unfold kind_values. rewrite filter_app, map_app. reflexivity. Qed.

Lemma pdf_urls_of_app ds1 ds2 i :
  pdf_urls_of (ds1 ++ ds2) i = (pdf_urls_of ds1 i ++ pdf_urls_of ds2 i)%list.
Proof. unfold pdf_urls_of. rewrite filter_app, map_app. reflexivity. Qed.

Lemma kind_values_numbered i kind l n :
  kind_values (numbered_contacts i kind l n) i kind = l.
Proof.
  revert n. induction l as [|v l IH]; intro n; [reflexivity|].
  unfold kind_values in *. cbn. rewrite Z.eqb_refl, String.eqb_refl. cbn.
  f_equal. apply IH.
Qed.

Lemma kind_values_numbered_other i kind l n j k :
  (j =? i) && (kind =? k)%string = false ->
  kind_values (numbered_contacts i kind l n) j k = [].
Proof.
  intro H. revert n. induction l as [|v l IH]; intro n; [reflexivity|].
  unfold kind_values in *. cbn. rewrite H. apply IH.
Qed.

Lemma pdf_urls_of_numbered i l n : pdf_urls_of (numbered_documents i l n) i = l.
Proof.
  revert n. induction l as [|v l IH]; intro n; [reflexivity|].
  unfold pdf_urls_of in *. cbn. rewrite Z.eqb_refl. cbn. f_equal. apply IH.
Qed.

Lemma pdf_urls_of_numbered_other i l n j :
  (j =? i) = false -> pdf_urls_of (numbered_documents i l n) j = [].
Proof.
  intro H. revert n. induction l as [|v l IH]; intro n; [reflexivity|].
  unfold pdf_urls_of in *. cbn. rewrite H. apply IH.
Qed.

(** The contact rows of a payload hold, kind by kind, its four lists. *)
Lemma kind_values_contacts_of i r n :
  kind_values (contacts_of i r n) i "mobile" = submitted (mobile_numbers r)
  /\ kind_values (contacts_of i r n) i "whatsapp" = submitted (whatsapp_numbers r)
  /\ kind_values (contacts_of i r n) i "facebook" = submitted (facebook_links r)
  /\ kind_values (contacts_of i r n) i "website" = submitted (website_links r).
Proof.
  unfold contacts_of. cbv zeta. rewrite !kind_values_app.
  repeat split;
    repeat first
      [ rewrite kind_values_numbered
      | rewrite kind_values_numbered_other
          by (rewrite Z.eqb_refl; reflexivity) ];
    rewrite ?app_nil_r; reflexivity.
Qed.

Lemma kind_values_contacts_of_other i r n j k :
  (j =? i) = false -> kind_values (contacts_of i r n) j k = [].
Proof.
  intro H. unfold contacts_of. cbv zeta. rewrite !kind_values_app.
  rewrite !kind_values_numbered_other by (rewrite H; reflexivity). reflexivity.
Qed.

(** Nothing is stored for an id no child row points to. *)
Lemma kind_values_unreferenced cis i k :
  Forall (fun c => ci_person_id c <> i) cis -> kind_values cis i k = [].
Proof.
  unfold kind_values. induction 1 as [|c cis N _ IH]; [reflexivity|].
  cbn. destruct (Z.eqb_spec i (ci_person_id c)); [congruence|]. exact IH.
Qed.

Lemma pdf_urls_of_unreferenced ds i :
  Forall (fun d => d_person_id d <> i) ds -> pdf_urls_of ds i = [].
Proof.
  unfold pdf_urls_of. induction 1 as [|d ds N _ IH]; [reflexivity|].
  cbn. destruct (Z.eqb_spec i (d_person_id d)); [congruence|]. exact IH.
Qed.

Lemma below_not_in (l : list person_row) (n : Z) :
  Forall (fun p => p_id p < n) l -> ~ In n (map p_id l).
Proof.
  intros H I. apply in_map_iff in I. destruct I as (p & E & I).
  rewrite Forall_forall in H. specialize (H p I). lia.
Qed.

Lemma filter_id_below (l : list person_row) (n : Z) :
  Forall (fun p => p_id p < n) l -> filter (fun q => p_id q =? n) l = [].
Proof.
  induction 1 as [|p l L _ IH]; [reflexivity|].
  cbn. destruct (Z.eqb_spec (p_id p) n); [lia|]. exact IH.
Qed.

(** ** [get_record] *)

Lemma dict_children (s : db) tc td (p : person_row) :
  contact_info s = Some tc ->
  documents s = Some td ->
  children_of s (to_dict_or_empty (aggregate (rows tc) (rows td) p)).
Proof.
  intros Hc Hd. unfold children_of, contact_values, pdf_values. rewrite Hc, Hd.
  cbn [to_dict_or_empty aggregate out_person out_mobile_numbers out_whatsapp_numbers
       out_facebook_links out_website_links out_pdf_urls a_person a_mobile_numbers
       a_whatsapp_numbers a_facebook_links a_website_links a_pdf_urls].
  split; [apply contact_agg_values|].
  split; [apply contact_agg_values|].
  split; [apply contact_agg_values|].
  split; [apply contact_agg_values|].
  apply pdf_agg_values.
Qed.

(** When the person has a value of each of the four contact kinds,
    [_get_record] returns the dictionary of the first row of that id. *)
Lemma _get_record_found (record_id : Z) (s : db) tp tc td p rest :
  persons s = Some tp ->
  contact_info s = Some tc ->
  documents s = Some td ->
  filter (fun q => p_id q =? record_id) (rows tp) = p :: rest ->
  kind_values (rows tc) (p_id p) "mobile" <> [] ->
  kind_values (rows tc) (p_id p) "whatsapp" <> [] ->
  kind_values (rows tc) (p_id p) "facebook" <> [] ->
  kind_values (rows tc) (p_id p) "website" <> [] ->
  _get_record record_id s
  = Ok (Some (to_dict_or_empty (aggregate (rows tc) (rows td) p)), s).
Proof.
  intros Hp Hc Hd F N1 N2 N3 N4.
  unfold _get_record, select_aggregated, bind, the_persons, the_contact_info,
    the_documents, ret.
  rewrite Hp, Hc, Hd, F. cbn [map aggregate a_mobile_numbers a_whatsapp_numbers
    a_facebook_links a_website_links a_pdf_urls a_person].
  rewrite (iter_contact_agg _ _ _ _ N1), (iter_contact_agg _ _ _ _ N2),
    (iter_contact_agg _ _ _ _ N3), (iter_contact_agg _ _ _ _ N4).
  reflexivity.
Qed.

Lemma has_tables_inv (s : db) :
  has_tables s ->
  exists tp tc td, persons s = Some tp /\ contact_info s = Some tc /\ documents s = Some td.
Proof.
  intros (H1 & H2 & H3).
  destruct (persons s) as [tp|], (contact_info s) as [tc|], (documents s) as [td|];
    try congruence.
  eauto 6.
Qed.

Lemma wf_has_tables (s : db) : wf s -> has_tables s.
Proof.
  unfold wf, has_tables.
  destruct (persons s), (contact_info s), (documents s); try tauto.
  intros _. repeat split; discriminate.
Qed.

(** On a healthy connection [add_record] stores a valid payload and returns
    the next id of the sequence. *)
Lemma add_record_ok (r : payload) (w : world) :
  has_tables (store w) ->
  valid_payload r = true ->
  no_fault w ->
  add_record r w
  = (Some (next_person_id (store w)),
     mk_world (added r (clock w) (store w)) (clock w) (tl (faults w))
              (log w ++ calls_of_success)).
Proof.
  intros T V F. destruct (has_tables_inv _ T) as (tp & tc & td & Hp & Hc & Hd).
  unfold add_record.
  rewrite (run_ok Z (fun now => _add_record now r) w _ _ F
             (_add_record_ok (clock w) r (store w) _ _ _ Hp Hc Hd V)).
  unfold next_person_id, added. rewrite Hp, Hc, Hd. reflexivity.
Qed.

Lemma nonempty_submitted (f : field (list string)) :
  nonempty_list f = true -> submitted f <> [].
Proof. destruct f as [| |[|x l]]; simpl; congruence. Qed.

Lemma wf_unreferenced (s : db) tp tc td :
  wf s -> persons s = Some tp -> contact_info s = Some tc -> documents s = Some td ->
  Forall (fun c => ci_person_id c <> next_id tp) (rows tc)
  /\ Forall (fun d => d_person_id d <> next_id tp) (rows td).
Proof.
  unfold wf. intros W Hp Hc Hd. rewrite Hp, Hc, Hd in W.
  destruct W as (_ & B & Fc & Fd). apply below_not_in in B.
  split; eapply Forall_impl; try eassumption; cbn; intros x I E; congruence.
Qed.

(** What is stored for the person [add_record] has just created is what the
    payload lists. *)
Lemma added_values (r : payload) (now : Z) (s : db) :
  wf s ->
  let i := next_person_id s in
  let s' := added r now s in
  contact_values s' i "mobile" = submitted (mobile_numbers r)
  /\ contact_values s' i "whatsapp" = submitted (whatsapp_numbers r)
  /\ contact_values s' i "facebook" = submitted (facebook_links r)
  /\ contact_values s' i "website" = submitted (website_links r)
  /\ pdf_values s' i = submitted (pdf_urls r).
Proof.
  intro W. destruct (has_tables_inv _ (wf_has_tables _ W)) as (tp & tc & td & Hp & Hc & Hd).
  destruct (wf_unreferenced _ _ _ _ W Hp Hc Hd) as [Uc Ud].
  unfold next_person_id, added, contact_values, pdf_values. rewrite Hp, Hc, Hd.
  cbn [contact_info documents rows].
  rewrite !kind_values_app, pdf_urls_of_app, !(kind_values_unreferenced _ _ _ Uc),
    (pdf_urls_of_unreferenced _ _ Ud), pdf_urls_of_numbered.
  destruct (kind_values_contacts_of (next_id tp) r (next_id tc)) as (E1 & E2 & E3 & E4).
  rewrite E1, E2, E3, E4. repeat split; reflexivity.
Qed.

(** On a healthy connection, [get_record] of an id whose first row has a
    value of each of the four contact kinds returns the dictionary of that
    row. *)
Lemma get_record_found (record_id : Z) (w : world) (p : person_row) rest :
  no_fault w ->
  has_tables (store w) ->
  filter (fun q => p_id q =? record_id) (person_rows (store w)) = p :: rest ->
  contact_values (store w) (p_id p) "mobile" <> [] ->
  contact_values (store w) (p_id p) "whatsapp" <> [] ->
  contact_values (store w) (p_id p) "facebook" <> [] ->
  contact_values (store w) (p_id p) "website" <> [] ->
  exists d : person_dict,
    fst (get_record record_id w) = Ok (Some d)
    /\ out_person d = p
    /\ children_of (store w) d.
Proof.
  intros F T E N1 N2 N3 N4.
  destruct (has_tables_inv _ T) as (tp & tc & td & Hp & Hc & Hd).
  unfold person_rows in E. unfold contact_values in N1, N2, N3, N4.
  rewrite Hp in E. rewrite Hc in N1, N2, N3, N4.
  exists (to_dict_or_empty (aggregate (rows tc) (rows td) p)).
  split; [|split].
  - unfold get_record.
    rewrite (run_ok _ (fun _ => _get_record record_id) w _ _ F
               (_get_record_found record_id (store w) tp tc td p rest
                                  Hp Hc Hd E N1 N2 N3 N4)).
    reflexivity.
  - reflexivity.
  - apply (dict_children (store w) tc td p Hc Hd).
Qed.

Lemma person_rows_added (r : payload) (now : Z) (s : db) :
  has_tables s ->
  person_rows (added r now s) = (person_rows s ++ [row_of r (next_person_id s) now])%list.
Proof.
  intro T. destruct (has_tables_inv _ T) as (tp & tc & td & Hp & Hc & Hd).
  unfold person_rows, added, next_person_id. rewrite Hp, Hc, Hd. reflexivity.
Qed.

Lemma has_tables_added (r : payload) (now : Z) (s : db) :
  has_tables s -> has_tables (added r now s).
Proof.
  intro T. destruct (has_tables_inv _ T) as (tp & tc & td & Hp & Hc & Hd).
  unfold added. rewrite Hp, Hc, Hd. repeat split; discriminate.
Qed.

Lemma wf_below (s : db) :
  wf s -> Forall (fun p => p_id p < next_person_id s) (person_rows s).
Proof.
  unfold wf, next_person_id, person_rows.
  destruct (persons s), (contact_info s), (documents s); tauto.
Qed.

Lemma children_of_from (r : payload) (s : db) (d : person_dict) :
  contact_values s (p_id (out_person d)) "mobile" = submitted (mobile_numbers r) ->
  contact_values s (p_id (out_person d)) "whatsapp" = submitted (whatsapp_numbers r) ->
  contact_values s (p_id (out_person d)) "facebook" = submitted (facebook_links r) ->
  contact_values s (p_id (out_person d)) "website" = submitted (website_links r) ->
  pdf_values s (p_id (out_person d)) = submitted (pdf_urls r) ->
  children_of s d -> children_from r d.
Proof.
  unfold children_of, children_from. cbv zeta.
  intros -> -> -> -> ->. tauto.
Qed.

(** C1, as amended.  On a database that satisfies its constraints and a
    healthy connection, [add_record] of a valid payload with at least one
    entry in each of its four contact lists returns an id, and [get_record]
    of that id then returns a dictionary with that id, the clock reading of
    the insertion as [created_at], the scalar fields of the payload, and in
    each child list the distinct non-empty values of the payload's list:
    the same set of values, each once, in whatever order. *)
Theorem get_record_after_add_record (r : payload) (w w' : world) :
  wf (store w) ->
  valid_payload r = true ->
  has_contacts r = true ->
  no_fault w ->
  store w' = store (snd (add_record r w)) ->
  no_fault w' ->
  exists (id : Z) (d : person_dict),
    fst (add_record r w) = Some id
    /\ fst (get_record id w') = Ok (Some d)
    /\ p_id (out_person d) = id
    /\ p_created_at (out_person d) = clock w
    /\ scalars_of r (out_person d)
    /\ children_from r d.
Proof.
  intros W V C F S F'.
  pose proof (wf_has_tables _ W) as T.
  rewrite (add_record_ok r w T V F) in *. cbn [fst snd store] in S |- *.
  destruct (added_values r (clock w) _ W) as (A1 & A2 & A3 & A4 & A5).
  unfold has_contacts in C. rewrite !andb_true_iff in C.
  destruct C as [[[C1 C2] C3] C4]. apply nonempty_submitted in C1, C2, C3, C4.
  pose (i := next_person_id (store w)).
  pose (p := row_of r i (clock w)).
  assert (E : filter (fun q => p_id q =? i) (person_rows (store w')) = [p]).
  { rewrite S, (person_rows_added r (clock w) _ T), filter_app.
    unfold i. rewrite (filter_id_below _ _ (wf_below _ W)). cbn.
    rewrite Z.eqb_refl. reflexivity. }
  assert (T' : has_tables (store w')) by (rewrite S; apply has_tables_added, T).
  assert (Ep : p_id p = next_person_id (store w)) by reflexivity.
  rewrite <- S, <- Ep in A1, A2, A3, A4, A5.
  destruct (get_record_found i w' p [] F' T' E) as (d & G & P & D);
    try congruence.
  exists i, d. split; [reflexivity|]. split; [exact G|].
  rewrite P. split; [reflexivity|]. split; [reflexivity|].
  split; [apply scalars_of_row_of, V|].
  apply (children_of_from r (store w') d); try exact D; rewrite P; assumption.
Qed.

Lemma wf_fresh_db : wf fresh_db.
Proof. unfold wf; cbn. repeat split; constructor. Qed.

Lemma get_record_after_add_record_witness :
  wf (store fresh_world)
  /\ valid_payload sample_payload = true
  /\ has_contacts sample_payload = true
  /\ exists (id : Z) (d : person_dict),
       fst (add_record sample_payload fresh_world) = Some id
       /\ fst (get_record id (snd (add_record sample_payload fresh_world))) = Ok (Some d)
       /\ p_id (out_person d) = id
       /\ p_created_at (out_person d) = clock fresh_world
       /\ scalars_of sample_payload (out_person d)
       /\ children_from sample_payload d.
Proof.
  split; [exact wf_fresh_db|]. split; [reflexivity|]. split; [reflexivity|].
  apply (@get_record_after_add_record sample_payload fresh_world
           (snd (add_record sample_payload fresh_world)));
    first [exact wf_fresh_db | reflexivity].
Defined.

(** C1, as stated, fails: a mobile number submitted twice comes back once,
    so the list returned is not the submitted list up to order. *)
Lemma get_record_collapses_duplicates :
  mobile_numbers sample_payload = Val ["01711"; "01711"]
  /\ fst (add_record sample_payload fresh_world) = Some 1
  /\ match fst (get_record 1 (snd (add_record sample_payload fresh_world))) with
     | Ok (Some d) =>
         out_mobile_numbers d = ["01711"]
         /\ ~ Permutation (out_mobile_numbers d) ["01711"; "01711"]
     | _ => False
     end.
Proof.
  split; [reflexivity|]. split; [vm_compute; reflexivity|].
  vm_compute. split; [reflexivity|].
  intro P. apply Permutation_length in P. discriminate.
Qed.

(** ** [update_record] *)

Lemma map_rewritten_absent (r : payload) (i : Z) (l : list person_row) :
  existsb (fun p => p_id p =? i) l = false -> map (rewritten r i) l = l.
Proof.
  induction l as [|p l IH]; [reflexivity|].
  cbn. intro H. apply orb_false_iff in H. destruct H as [H1 H2].
  unfold rewritten at 1. rewrite H1, (IH H2). reflexivity.
Qed.

Lemma existsb_rewritten (r : payload) (i j : Z) (l : list person_row) :
  existsb (fun p => p_id p =? j) (map (rewritten r i) l)
  = existsb (fun p => p_id p =? j) l.
Proof.
  induction l as [|p l IH]; [reflexivity|].
  cbn. rewrite IH. f_equal. unfold rewritten. destruct (p_id p =? i); reflexivity.
Qed.

Lemma update_persons_ok (r : payload) (record_id : Z) (s : db) tp :
  persons s = Some tp ->
  valid_payload r = true ->
  update_persons (Some (text (full_name r))) (Some (text (father_name r)))
                 (Some (text (mother_name r)))
                 (match dob r with Val d => Some d | _ => None end)
                 (Some (text (gender r))) (Some (text (nid r))) (get (voter_no r))
                 (Some (text (permanent_address r))) (Some (text (present_address r)))
                 (json_image (image_data r)) (get (description r)) record_id s
  = Ok (tt, mk_db (Some (mk_table (map (rewritten r record_id) (rows tp)) (next_id tp)))
                  (contact_info s) (documents s)).
Proof.
  intros Hp V.
  unfold valid_payload in V. rewrite !andb_true_iff in V.
  destruct V as [[[[[[[[[[[[[H1 H2] H3] H4] H5] H6] H7] H8] H9] C1] C2] C3] C4] L5].
  apply text_within_val in H1, H2, H3, H5, H6.
  destruct H1 as [E1 F1], H2 as [E2 F2], H3 as [E3 F3], H5 as [E5 F5], H6 as [E6 F6].
  unfold update_persons, bind, the_persons, lift, set_persons, ret.
  rewrite Hp, (varchar_fits _ _ F1), (varchar_fits _ _ F2), (varchar_fits _ _ F3),
    (varchar_fits _ _ F5), (varchar_fits _ _ F6). cbn [rbind not_null].
  assert (V7 : varchar 100 (get (voter_no r)) = Ok (get (voter_no r))).
  { destruct (get (voter_no r)) as [v|]; [apply varchar_fits; exact H7|reflexivity]. }
  rewrite V7. cbn [rbind not_null rows next_id].
  destruct (existsb (fun p => p_id p =? record_id) (rows tp)) eqn:E.
  - destruct (dob r) as [| |d] eqn:E4; try discriminate. cbn [rbind not_null].
    unfold rewritten, row_of, json_image. rewrite E4. reflexivity.
  - rewrite (map_rewritten_absent r _ _ E), table_eta, <- Hp, db_eta. reflexivity.
Qed.

(** On a database with its three tables, the statements of
    [_update_record] for a valid payload succeed, provided the person exists
    or no child row is to be inserted. *)
Lemma _update_record_ok (record_id : Z) (r : payload) (s : db) tp tc td :
  persons s = Some tp ->
  contact_info s = Some tc ->
  documents s = Some td ->
  valid_payload r = true ->
  no_children r = true \/ existsb (fun p => p_id p =? record_id) (rows tp) = true ->
  _update_record record_id r s = Ok (true, updated r record_id s).
Proof.
  intros Hp Hc Hd V He. pose proof (update_persons_ok r record_id s tp Hp V) as U.
  unfold updated. rewrite Hp, Hc, Hd.
  unfold valid_payload in V. rewrite !andb_true_iff in V.
  destruct V as [[[[[[[[[[[[[H1 H2] H3] H4] H5] H6] H7] H8] H9] C1] C2] C3] C4] L5].
  apply text_within_val in H1, H2, H3, H5, H6. apply present_val in H8, H9.
  destruct H1 as [E1 F1], H2 as [E2 F2], H3 as [E3 F3], H5 as [E5 F5], H6 as [E6 F6].
  unfold _update_record.
  rewrite E1, E2, E3, E5, E6, H8, H9.
  destruct (dob r) as [| |d] eqn:E4; try discriminate.
  cbn [getitem].
  do 8 (unfold bind at 1; cbn [lift rbind]).
  unfold bind at 1. rewrite U.
  unfold bind at 1.
  assert (D : delete_contact_info_of record_id
                (mk_db (Some (mk_table (map (rewritten r record_id) (rows tp)) (next_id tp)))
                       (contact_info s) (documents s))
              = Ok (tt, mk_db (Some (mk_table (map (rewritten r record_id) (rows tp))
                                              (next_id tp)))
                              (Some (mk_table
                                       (filter (fun c => negb (ci_person_id c =? record_id))
                                               (rows tc))
                                       (next_id tc)))
                              (documents s))).
  { unfold delete_contact_info_of, bind, the_contact_info, set_contact_info.
    cbn [contact_info]. rewrite Hc. reflexivity. }
  rewrite D.
  assert (He' : no_children r = true
                \/ existsb (fun p => p_id p =? record_id)
                           (rows (mk_table (map (rewritten r record_id) (rows tp))
                                           (next_id tp))) = true).
  { destruct He as [N|He]; [left; exact N|right].
    cbn [rows]. rewrite existsb_rewritten. exact He. }
  unfold bind at 1.
  erewrite insert_contacts_ok;
    [| reflexivity | reflexivity | exact He' | exact C1 | exact C2 | exact C3 | exact C4].
  cbn [persons contact_info documents rows next_id].
  unfold bind at 1.
  destruct (pdf_urls r) as [| |l] eqn:E5'; try discriminate; cbn [contains_key].
  - cbn [ret]. rewrite Hd. reflexivity.
  - unfold bind at 1.
    assert (D2 : forall x y,
               delete_documents_of record_id (mk_db x y (documents s))
               = Ok (tt, mk_db x y
                           (Some (mk_table
                                    (filter (fun d => negb (d_person_id d =? record_id))
                                            (rows td))
                                    (next_id td))))).
    { intros x y. unfold delete_documents_of, bind, the_documents, set_documents.
      cbn [documents]. rewrite Hd. reflexivity. }
    rewrite D2. unfold bind at 1. cbn [get iter lift rbind].
    assert (He3 : submitted (Val l) = []
                  \/ existsb (fun p => p_id p =? record_id)
                             (rows (mk_table (map (rewritten r record_id) (rows tp))
                                             (next_id tp))) = true).
    { destruct He' as [N|He']; [left|right; exact He'].
      apply no_children_inv in N. rewrite E5' in N. tauto. }
    cbn [submitted] in He3.
    erewrite for_each_insert_documents; [| reflexivity | reflexivity | exact He3].
    reflexivity.
Qed.

Lemma update_record_ok (record_id : Z) (r : payload) (w : world) :
  has_tables (store w) ->
  valid_payload r = true ->
  no_children r = true \/ person_exists (store w) record_id = true ->
  no_fault w ->
  update_record record_id r w
  = (Some true,
     mk_world (updated r record_id (store w)) (clock w) (tl (faults w))
              (log w ++ calls_of_success)).
Proof.
  intros T V E F. destruct (has_tables_inv _ T) as (tp & tc & td & Hp & Hc & Hd).
  unfold person_exists, person_rows in E. rewrite Hp in E.
  unfold update_record.
  rewrite (run_ok _ (fun _ => _update_record record_id r) w _ _ F
             (_update_record_ok record_id r (store w) tp tc td Hp Hc Hd V E)).
  reflexivity.
Qed.

Lemma filter_unreferenced_contacts (i : Z) (l : list contact_row) :
  Forall (fun c => ci_person_id c <> i) l ->
  filter (fun c => negb (ci_person_id c =? i)) l = l.
Proof.
  induction 1 as [|c l N _ IH]; [reflexivity|].
  cbn. destruct (Z.eqb_spec (ci_person_id c) i); [contradiction|].
  cbn. rewrite IH. reflexivity.
Qed.

Lemma filter_unreferenced_documents (i : Z) (l : list document_row) :
  Forall (fun d => d_person_id d <> i) l ->
  filter (fun d => negb (d_person_id d =? i)) l = l.
Proof.
  induction 1 as [|d l N _ IH]; [reflexivity|].
  cbn. destruct (Z.eqb_spec (d_person_id d) i); [contradiction|].
  cbn. rewrite IH. reflexivity.
Qed.

Lemma existsb_false_not_in (i : Z) (l : list person_row) :
  existsb (fun p => p_id p =? i) l = false -> ~ In i (map p_id l).
Proof.
  intros E I. apply in_map_iff in I. destruct I as (p & P & I).
  assert (X : existsb (fun p => p_id p =? i) l = true).
  { apply existsb_exists. exists p. split; [exact I|]. apply Z.eqb_eq, P. }
  congruence.
Qed.

(** An update of an id nobody has, without children to insert, changes
    nothing. *)
Lemma updated_absent (r : payload) (record_id : Z) (s : db) :
  wf s ->
  person_exists s record_id = false ->
  no_children r = true ->
  updated r record_id s = s.
Proof.
  intros W E N. destruct (has_tables_inv _ (wf_has_tables _ W)) as (tp & tc & td & Hp & Hc & Hd).
  unfold person_exists, person_rows in E. rewrite Hp in E.
  unfold wf in W. rewrite Hp, Hc, Hd in W. destruct W as (_ & _ & Fc & Fd).
  pose proof (existsb_false_not_in _ _ E) as NI.
  assert (Uc : Forall (fun c => ci_person_id c <> record_id) (rows tc))
    by (eapply Forall_impl; [|exact Fc]; cbn; intros c I X; congruence).
  assert (Ud : Forall (fun d => d_person_id d <> record_id) (rows td))
    by (eapply Forall_impl; [|exact Fd]; cbn; intros d I X; congruence).
  destruct (no_children_inv _ N) as (N1 & N2 & N3 & N4 & N5).
  unfold updated, contacts_of, contacts_count. rewrite Hp, Hc, Hd.
  rewrite (map_rewritten_absent r _ _ E), (filter_unreferenced_contacts _ _ Uc),
    (filter_unreferenced_documents _ _ Ud), N1, N2, N3, N4, N5.
  cbn [numbered_contacts numbered_documents List.length Z.of_nat app].
  rewrite !app_nil_r, !Z.add_0_r, !table_eta.
  destruct (contains_key (pdf_urls r)); rewrite <- Hp, <- Hc, <- Hd; apply db_eta.
Qed.

(** C9.  On a database that satisfies its constraints and a healthy
    connection, [update_record] of an id no person has, with a valid payload
    whose child lists are empty or absent, returns [True] and leaves the
    database as it was. *)
Theorem update_record_of_unknown_id (record_id : Z) (r : payload) (w : world) :
  wf (store w) ->
  person_exists (store w) record_id = false ->
  valid_payload r = true ->
  no_children r = true ->
  no_fault w ->
  fst (update_record record_id r w) = Some true
  /\ store (snd (update_record record_id r w)) = store w.
Proof.
  intros W E V N F.
  rewrite (update_record_ok record_id r w (wf_has_tables _ W) V (or_introl N) F).
  cbn [fst snd store]. split; [reflexivity|]. apply updated_absent; assumption.
Qed.

(** Establish [wf] of a concrete database. *)
Ltac wf_concrete :=
  vm_compute;
  repeat match goal with
         | |- _ /\ _ => split
         | |- NoDup _ => constructor
         | |- Forall _ _ => constructor
         | |- ~ _ => cbn; intuition discriminate
         | |- _ -> False => intuition discriminate
         | |- _ \/ _ => first [left; reflexivity | right]
         | |- _ = _ => reflexivity
         end.

Lemma wf_sample_world : wf (store sample_world).
Proof. wf_concrete. Qed.

Lemma update_record_of_unknown_id_witness :
  wf (store sample_world)
  /\ person_exists (store sample_world) 7 = false
  /\ valid_payload bare_payload = true
  /\ no_children bare_payload = true
  /\ no_fault sample_world
  /\ fst (update_record 7 bare_payload sample_world) = Some true
  /\ store (snd (update_record 7 bare_payload sample_world)) = store sample_world.
Proof.
  split; [exact wf_sample_world|]. do 4 (split; [reflexivity|]).
  apply (update_record_of_unknown_id 7 bare_payload sample_world);
    first [exact wf_sample_world | reflexivity].
Defined.

Lemma person_rows_updated (r : payload) (record_id : Z) (s : db) :
  has_tables s ->
  person_rows (updated r record_id s) = map (rewritten r record_id) (person_rows s).
Proof.
  intro T. destruct (has_tables_inv _ T) as (tp & tc & td & Hp & Hc & Hd).
  unfold person_rows, updated. rewrite Hp, Hc, Hd. reflexivity.
Qed.

Lemma has_tables_updated (r : payload) (record_id : Z) (s : db) :
  has_tables s -> has_tables (updated r record_id s).
Proof.
  intro T. destruct (has_tables_inv _ T) as (tp & tc & td & Hp & Hc & Hd).
  unfold updated. rewrite Hp, Hc, Hd.
  repeat split; cbn; try discriminate. destruct (contains_key (pdf_urls r)); discriminate.
Qed.

Lemma p_id_rewritten (r : payload) (i : Z) (q : person_row) :
  p_id (rewritten r i q) = p_id q.
Proof. unfold rewritten. destruct (p_id q =? i); reflexivity. Qed.

Lemma filter_rewritten_absent (r : payload) (i : Z) (l : list person_row) :
  ~ In i (map p_id l) ->
  filter (fun q => p_id q =? i) (map (rewritten r i) l) = [].
Proof.
  induction l as [|q l IH]; [reflexivity|].
  cbn [map In filter]. rewrite p_id_rewritten. intro N.
  destruct (Z.eqb_spec (p_id q) i); [tauto|]. apply IH. tauto.
Qed.

(** After the UPDATE the only row of the id is the payload's, with the
    [created_at] of the row it replaces. *)
Lemma filter_rewritten (r : payload) (i : Z) (l : list person_row) :
  NoDup (map p_id l) ->
  existsb (fun p => p_id p =? i) l = true ->
  exists p, In p l /\ p_id p = i
            /\ filter (fun q => p_id q =? i) (map (rewritten r i) l)
               = [row_of r i (p_created_at p)].
Proof.
  induction l as [|q l IH]; [discriminate|].
  cbn [map existsb filter]. rewrite p_id_rewritten. intros N E.
  inversion N as [|x xs N1 N2]; subst.
  destruct (Z.eqb_spec (p_id q) i) as [Q|Q].
  - exists q. split; [left; reflexivity|]. split; [exact Q|].
    rewrite filter_rewritten_absent by congruence.
    unfold rewritten. rewrite (proj2 (Z.eqb_eq _ _) Q), Q. reflexivity.
  - cbn [orb] in E. destruct (IH N2 E) as (p & I & P & F).
    exists p. split; [right; exact I|]. split; [exact P|]. exact F.
Qed.

Lemma Forall_filter_contacts (i : Z) (l : list contact_row) :
  Forall (fun c => ci_person_id c <> i) (filter (fun c => negb (ci_person_id c =? i)) l).
Proof.
  apply Forall_forall. intros c H. apply filter_In in H. destruct H as [_ H].
  apply negb_true_iff, Z.eqb_neq in H. exact H.
Qed.

Lemma Forall_filter_documents (i : Z) (l : list document_row) :
  Forall (fun d => d_person_id d <> i) (filter (fun d => negb (d_person_id d =? i)) l).
Proof.
  apply Forall_forall. intros d H. apply filter_In in H. destruct H as [_ H].
  apply negb_true_iff, Z.eqb_neq in H. exact H.
Qed.

(** What is stored for the person after [update_record]: the contact lists
    of the payload; its document list when the key [pdf_urls] is there, the
    documents of before when it is not. *)
Lemma updated_values (r : payload) (record_id : Z) (s : db) :
  has_tables s ->
  let s' := updated r record_id s in
  contact_values s' record_id "mobile" = submitted (mobile_numbers r)
  /\ contact_values s' record_id "whatsapp" = submitted (whatsapp_numbers r)
  /\ contact_values s' record_id "facebook" = submitted (facebook_links r)
  /\ contact_values s' record_id "website" = submitted (website_links r)
  /\ pdf_values s' record_id
     = if contains_key (pdf_urls r) then submitted (pdf_urls r)
       else pdf_values s record_id.
Proof.
  intro T. destruct (has_tables_inv _ T) as (tp & tc & td & Hp & Hc & Hd).
  unfold updated, contact_values, pdf_values. rewrite Hp, Hc, Hd.
  cbn [contact_info documents rows].
  rewrite !kind_values_app,
    !(kind_values_unreferenced _ _ _ (Forall_filter_contacts record_id (rows tc))).
  destruct (kind_values_contacts_of record_id r (next_id tc)) as (E1 & E2 & E3 & E4).
  rewrite E1, E2, E3, E4. do 4 (split; [reflexivity|]).
  destruct (contains_key (pdf_urls r)); [|reflexivity].
  cbn [rows].
  rewrite pdf_urls_of_app,
    (pdf_urls_of_unreferenced _ _ (Forall_filter_documents record_id (rows td))),
    pdf_urls_of_numbered.
  reflexivity.
Qed.

(** C4, as amended.  On a database that satisfies its constraints and a
    healthy connection, [update_record] of an existing id with a valid
    payload that has at least one entry in each of its four contact lists
    returns [True]; [get_record] of the id then returns the scalar fields of
    the payload and, in each contact list, the distinct non-empty values of
    the payload's list, with nothing left of the contacts of before.  The
    documents are replaced by the payload's only when it has the key
    [pdf_urls] (an empty list then removes them all); when the key is
    absent the documents of before stay and are returned. *)
Theorem get_record_after_update_record (record_id : Z) (r : payload) (w w' : world) :
  wf (store w) ->
  person_exists (store w) record_id = true ->
  valid_payload r = true ->
  has_contacts r = true ->
  no_fault w ->
  store w' = store (snd (update_record record_id r w)) ->
  no_fault w' ->
  fst (update_record record_id r w) = Some true
  /\ exists d : person_dict,
       fst (get_record record_id w') = Ok (Some d)
       /\ p_id (out_person d) = record_id
       /\ scalars_of r (out_person d)
       /\ distinct_nonempty (submitted (mobile_numbers r)) (out_mobile_numbers d)
       /\ distinct_nonempty (submitted (whatsapp_numbers r)) (out_whatsapp_numbers d)
       /\ distinct_nonempty (submitted (facebook_links r)) (out_facebook_links d)
       /\ distinct_nonempty (submitted (website_links r)) (out_website_links d)
       /\ distinct_nonempty
            (if contains_key (pdf_urls r) then submitted (pdf_urls r)
             else pdf_values (store w) record_id)
            (out_pdf_urls d).
Proof.
  intros W X V C F S F'.
  pose proof (wf_has_tables _ W) as T.
  rewrite (update_record_ok record_id r w T V (or_intror X) F) in *.
  cbn [fst snd store] in S |- *. split; [reflexivity|].
  destruct (updated_values r record_id _ T) as (A1 & A2 & A3 & A4 & A5).
  rewrite <- S in A1, A2, A3, A4, A5.
  unfold has_contacts in C. rewrite !andb_true_iff in C.
  destruct C as [[[C1 C2] C3] C4]. apply nonempty_submitted in C1, C2, C3, C4.
  assert (N : NoDup (map p_id (person_rows (store w)))).
  { unfold wf in W. unfold person_rows.
    destruct (persons (store w)), (contact_info (store w)), (documents (store w));
      tauto. }
  destruct (filter_rewritten r record_id _ N X) as (p & I & P & E).
  rewrite <- (person_rows_updated r record_id _ T), <- S in E.
  assert (T' : has_tables (store w')) by (rewrite S; apply has_tables_updated, T).
  destruct (get_record_found record_id w' _ [] F' T' E) as (d & G & Q & D);
    cbn [p_id row_of]; try congruence.
  exists d. split; [exact G|]. rewrite Q. cbn [p_id row_of].
  split; [reflexivity|].
  split; [apply scalars_of_row_of, V|].
  unfold children_of in D. cbv zeta in D. rewrite Q in D. cbn [p_id row_of] in D.
  rewrite A1, A2, A3, A4, A5 in D. exact D.
Qed.

Lemma get_record_after_update_record_witness :
  wf (store sample_world)
  /\ person_exists (store sample_world) 1 = true
  /\ valid_payload payload_without_pdf_key = true
  /\ has_contacts payload_without_pdf_key = true
  /\ fst (update_record 1 payload_without_pdf_key sample_world) = Some true
  /\ exists d : person_dict,
       fst (get_record 1 (snd (update_record 1 payload_without_pdf_key sample_world)))
       = Ok (Some d)
       /\ p_id (out_person d) = 1
       /\ scalars_of payload_without_pdf_key (out_person d)
       /\ distinct_nonempty ["01999"] (out_mobile_numbers d)
       /\ distinct_nonempty ["01811"] (out_whatsapp_numbers d)
       /\ distinct_nonempty ["fb.com/alice"] (out_facebook_links d)
       /\ distinct_nonempty ["alice.example"] (out_website_links d)
       /\ distinct_nonempty ["https://i.example/p1.png"] (out_pdf_urls d).
Proof.
  split; [exact wf_sample_world|]. do 3 (split; [reflexivity|]).
  apply (get_record_after_update_record 1 payload_without_pdf_key sample_world
           (snd (update_record 1 payload_without_pdf_key sample_world)));
    first [exact wf_sample_world | reflexivity].
Defined.

(** C4, as stated, fails: an update whose payload has no [pdf_urls] key
    leaves the document of before in place, and [get_record] returns it. *)
Lemma update_record_keeps_documents_without_key :
  pdf_urls payload_without_pdf_key = Missing
  /\ fst (update_record 1 payload_without_pdf_key sample_world) = Some true
  /\ match fst (get_record 1 (snd (update_record 1 payload_without_pdf_key sample_world)))
     with
     | Ok (Some d) =>
         out_pdf_urls d = ["https://i.example/p1.png"]
         /\ out_pdf_urls d <> submitted (pdf_urls payload_without_pdf_key)
     | _ => False
     end.
Proof.
  split; [reflexivity|]. split; [vm_compute; reflexivity|].
  vm_compute. split; [reflexivity|discriminate].
Qed.

(** ** ORDER BY created_at DESC *)

Lemma insert_desc_perm (p : person_row) (l : list person_row) :
  Permutation (insert_desc p l) (p :: l).
Proof.
  induction l as [|q l IH]; cbn; [reflexivity|].
  destruct (p_created_at q <=? p_created_at p); [reflexivity|].
  rewrite IH. apply perm_swap.
Qed.

Lemma order_by_perm (l : list person_row) :
  Permutation (order_by_created_at_desc l) l.
Proof.
  induction l as [|p l IH]; cbn; [reflexivity|].
  rewrite insert_desc_perm. constructor. exact IH.
Qed.

Lemma insert_desc_sorted (p : person_row) (l : list person_row) :
  StronglySorted newer_first l -> StronglySorted newer_first (insert_desc p l).
Proof.
  induction 1 as [|q l S IH F]; cbn.
  - constructor; constructor.
  - destruct (Z.leb_spec (p_created_at q) (p_created_at p)) as [L|L].
    + constructor; [constructor; assumption|].
      constructor; [exact L|].
      eapply Forall_impl; [|exact F]. unfold newer_first. intros x H. lia.
    + constructor; [exact IH|].
      apply Forall_forall. intros x I.
      apply (Permutation_in _ (insert_desc_perm p l)) in I.
      destruct I as [<-|I]; [unfold newer_first; lia|].
      rewrite Forall_forall in F. apply F, I.
Qed.

Lemma order_by_sorted (l : list person_row) :
  StronglySorted newer_first (order_by_created_at_desc l).
Proof.
  induction l as [|p l IH]; cbn; [constructor|]. apply insert_desc_sorted, IH.
Qed.

Lemma insert_desc_newest (p : person_row) (l : list person_row) :
  Forall (fun q => p_created_at q <= p_created_at p) l -> insert_desc p l = p :: l.
Proof.
  destruct 1 as [|q l L _]; cbn; [reflexivity|].
  rewrite (proj2 (Z.leb_le _ _) L). reflexivity.
Qed.

(** A row newer than all the others comes first. *)
Lemma order_by_newest_last (p : person_row) (l : list person_row) :
  Forall (fun q => p_created_at q < p_created_at p) l ->
  order_by_created_at_desc (l ++ [p]) = p :: order_by_created_at_desc l.
Proof.
  induction 1 as [|q l L _ IH]; [reflexivity|].
  cbn [app order_by_created_at_desc fold_right].
  change (fold_right insert_desc [] (l ++ [p])) with (order_by_created_at_desc (l ++ [p])).
  rewrite IH. cbn [insert_desc].
  rewrite (proj2 (Z.leb_gt _ _) L). reflexivity.
Qed.

(** ** [get_all_records] *)

Lemma filter_all A (l : list A) : filter (fun _ => true) l = l.
Proof. induction l as [|x l IH]; cbn; [|rewrite IH]; reflexivity. Qed.

Lemma out_person_dict_of (s : db) (l : list person_row) :
  map out_person (map (dict_of s) l) = l.
Proof. rewrite map_map. cbn. apply map_id. Qed.

Lemma children_of_dict_of (s : db) (p : person_row) :
  has_tables s -> children_of s (dict_of s p).
Proof.
  intro T. destruct (has_tables_inv _ T) as (tp & tc & td & Hp & Hc & Hd).
  unfold dict_of, contact_rows, document_rows. rewrite Hc, Hd.
  apply (dict_children s tc td p Hc Hd).
Qed.

(** The SELECT of the two list methods, dictionary by dictionary. *)
Lemma select_to_dicts (cond : person_row -> bool) (s : db) :
  has_tables s ->
  bind (select_aggregated cond true)
       (fun records =>
          match records with
          | [] => ret []
          | _ => ret (map to_dict_or_empty records)
          end) s
  = Ok (map (dict_of s) (order_by_created_at_desc (filter cond (person_rows s))), s).
Proof.
  intro T. destruct (has_tables_inv _ T) as (tp & tc & td & Hp & Hc & Hd).
  unfold select_aggregated, bind, the_persons, the_contact_info, the_documents, ret,
    dict_of, person_rows, contact_rows, document_rows.
  rewrite Hp, Hc, Hd.
  destruct (order_by_created_at_desc (filter cond (rows tp))) as [|p l];
    [reflexivity|].
  cbn [map]. rewrite map_map. reflexivity.
Qed.

Lemma get_all_records_ok (w : world) :
  has_tables (store w) ->
  no_fault w ->
  fst (get_all_records w)
  = map (dict_of (store w)) (order_by_created_at_desc (person_rows (store w))).
Proof.
  intros T F. unfold get_all_records.
  rewrite (run_ok _ (fun _ => _get_all_records) w _ _ F
             (select_to_dicts (fun _ => true) (store w) T)).
  cbn [fst or_empty]. rewrite filter_all. reflexivity.
Qed.

Lemma dicts_sorted (s : db) (l : list person_row) :
  StronglySorted newer_first l -> StronglySorted dict_newer_first (map (dict_of s) l).
Proof.
  induction 1 as [|p l S IH F]; cbn [map]; constructor; [exact IH|].
  apply Forall_map. eapply Forall_impl; [|exact F]. intros q H. exact H.
Qed.

Lemma distinct_nonempty_nil (got : list string) : distinct_nonempty [] got -> got = [].
Proof.
  intros [_ H]. destruct got as [|v got]; [reflexivity|].
  destruct (proj1 (H v) (or_introl eq_refl)) as [[] _].
Qed.

Lemma add_record_next (r : payload) (w : world) :
  has_tables (store w) ->
  valid_payload r = true ->
  faults w = [] ->
  store (snd (add_record r w)) = added r (clock w) (store w)
  /\ faults (snd (add_record r w)) = []
  /\ has_tables (store (snd (add_record r w))).
Proof.
  intros T V F.
  assert (N : no_fault w) by (unfold no_fault; rewrite F; reflexivity).
  rewrite (add_record_ok r w T V N). cbn [snd store faults]. rewrite F.
  split; [reflexivity|]. split; [reflexivity|]. apply has_tables_added, T.
Qed.

Lemma children_of_empty (s : db) (d : person_dict) :
  children_of s d -> empty_when_none s d.
Proof.
  unfold children_of, empty_when_none. cbv zeta.
  intros (D1 & D2 & D3 & D4 & D5).
  repeat split; intro E;
    [rewrite E in D1 | rewrite E in D2 | rewrite E in D3 | rewrite E in D4
     | rewrite E in D5];
    apply distinct_nonempty_nil; assumption.
Qed.

(** C7.  On a database with its three tables and a healthy connection,
    [get_all_records] returns every person row once, newest [created_at]
    first, each with its five lists holding the distinct non-empty values
    stored for that person (so an empty list, with no null in it, when
    nothing of the kind is stored).  And when three valid payloads A, B, C
    are added one after the other, at clock readings that increase and are
    later than every stored [created_at], [get_all_records] returns C, B, A
    in this order, before the persons it returned before. *)
Theorem get_all_records_newest_first (w : world) :
  has_tables (store w) ->
  no_fault w ->
  let ds := fst (get_all_records w) in
  Permutation (map out_person ds) (person_rows (store w))
  /\ StronglySorted dict_newer_first ds
  /\ Forall (children_of (store w)) ds
  /\ Forall (empty_when_none (store w)) ds
  /\ forall (a b c : payload) (tb tc : Z),
       valid_payload a = true ->
       valid_payload b = true ->
       valid_payload c = true ->
       faults w = [] ->
       Forall (fun p => p_created_at p < clock w) (person_rows (store w)) ->
       clock w < tb ->
       tb < tc ->
       let w1 := at_time tb (snd (add_record a w)) in
       let w2 := at_time tc (snd (add_record b w1)) in
       let w3 := snd (add_record c w2) in
       exists ra rb rc : person_row,
         map out_person (fst (get_all_records w3))
         = rc :: rb :: ra :: map out_person ds
         /\ scalars_of a ra /\ scalars_of b rb /\ scalars_of c rc.
Proof.
  intros T F. cbv zeta. rewrite (get_all_records_ok w T F), out_person_dict_of.
  split; [apply order_by_perm|].
  split; [apply dicts_sorted, order_by_sorted|].
  split; [apply Forall_map, Forall_forall; intros p _; apply children_of_dict_of, T|].
  split.
  { apply Forall_map, Forall_forall. intros p _.
    apply children_of_empty, children_of_dict_of, T. }
  intros a b c tb tc Va Vb Vc E Old L1 L2.
  destruct (add_record_next a w T Va E) as (S1 & F1 & T1).
  set (w1 := at_time tb (snd (add_record a w))).
  destruct (add_record_next b w1 T1 Vb F1) as (S2 & F2 & T2).
  set (w2 := at_time tc (snd (add_record b w1))).
  destruct (add_record_next c w2 T2 Vc F2) as (S3 & F3 & T3).
  set (w3 := snd (add_record c w2)) in *.
  assert (N3 : no_fault w3) by (unfold no_fault; rewrite F3; reflexivity).
  rewrite (get_all_records_ok w3 T3 N3), out_person_dict_of.
  rewrite S3. cbn [store clock w2 at_time].
  rewrite (person_rows_added c tc _ T2), S2. cbn [store clock w1 at_time].
  rewrite (person_rows_added b tb _ T1), S1.
  rewrite (person_rows_added a (clock w) _ T).
  set (ra := row_of a (next_person_id (store w)) (clock w)).
  set (rb := row_of b (next_person_id (added a (clock w) (store w))) tb).
  set (rc := row_of c (next_person_id (added b tb (added a (clock w) (store w)))) tc).
  exists ra, rb, rc.
  split.
  - rewrite order_by_newest_last, order_by_newest_last, order_by_newest_last;
      [reflexivity | | | ].
    + eapply Forall_impl; [|exact Old]. cbn. intros p H. exact H.
    + apply Forall_app. split; [|constructor; [cbn; lia|constructor]].
      eapply Forall_impl; [|exact Old]. cbn. intros p H. lia.
    + apply Forall_app. split; [|constructor; [cbn; lia|constructor]].
      apply Forall_app. split; [|constructor; [cbn; lia|constructor]].
      eapply Forall_impl; [|exact Old]. cbn. intros p H. lia.
  - split; [apply scalars_of_row_of, Va|].
    split; [apply scalars_of_row_of, Vb|apply scalars_of_row_of, Vc].
Qed.

Lemma has_tables_fresh_db : has_tables fresh_db.
Proof. repeat split; discriminate. Qed.

Lemma get_all_records_newest_first_witness :
  has_tables (store fresh_world)
  /\ no_fault fresh_world
  /\ Permutation (map out_person (fst (get_all_records fresh_world)))
                 (person_rows (store fresh_world))
  /\ let w1 := at_time 2000 (snd (add_record (payload_named "A") fresh_world)) in
     let w2 := at_time 3000 (snd (add_record (payload_named "B") w1)) in
     let w3 := snd (add_record (payload_named "C") w2) in
     exists ra rb rc : person_row,
       map out_person (fst (get_all_records w3))
       = rc :: rb :: ra :: map out_person (fst (get_all_records fresh_world))
       /\ scalars_of (payload_named "A") ra
       /\ scalars_of (payload_named "B") rb
       /\ scalars_of (payload_named "C") rc.
Proof.
  destruct (get_all_records_newest_first fresh_world has_tables_fresh_db eq_refl)
    as (P & _ & _ & _ & H).
  split; [exact has_tables_fresh_db|]. split; [reflexivity|]. split; [exact P|].
  apply (H (payload_named "A") (payload_named "B") (payload_named "C") 2000 3000);
    first [reflexivity | constructor].
Defined.

(** The ordering example on the fresh database: A, B, C added in this
    order come back as C, B, A. *)
Example get_all_records_C_B_A :
  let w1 := at_time 2000 (snd (add_record (payload_named "A") fresh_world)) in
  let w2 := at_time 3000 (snd (add_record (payload_named "B") w1)) in
  let w3 := snd (add_record (payload_named "C") w2) in
  map (fun d => p_full_name (out_person d)) (fst (get_all_records w3)) = ["C"; "B"; "A"].
Proof. vm_compute. reflexivity. Qed.

(** ** ILIKE and [search_records] *)

Lemma list_ascii_of_string_app (a b : string) :
  list_ascii_of_string (a ++ b) = (list_ascii_of_string a ++ list_ascii_of_string b)%list.
Proof. induction a as [|c a IH]; cbn; [|rewrite IH]; reflexivity. Qed.

Lemma lower_app (a b : string) : lower (a ++ b) = (lower a ++ lower b)%list.
Proof. unfold lower. rewrite list_ascii_of_string_app, map_app. reflexivity. Qed.

(** The pattern [search_records] builds: the query between two [%]. *)
Lemma lower_wrapped (q : string) :
  lower ("%" ++ q ++ "%") = ("%"%char :: lower q ++ ["%"%char])%list.
Proof. rewrite !lower_app. reflexivity. Qed.

(** A pattern that ends in [%] never ends in a lone backslash: the
    [InvalidEscapeSequence] branch of [_search_records] is never taken. *)
Lemma like_pattern_percent_end (n : nat) :
  forall l : list ascii,
    (List.length l <= n)%nat -> like_pattern (l ++ ["%"%char]) <> None.
Proof.
  induction n as [|n IH]; intros l L.
  - destruct l; [cbn; discriminate|cbn in L; lia].
  - destruct l as [|c l]; [cbn; discriminate|].
    cbn [app like_pattern]. cbn [List.length] in L.
    assert (H : like_pattern (l ++ ["%"%char]) <> None) by (apply IH; lia).
    destruct (Ascii.eqb c "\"%char).
    + destruct l as [|c' l]; [cbn; discriminate|].
      cbn [app]. cbn [List.length] in L.
      assert (H' : like_pattern (l ++ ["%"%char]) <> None) by (apply IH; lia).
      destruct (like_pattern (l ++ ["%"%char])); [discriminate|contradiction].
    + destruct (like_pattern (l ++ ["%"%char])); [|contradiction].
      destruct (Ascii.eqb c "%"%char); [discriminate|].
      destruct (Ascii.eqb c "_"%char); discriminate.
Qed.

Lemma like_pattern_wrapped (q : string) :
  exists pattern, like_pattern (lower ("%" ++ q ++ "%")) = Some (AnyString :: pattern).
Proof.
  rewrite lower_wrapped.
  pose proof (like_pattern_percent_end (List.length (lower q)) (lower q) (Nat.le_refl _)) as H.
  cbn [app like_pattern]. cbn.
  destruct (like_pattern (lower q ++ ["%"%char])) as [p|]; [|contradiction].
  exists p. reflexivity.
Qed.

Lemma like_match_star (ts : list like_token) (s : list ascii) :
  like_match (AnyString :: ts) s
  = like_match ts s
    || match s with
       | [] => false
       | _ :: s' => like_match (AnyString :: ts) s'
       end.
Proof. destruct s; reflexivity. Qed.

Lemma like_match_any (s : list ascii) : like_match [AnyString] s = true.
Proof.
  induction s as [|c s IH]; [reflexivity|].
  rewrite like_match_star, IH. apply orb_true_r.
Qed.

Lemma like_match_lits_star (x s : list ascii) :
  like_match (map Lit x ++ [AnyString]) s = prefixb x s.
Proof.
  revert s. induction x as [|c x IH]; intro s.
  - apply like_match_any.
  - destruct s as [|c' s]; [reflexivity|]. cbn [map app like_match prefixb].
    rewrite IH. reflexivity.
Qed.

(** Between two [%], a run of literal characters matches the texts it
    occurs in. *)
Lemma like_match_infix (x s : list ascii) :
  like_match (AnyString :: map Lit x ++ [AnyString]) s = infixb x s.
Proof.
  induction s as [|c s IH]; rewrite like_match_star, like_match_lits_star.
  - reflexivity.
  - rewrite IH. reflexivity.
Qed.

Lemma to_lower_special (c : ascii) : special c = false -> special (to_lower c) = false.
Proof.
  destruct c as [[] [] [] [] [] [] [] []]; vm_compute; congruence.
Qed.

Lemma like_pattern_plain (l : list ascii) :
  forallb (fun c => negb (special c)) l = true ->
  like_pattern (l ++ ["%"%char]) = Some (map Lit l ++ [AnyString])%list.
Proof.
  induction l as [|c l IH]; [reflexivity|].
  cbn [forallb]. intro H. apply andb_true_iff in H. destruct H as [C H].
  apply negb_true_iff in C. unfold special in C.
  apply orb_false_iff in C. destruct C as [C C3].
  apply orb_false_iff in C. destruct C as [C1 C2].
  cbn [app like_pattern map]. rewrite C1, C2, C3, (IH H). reflexivity.
Qed.

Lemma plain_lower (q : string) :
  plain q = true -> forallb (fun c => negb (special c)) (lower q) = true.
Proof.
  unfold plain, lower. induction (list_ascii_of_string q) as [|c l IH]; [reflexivity|].
  cbn [forallb map]. intro H. apply andb_true_iff in H. destruct H as [C H].
  apply negb_true_iff in C. rewrite (to_lower_special c C), (IH H). reflexivity.
Qed.

(** The pattern of a query without wildcards. *)
Lemma like_pattern_of_plain (q : string) :
  plain q = true ->
  like_pattern (lower ("%" ++ q ++ "%"))
  = Some (AnyString :: map Lit (lower q) ++ [AnyString])%list.
Proof.
  intro P. rewrite lower_wrapped.
  change (like_pattern ("%"%char :: lower q ++ ["%"%char])%list)
    with (option_map (cons AnyString) (like_pattern (lower q ++ ["%"%char]))).
  rewrite (like_pattern_plain _ (plain_lower q P)). reflexivity.
Qed.

(** [infixb] decides occurrence. *)
Lemma prefixb_spec (x s : list ascii) :
  prefixb x s = true <-> exists post, s = (x ++ post)%list.
Proof.
  revert s. induction x as [|c x IH]; intro s; cbn.
  - split; [eauto|reflexivity].
  - destruct s as [|c' s]; [split; [discriminate|intros [? H]; discriminate]|].
    rewrite andb_true_iff, Ascii.eqb_eq, IH. split.
    + intros [-> [post ->]]. eauto.
    + intros [post H]. inversion H; subst. eauto.
Qed.

Lemma infixb_spec (x s : list ascii) :
  infixb x s = true <-> exists pre post, s = (pre ++ x ++ post)%list.
Proof.
  induction s as [|c s IH]; cbn [infixb]; rewrite orb_true_iff, prefixb_spec.
  - split.
    + intros [[post H]|H]; [exists [], post; exact H|discriminate].
    + intros (pre & post & H). left. destruct pre; [eauto|discriminate].
  - rewrite IH. split.
    + intros [[post H]|(pre & post & H)].
      * exists [], post. exact H.
      * exists (c :: pre), post. cbn. rewrite H. reflexivity.
    + intros (pre & post & H). destruct pre as [|c' pre].
      * left. eauto.
      * right. inversion H; subst. eauto.
Qed.

(** WHERE and ORDER BY commute. *)
Lemma filter_insert_desc (f : person_row -> bool) (p : person_row) (l : list person_row) :
  StronglySorted newer_first l ->
  filter f (insert_desc p l)
  = if f p then insert_desc p (filter f l) else filter f l.
Proof.
  induction 1 as [|q l S IH F]; cbn [insert_desc filter].
  - destruct (f p); reflexivity.
  - destruct (Z.leb_spec (p_created_at q) (p_created_at p)) as [L|L].
    + cbn [filter]. destruct (f p) eqn:Fp; [|reflexivity].
      destruct (f q) eqn:Fq.
      * cbn [insert_desc]. rewrite (proj2 (Z.leb_le _ _) L). reflexivity.
      * rewrite insert_desc_newest; [reflexivity|].
        apply Forall_forall. intros x I. apply filter_In in I. destruct I as [I _].
        rewrite Forall_forall in F. specialize (F x I). unfold newer_first in F. lia.
    + cbn [filter]. rewrite IH. destruct (f q) eqn:Fq, (f p) eqn:Fp; try reflexivity.
      cbn [insert_desc]. rewrite (proj2 (Z.leb_gt _ _) L). reflexivity.
Qed.

Lemma filter_order_by (f : person_row -> bool) (l : list person_row) :
  filter f (order_by_created_at_desc l) = order_by_created_at_desc (filter f l).
Proof.
  induction l as [|p l IH]; [reflexivity|].
  cbn [order_by_created_at_desc fold_right filter].
  change (fold_right insert_desc [] l) with (order_by_created_at_desc l).
  rewrite (filter_insert_desc f p _ (order_by_sorted l)), IH.
  destruct (f p); reflexivity.
Qed.

Lemma filter_dicts (g : person_dict -> bool) (s : db) (l : list person_row) :
  filter g (map (dict_of s) l) = map (dict_of s) (filter (fun p => g (dict_of s p)) l).
Proof.
  induction l as [|p l IH]; [reflexivity|].
  cbn [map filter]. rewrite IH. destruct (g (dict_of s p)); reflexivity.
Qed.

Lemma search_records_ok (query : string) (pattern : list like_token) (w : world) :
  has_tables (store w) ->
  no_fault w ->
  like_pattern (lower ("%" ++ query ++ "%")) = Some pattern ->
  fst (search_records query w)
  = map (dict_of (store w))
        (order_by_created_at_desc
           (filter (fun p => ilike (p_full_name p) pattern) (person_rows (store w)))).
Proof.
  intros T F P. unfold search_records.
  assert (E : _search_records query (store w)
              = Ok (map (dict_of (store w))
                        (order_by_created_at_desc
                           (filter (fun p => ilike (p_full_name p) pattern)
                                   (person_rows (store w)))),
                    store w)).
  { unfold _search_records. rewrite P. apply select_to_dicts, T. }
  rewrite (run_ok _ (fun _ => _search_records query) w _ _ F E).
  reflexivity.
Qed.

(** C10.  On a database with its three tables and a healthy connection,
    [search_records] of the empty string returns what [get_all_records]
    returns: every person, once. *)
Theorem search_records_empty_query (w : world) :
  has_tables (store w) ->
  no_fault w ->
  fst (search_records "" w) = fst (get_all_records w)
  /\ Permutation (map out_person (fst (search_records "" w))) (person_rows (store w)).
Proof.
  intros T F.
  assert (E : fst (search_records "" w) = fst (get_all_records w)).
  { rewrite (search_records_ok "" [AnyString; AnyString] w T F eq_refl),
      (get_all_records_ok w T F).
    do 2 f_equal. rewrite <- (filter_all _ (person_rows (store w))) at 2.
    apply filter_ext. intro p. unfold ilike.
    rewrite like_match_star, like_match_any. reflexivity. }
  split; [exact E|].
  rewrite E, (get_all_records_ok w T F), out_person_dict_of. apply order_by_perm.
Qed.

Lemma search_records_empty_query_witness :
  has_tables (store sample_world)
  /\ no_fault sample_world
  /\ fst (search_records "" sample_world) = fst (get_all_records sample_world)
  /\ Permutation (map out_person (fst (search_records "" sample_world)))
                 (person_rows (store sample_world)).
Proof.
  assert (T : has_tables (store sample_world)) by (repeat split; discriminate).
  split; [exact T|]. split; [reflexivity|].
  apply (search_records_empty_query sample_world T eq_refl).
Defined.

(** C6, as amended.  On a database with its three tables and a healthy
    connection, for a query without [%], [_] and backslash,
    [search_records] returns exactly the dictionaries of [get_all_records]
    whose [full_name] contains the query, letter case aside, in the order of
    [get_all_records]. *)
Theorem search_records_plain_query (query : string) (w : world) :
  plain query = true ->
  has_tables (store w) ->
  no_fault w ->
  fst (search_records query w)
  = filter (fun d => contains_ci query (p_full_name (out_person d)))
           (fst (get_all_records w)).
Proof.
  intros P T F.
  rewrite (search_records_ok query _ w T F (like_pattern_of_plain query P)),
    (get_all_records_ok w T F), filter_dicts, filter_order_by.
  do 2 f_equal. apply filter_ext. intro p.
  unfold ilike, contains_ci. apply like_match_infix.
Qed.

Lemma search_records_plain_query_witness :
  plain "ALICE" = true
  /\ has_tables (store two_names_world)
  /\ no_fault two_names_world
  /\ fst (search_records "ALICE" two_names_world)
     = filter (fun d => contains_ci "ALICE" (p_full_name (out_person d)))
              (fst (get_all_records two_names_world)).
Proof.
  assert (T : has_tables (store two_names_world)) by (repeat split; discriminate).
  split; [reflexivity|]. split; [exact T|]. split; [reflexivity|].
  apply (search_records_plain_query "ALICE" two_names_world eq_refl T eq_refl).
Defined.

(** The searches of the specification, on "Alice Roy" and "bob alice". *)
Example search_records_alice :
  names (fst (search_records "alice" two_names_world)) = ["bob alice"; "Alice Roy"]
  /\ names (fst (search_records "ALICE" two_names_world)) = ["bob alice"; "Alice Roy"]
  /\ names (fst (search_records "zzz" two_names_world)) = [].
Proof. vm_compute. repeat split. Qed.

(** C6, as stated, fails: [_] and [%] in the query are wildcards of the
    pattern, so the query "_" returns both persons although neither name
    contains an underscore, and so does "%". *)
Lemma search_records_wildcards :
  names (fst (search_records "_" two_names_world)) = ["bob alice"; "Alice Roy"]
  /\ names (fst (search_records "%" two_names_world)) = ["bob alice"; "Alice Roy"]
  /\ contains_ci "_" "bob alice" = false
  /\ contains_ci "_" "Alice Roy" = false
  /\ contains_ci "%" "bob alice" = false
  /\ contains_ci "%" "Alice Roy" = false.
Proof. vm_compute. repeat split. Qed.

(** ** The constraints are kept *)

Lemma numbered_contacts_person (i : Z) (kind : string) (l : list string) (n : Z) :
  Forall (fun c => ci_person_id c = i) (numbered_contacts i kind l n).
Proof.
  revert n. induction l as [|v l IH]; intro n; cbn; constructor; [reflexivity|apply IH].
Qed.

Lemma numbered_documents_person (i : Z) (l : list string) (n : Z) :
  Forall (fun d => d_person_id d = i) (numbered_documents i l n).
Proof.
  revert n. induction l as [|v l IH]; intro n; cbn; constructor; [reflexivity|apply IH].
Qed.

Lemma contacts_of_person (i : Z) (r : payload) (n : Z) :
  Forall (fun c => ci_person_id c = i) (contacts_of i r n).
Proof.
  unfold contacts_of. cbv zeta.
  repeat (apply Forall_app; split); apply numbered_contacts_person.
Qed.

Lemma NoDup_snoc (l : list Z) (x : Z) : NoDup l -> ~ In x l -> NoDup (l ++ [x]).
Proof.
  induction 1 as [|y l N _ IH]; intro H; cbn.
  - constructor; [intros []|constructor].
  - constructor.
    + intro I. apply in_app_or in I. destruct I as [I|[I|[]]].
      * contradiction.
      * apply H. left. symmetry. exact I.
    + apply IH. intro I. apply H. right. exact I.
Qed.

(** [add_record] keeps the integrity constraints. *)
Lemma wf_added (r : payload) (now : Z) (s : db) : wf s -> wf (added r now s).
Proof.
  intro W. destruct (has_tables_inv _ (wf_has_tables _ W)) as (tp & tc & td & Hp & Hc & Hd).
  unfold wf in W. unfold wf, added. rewrite Hp, Hc, Hd in *.
  destruct W as (N & B & Fc & Fd). cbn [persons contact_info documents rows next_id].
  rewrite map_app. cbn [map p_id row_of].
  split; [apply NoDup_snoc; [exact N|apply below_not_in, B]|].
  split.
  { apply Forall_app. split; [|constructor; [cbn; lia|constructor]].
    eapply Forall_impl; [|exact B]. cbn. intros p H. lia. }
  split.
  - apply Forall_app. split.
    + eapply Forall_impl; [|exact Fc]. cbn. intros c I. apply in_or_app. left. exact I.
    + eapply Forall_impl; [|apply contacts_of_person]. cbn. intros c ->.
      apply in_or_app. right. left. reflexivity.
  - apply Forall_app. split.
    + eapply Forall_impl; [|exact Fd]. cbn. intros d I. apply in_or_app. left. exact I.
    + eapply Forall_impl; [|apply numbered_documents_person]. cbn. intros d ->.
      apply in_or_app. right. left. reflexivity.
Qed.

(** * The rest of [database.py] *)

(** ** The executor, for any number of attempts *)

Lemma count_event_app (p : event -> bool) (l1 l2 : list event) :
  count_event p (l1 ++ l2) = (count_event p l1 + count_event p l2)%nat.
Proof. unfold count_event. rewrite filter_app, length_app. reflexivity. Qed.

(** X1.  Whatever [max_retries], the operation and the faults of the
    connection: [execute_with_retry] makes at most [max_retries] attempts
    (at least one unless [max_retries] is 0), each on the next entry of the
    faults; it hands back to the pool every connection it obtained; it
    sleeps once between consecutive attempts and the clock moves by one
    second per sleep; and it returns [None] without a result exactly when
    [max_retries] is 0. *)
Theorem execute_with_retry_releases_connections
    (A : Type) (operation : Z -> cursor A) (max_retries : nat) (w : world) :
  let run := execute_with_retry operation max_retries w in
  exists calls : list event,
    log (snd run) = (log w ++ calls)%list
    /\ (count_event is_attempt calls <= max_retries)%nat
    /\ (count_event is_attempt calls = 0%nat <-> max_retries = 0%nat)
    /\ count_event is_putconn calls = count_event is_acquired calls
    /\ count_event is_sleep calls = (count_event is_attempt calls - 1)%nat
    /\ clock (snd run) = clock w + Z.of_nat (count_event is_sleep calls) * second
    /\ faults (snd run) = skipn (count_event is_attempt calls) (faults w)
    /\ (fst run = Ok None <-> max_retries = 0%nat).
Proof.
  cbv zeta. unfold execute_with_retry. revert w.
  induction max_retries as [|n IH]; intro w.
  - exists []. cbn. rewrite app_nil_r. repeat split; try reflexivity; lia.
  - rewrite execute_loop_step. cbv zeta.
    destruct (attempt_outcome operation (hd NoFault (faults w)) (clock w) (store w))
      as [r s'|e held].
    + exists calls_of_success. cbn. repeat split; try lia; try discriminate;
        try (destruct (faults w); reflexivity).
    + assert (Final : exists calls : list event,
                 (log w ++ calls_of_final_failure held = log w ++ calls)%list
                 /\ (count_event is_attempt calls <= S n)%nat
                 /\ (count_event is_attempt calls = 0%nat <-> S n = 0%nat)
                 /\ count_event is_putconn calls = count_event is_acquired calls
                 /\ count_event is_sleep calls = (count_event is_attempt calls - 1)%nat
                 /\ clock w = clock w + Z.of_nat (count_event is_sleep calls) * second
                 /\ tl (faults w) = skipn (count_event is_attempt calls) (faults w)
                 /\ (@Raise (option A) e = Ok None <-> S n = 0%nat)).
      { exists (calls_of_final_failure held).
        destruct held; cbn; repeat split; try lia; try discriminate;
          try (destruct (faults w); reflexivity). }
      destruct (is_transient e); [|exact Final].
      destruct n as [|n]; [exact Final|].
      destruct (IH (mk_world (store w) (clock w + second) (tl (faults w))
                             (log w ++ calls_of_retried_failure held)))
        as (calls & L & At & Z0 & P & Sl & C & Fa & N).
      cbn [log clock faults] in L, C, Fa.
      assert (One : (1 <= count_event is_attempt calls)%nat).
      { destruct (count_event is_attempt calls); [|lia].
        destruct Z0 as [Z0 _]. specialize (Z0 eq_refl). discriminate. }
      exists (calls_of_retried_failure held ++ calls)%list.
      rewrite !count_event_app, L, C, Fa, app_assoc.
      split; [reflexivity|].
      assert (T : skipn (count_event is_attempt calls) (tl (faults w))
                  = skipn (S (count_event is_attempt calls)) (faults w))
        by (destruct (faults w); [rewrite !skipn_nil|]; reflexivity).
      destruct held; cbn [calls_of_retried_failure count_event filter is_attempt is_putconn
                          is_acquired is_sleep List.length Nat.add];
        (split; [lia|]); (split; [split; intro; lia|]); (split; [lia|]);
        (split; [lia|]); (split; [unfold second in *; lia|]);
        (split; [exact T|]); (split; [intro X; apply N in X; discriminate|discriminate]).
Qed.

(** ** Failure leaves the database alone *)

(** An exception out of the executor means nothing was committed. *)
Lemma run_raise_store A (operation : Z -> cursor A) (w : world) (e : exn) :
  fst (execute_with_retry operation 3 w) = Raise e ->
  store (snd (execute_with_retry operation 3 w)) = store w.
Proof.
  rewrite execute_with_retry_is_policy. unfold retry_policy.
  repeat match goal with
         | |- context [attempt_outcome ?o ?f ?t ?s] =>
             destruct (attempt_outcome o f t s); [discriminate|]
         | |- context [if negb (is_transient ?e) then _ else _] =>
             destruct (is_transient e); cbn [negb]
         end; reflexivity.
Qed.

(** An operation that raises whatever the clock and the database never
    yields a result. *)
Lemma run_never A (operation : Z -> cursor A) (w : world) :
  (forall now s, exists e, operation now s = Raise e) ->
  exists e, fst (execute_with_retry operation 3 w) = Raise e.
Proof.
  intro H.
  pose proof (run_result A operation w) as R.
  pose proof (run_returns A operation w) as N.
  destruct (fst (execute_with_retry operation 3 w)) as [[r|]|e].
  - destruct (R r eq_refl) as [now X]. destruct (H now (store w)) as [e E]. congruence.
  - contradiction.
  - eauto.
Qed.

(** X2.  A failure reported by a writing method is a rolled-back
    transaction: when [add_record] returns [None], or [update_record],
    [delete_record] or [delete_all_records] return [False], the three tables
    exist or not as before the call and hold the rows they held, whatever
    the payload and the faults of the connection.  (Nothing is said of the
    sequences: an INSERT that was rolled back has taken its id.) *)
Theorem failed_write_changes_nothing (r : payload) (record_id : Z) (w : world) :
  (fst (add_record r w) = None -> rows_of (store (snd (add_record r w))) = rows_of (store w))
  /\ (fst (update_record record_id r w) = Some false ->
      rows_of (store (snd (update_record record_id r w))) = rows_of (store w))
  /\ (fst (delete_record record_id w) = Some false ->
      rows_of (store (snd (delete_record record_id w))) = rows_of (store w))
  /\ (fst (delete_all_records w) = Some false ->
      rows_of (store (snd (delete_all_records w))) = rows_of (store w)).
Proof.
  split; [|split; [|split]].
  - unfold add_record.
    pose proof (run_raise_store Z (fun now => _add_record now r) w) as S.
    pose proof (run_returns Z (fun now => _add_record now r) w) as N.
    destruct (execute_with_retry (fun now => _add_record now r) 3 w) as [[[i|]|e] w'];
      cbn [fst snd] in *; try discriminate; try contradiction.
    intros _. rewrite (S e eq_refl). reflexivity.
  - unfold update_record.
    pose proof (run_raise_store bool (fun _ => _update_record record_id r) w) as S.
    pose proof (run_result bool (fun _ => _update_record record_id r) w) as R.
    destruct (execute_with_retry (fun _ => _update_record record_id r) 3 w)
      as [[[[]|]|e] w']; cbn [fst snd] in *; try discriminate.
    + intros _. destruct (R false eq_refl) as [now X].
      unfold _update_record in X. run_inv X. discriminate.
    + intros _. rewrite (S e eq_refl). reflexivity.
  - unfold delete_record.
    pose proof (run_raise_store bool (fun _ => _delete_record record_id) w) as S.
    pose proof (run_result bool (fun _ => _delete_record record_id) w) as R.
    destruct (execute_with_retry (fun _ => _delete_record record_id) 3 w)
      as [[[[]|]|e] w']; cbn [fst snd] in *; try discriminate.
    + intros _. destruct (R false eq_refl) as [now X].
      unfold _delete_record in X. run_inv X. discriminate.
    + intros _. rewrite (S e eq_refl). reflexivity.
  - unfold delete_all_records.
    pose proof (run_raise_store bool (fun _ => _delete_all_records) w) as S.
    pose proof (run_result bool (fun _ => _delete_all_records) w) as R.
    destruct (execute_with_retry (fun _ => _delete_all_records) 3 w)
      as [[[[]|]|e] w']; cbn [fst snd] in *; try discriminate.
    + intros _. destruct (R false eq_refl) as [now X].
      unfold _delete_all_records in X. run_inv X. discriminate.
    + intros _. rewrite (S e eq_refl). reflexivity.
Qed.

Lemma failed_write_changes_nothing_witness :
  fst (add_record sample_payload broken_world) = None
  /\ rows_of (store (snd (add_record sample_payload broken_world)))
     = rows_of (store broken_world)
  /\ fst (add_record payload_with_long_contact sample_world) = None
  /\ rows_of (store (snd (add_record payload_with_long_contact sample_world)))
     = rows_of (store sample_world)
  /\ fst (update_record 1 sample_payload broken_world) = Some false
  /\ rows_of (store (snd (update_record 1 sample_payload broken_world)))
     = rows_of (store broken_world)
  /\ fst (delete_record 1 broken_world) = Some false
  /\ rows_of (store (snd (delete_record 1 broken_world))) = rows_of (store broken_world)
  /\ fst (delete_all_records broken_world) = Some false
  /\ rows_of (store (snd (delete_all_records broken_world))) = rows_of (store broken_world).
Proof.
  destruct (failed_write_changes_nothing sample_payload 1 broken_world)
    as (H1 & H2 & H3 & H4).
  destruct (failed_write_changes_nothing payload_with_long_contact 1 sample_world)
    as (H5 & _).
  assert (E1 : fst (add_record sample_payload broken_world) = None)
    by (vm_compute; reflexivity).
  assert (E2 : fst (update_record 1 sample_payload broken_world) = Some false)
    by (vm_compute; reflexivity).
  assert (E3 : fst (delete_record 1 broken_world) = Some false)
    by (vm_compute; reflexivity).
  assert (E4 : fst (delete_all_records broken_world) = Some false)
    by (vm_compute; reflexivity).
  assert (E5 : fst (add_record payload_with_long_contact sample_world) = None)
    by (vm_compute; reflexivity).
  split; [exact E1|]. split; [exact (H1 E1)|].
  split; [exact E5|]. split; [exact (H5 E5)|].
  split; [exact E2|]. split; [exact (H2 E2)|].
  split; [exact E3|]. split; [exact (H3 E3)|].
  split; [exact E4|]. exact (H4 E4).
Defined.

(** ** A payload without a mandatory key *)

Lemma _add_record_missing_key (r : payload) (k : string) (now : Z) (s : db) :
  missing_key r = Some k -> _add_record now r s = Raise (KeyError k).
Proof.
  unfold missing_key, _add_record.
  destruct (full_name r); cbn; [intro H; inversion H; reflexivity| |];
    (destruct (father_name r); cbn; [intro H; inversion H; reflexivity| |]);
    (destruct (mother_name r); cbn; [intro H; inversion H; reflexivity| |]);
    (destruct (dob r); cbn; [intro H; inversion H; reflexivity| |]);
    (destruct (gender r); cbn; [intro H; inversion H; reflexivity| |]);
    (destruct (nid r); cbn; [intro H; inversion H; reflexivity| |]);
    (destruct (permanent_address r); cbn; [intro H; inversion H; reflexivity| |]);
    (destruct (present_address r); cbn; [intro H; inversion H; reflexivity| |]);
    discriminate.
Qed.

Lemma _update_record_missing_key (r : payload) (k : string) (record_id : Z) (s : db) :
  missing_key r = Some k -> _update_record record_id r s = Raise (KeyError k).
Proof.
  unfold missing_key, _update_record.
  destruct (full_name r); cbn; [intro H; inversion H; reflexivity| |];
    (destruct (father_name r); cbn; [intro H; inversion H; reflexivity| |]);
    (destruct (mother_name r); cbn; [intro H; inversion H; reflexivity| |]);
    (destruct (dob r); cbn; [intro H; inversion H; reflexivity| |]);
    (destruct (gender r); cbn; [intro H; inversion H; reflexivity| |]);
    (destruct (nid r); cbn; [intro H; inversion H; reflexivity| |]);
    (destruct (permanent_address r); cbn; [intro H; inversion H; reflexivity| |]);
    (destruct (present_address r); cbn; [intro H; inversion H; reflexivity| |]);
    discriminate.
Qed.

(** X3.  A payload that lacks one of the eight keys read with [record[key]]
    is never stored: whatever the database, the clock and the faults of the
    connection, [add_record] returns [None] and [update_record] returns
    [False], and the database is left as it was (the [KeyError] is raised
    before any statement is sent). *)
Theorem missing_key_is_refused (r : payload) (k : string) (record_id : Z) (w : world) :
  missing_key r = Some k ->
  fst (add_record r w) = None
  /\ store (snd (add_record r w)) = store w
  /\ fst (update_record record_id r w) = Some false
  /\ store (snd (update_record record_id r w)) = store w.
Proof.
  intro M.
  assert (A : exists e, fst (execute_with_retry (fun now => _add_record now r) 3 w) = Raise e).
  { apply run_never. intros now s. exists (KeyError k).
    apply _add_record_missing_key, M. }
  assert (U : exists e, fst (execute_with_retry (fun _ => _update_record record_id r) 3 w)
                        = Raise e).
  { apply run_never. intros now s. exists (KeyError k).
    apply _update_record_missing_key, M. }
  destruct A as [e A], U as [e' U].
  pose proof (run_raise_store Z (fun now => _add_record now r) w e A) as SA.
  pose proof (run_raise_store bool (fun _ => _update_record record_id r) w e' U) as SU.
  unfold add_record, update_record.
  destruct (execute_with_retry (fun now => _add_record now r) 3 w) as [ra wa].
  destruct (execute_with_retry (fun _ => _update_record record_id r) 3 w) as [ru wu].
  cbn [fst snd] in *. subst ra ru. cbn [fst snd]. auto.
Qed.

Lemma missing_key_is_refused_witness :
  missing_key payload_without_name = Some "full_name"
  /\ fst (add_record payload_without_name sample_world) = None
  /\ store (snd (add_record payload_without_name sample_world)) = store sample_world
  /\ fst (update_record 1 payload_without_name sample_world) = Some false
  /\ store (snd (update_record 1 payload_without_name sample_world)) = store sample_world.
Proof.
  split; [reflexivity|].
  apply (missing_key_is_refused payload_without_name "full_name" 1 sample_world eq_refl).
Defined.

(** ** The integrity constraints are an invariant *)

Section Keeps.
Context (I : db -> Prop).

Lemma keeps_ret A (a : A) : keeps I (ret a).
Proof. intros s a' s' H E. inversion E; subst. exact H. Qed.

Lemma keeps_lift A (r : result A) : keeps I (lift r).
Proof. intros s a s' H E. apply lift_inv in E. destruct E; subst. exact H. Qed.

Lemma keeps_bind A B (c : cursor A) (k : A -> cursor B) :
  keeps I c -> (forall a, keeps I (k a)) -> keeps I (bind c k).
Proof.
  intros Hc Hk s b s' H E. apply bind_inv in E. destruct E as (a & s1 & E1 & E2).
  exact (Hk a s1 b s' (Hc s a s1 H E1) E2).
Qed.

Lemma keeps_for_each A (l : list A) (body : A -> cursor unit) :
  (forall x, keeps I (body x)) -> keeps I (for_each l body).
Proof.
  intro Hb. induction l as [|x l IH]; cbn [for_each].
  - apply keeps_ret.
  - apply keeps_bind; auto.
Qed.

Lemma keeps_if A (b : bool) (c1 c2 : cursor A) :
  keeps I c1 -> keeps I c2 -> keeps I (if b then c1 else c2).
Proof. destruct b; auto. Qed.
End Keeps.

Lemma wf_inv (s : db) :
  wf s ->
  exists tp tc td,
    persons s = Some tp /\ contact_info s = Some tc /\ documents s = Some td
    /\ NoDup (map p_id (rows tp))
    /\ Forall (fun p => p_id p < next_id tp) (rows tp)
    /\ Forall (fun c => In (ci_person_id c) (map p_id (rows tp))) (rows tc)
    /\ Forall (fun d => In (d_person_id d) (map p_id (rows tp))) (rows td).
Proof.
  unfold wf. destruct (persons s) as [tp|], (contact_info s) as [tc|],
    (documents s) as [td|]; try tauto.
  intros (H1 & H2 & H3 & H4). exists tp, tc, td. auto 10.
Qed.

Lemma wf_intro tp tc td :
  NoDup (map p_id (rows tp)) ->
  Forall (fun p => p_id p < next_id tp) (rows tp) ->
  Forall (fun c => In (ci_person_id c) (map p_id (rows tp))) (rows tc) ->
  Forall (fun d => In (d_person_id d) (map p_id (rows tp))) (rows td) ->
  wf (mk_db (Some tp) (Some tc) (Some td)).
Proof. unfold wf. cbn. auto. Qed.

(** Read the equations a successful run leaves behind. *)
Ltac ok_inv :=
  unfold set_persons, set_contact_info, set_documents, ret in *;
  repeat match goal with
         | H : Ok _ = Ok _ |- _ => inversion H; subst; clear H
         end.

Ltac same_tables :=
  repeat match goal with
         | H1 : persons ?s = Some ?a, H2 : persons ?s = Some ?b |- _ =>
             rewrite H1 in H2; inversion H2; subst; clear H2
         | H1 : contact_info ?s = Some ?a, H2 : contact_info ?s = Some ?b |- _ =>
             rewrite H1 in H2; inversion H2; subst; clear H2
         | H1 : documents ?s = Some ?a, H2 : documents ?s = Some ?b |- _ =>
             rewrite H1 in H2; inversion H2; subst; clear H2
         end.

Lemma insert_persons_wf v1 v2 v3 v4 v5 v6 v7 v8 v9 v10 v11 now :
  keeps wf (insert_persons v1 v2 v3 v4 v5 v6 v7 v8 v9 v10 v11 now).
Proof.
  intros s a s' W E.
  destruct (wf_inv s W) as (tp & tc & td & Hp & Hc & Hd & N & B & Fc & Fd).
  unfold insert_persons in E. run_inv E. ok_inv. same_tables.
  rewrite Hc, Hd. apply wf_intro; cbn [rows next_id].
  - rewrite map_app. cbn. apply NoDup_snoc; [exact N|apply below_not_in, B].
  - apply Forall_app. split; [|constructor; [cbn; lia|constructor]].
    eapply Forall_impl; [|exact B]. cbn. intros p Lt. lia.
  - eapply Forall_impl; [|exact Fc]. cbn. intros c In1. rewrite map_app.
    apply in_or_app. left. exact In1.
  - eapply Forall_impl; [|exact Fd]. cbn. intros d In1. rewrite map_app.
    apply in_or_app. left. exact In1.
Qed.

Lemma references_persons_inv (i : Z) (s : db) (tp : table person_row) (u : unit) (s' : db) :
  persons s = Some tp ->
  references_persons i s = Ok (u, s') ->
  s' = s /\ In i (map p_id (rows tp)).
Proof.
  intros Hp. unfold references_persons. rewrite Hp.
  destruct (existsb (fun p => p_id p =? i) (rows tp)) eqn:E; [|discriminate].
  intro H. inversion H; subst. split; [reflexivity|].
  apply existsb_exists in E. destruct E as (p & P & Q).
  apply Z.eqb_eq in Q. subst i. apply in_map, P.
Qed.

Lemma insert_contact_info_wf i k v : keeps wf (insert_contact_info i k v).
Proof.
  intros s a s' W E.
  destruct (wf_inv s W) as (tp & tc & td & Hp & Hc & Hd & N & B & Fc & Fd).
  unfold insert_contact_info in E. run_inv E.
  match goal with H : references_persons _ _ = Ok _ |- _ =>
    apply (references_persons_inv _ _ tp _ _ Hp) in H; destruct H as [-> Hi]
  end.
  ok_inv. same_tables.
  rewrite Hp, Hd. apply wf_intro; cbn [rows next_id]; try assumption.
  apply Forall_app. split; [exact Fc|]. constructor; [exact Hi|constructor].
Qed.

Lemma insert_documents_wf i u k : keeps wf (insert_documents i u k).
Proof.
  intros s a s' W E.
  destruct (wf_inv s W) as (tp & tc & td & Hp & Hc & Hd & N & B & Fc & Fd).
  unfold insert_documents in E. run_inv E.
  match goal with H : references_persons _ _ = Ok _ |- _ =>
    apply (references_persons_inv _ _ tp _ _ Hp) in H; destruct H as [-> Hi]
  end.
  ok_inv. same_tables.
  rewrite Hp, Hc. apply wf_intro; cbn [rows next_id]; try assumption.
  apply Forall_app. split; [exact Fd|]. constructor; [exact Hi|constructor].
Qed.

Lemma update_persons_wf v1 v2 v3 v4 v5 v6 v7 v8 v9 v10 v11 i :
  keeps wf (update_persons v1 v2 v3 v4 v5 v6 v7 v8 v9 v10 v11 i).
Proof.
  intros s a s' W E.
  destruct (wf_inv s W) as (tp & tc & td & Hp & Hc & Hd & N & B & Fc & Fd).
  unfold update_persons in E. run_inv E. same_tables.
  match type of E with context [existsb ?p ?l] => destruct (existsb p l) end.
  2:{ ok_inv. exact W. }
  run_inv E. ok_inv. rewrite Hc, Hd.
  match goal with
  | |- wf (mk_db (Some (mk_table (map ?g _) _)) _ _) =>
      assert (G : forall p, p_id (g p) = p_id p)
        by (intro p; cbn; destruct (p_id p =? i); reflexivity);
      assert (M : map p_id (map g (rows tp)) = map p_id (rows tp))
        by (rewrite map_map; apply map_ext; exact G)
  end.
  apply wf_intro; cbn [rows next_id]; rewrite ?M; try assumption.
  apply Forall_map. eapply Forall_impl; [|exact B]. intros p Lt.
  cbn beta. rewrite G. exact Lt.
Qed.

Lemma Forall_filter A (P : A -> Prop) (f : A -> bool) (l : list A) :
  Forall P l -> Forall P (filter f l).
Proof.
  intro H. apply Forall_forall. intros x X. apply filter_In in X.
  rewrite Forall_forall in H. apply H, X.
Qed.

Lemma delete_contact_info_of_wf i : keeps wf (delete_contact_info_of i).
Proof.
  intros s a s' W E.
  destruct (wf_inv s W) as (tp & tc & td & Hp & Hc & Hd & N & B & Fc & Fd).
  unfold delete_contact_info_of in E. run_inv E. ok_inv. same_tables.
  rewrite Hp, Hd. apply wf_intro; cbn [rows next_id]; try assumption.
  apply Forall_filter, Fc.
Qed.

Lemma delete_documents_of_wf i : keeps wf (delete_documents_of i).
Proof.
  intros s a s' W E.
  destruct (wf_inv s W) as (tp & tc & td & Hp & Hc & Hd & N & B & Fc & Fd).
  unfold delete_documents_of in E. run_inv E. ok_inv. same_tables.
  rewrite Hp, Hc. apply wf_intro; cbn [rows next_id]; try assumption.
  apply Forall_filter, Fd.
Qed.

Lemma delete_all_contact_info_wf : keeps wf delete_all_contact_info.
Proof.
  intros s a s' W E.
  destruct (wf_inv s W) as (tp & tc & td & Hp & Hc & Hd & N & B & Fc & Fd).
  unfold delete_all_contact_info in E. run_inv E. ok_inv. same_tables.
  rewrite Hp, Hd. apply wf_intro; cbn [rows next_id]; try assumption. constructor.
Qed.

Lemma delete_all_documents_wf : keeps wf delete_all_documents.
Proof.
  intros s a s' W E.
  destruct (wf_inv s W) as (tp & tc & td & Hp & Hc & Hd & N & B & Fc & Fd).
  unfold delete_all_documents in E. run_inv E. ok_inv. same_tables.
  rewrite Hp, Hc. apply wf_intro; cbn [rows next_id]; try assumption. constructor.
Qed.

Lemma NoDup_map_filter (f : person_row -> bool) (l : list person_row) :
  NoDup (map p_id l) -> NoDup (map p_id (filter f l)).
Proof.
  induction l as [|p l IH]; cbn; [intro; constructor|].
  intro N. inversion N as [|x xs N1 N2]; subst.
  destruct (f p); cbn; [constructor|]; auto.
  intro X. apply N1. apply in_map_iff in X. destruct X as (q & Q & X).
  apply filter_In in X. rewrite <- Q. apply in_map, X.
Qed.

(** What [ON DELETE CASCADE] leaves points to what is left. *)
Lemma cascade_kept (deleted : Z -> bool) (keep : person_row -> bool)
      (ps : list person_row) (i : Z) :
  (forall p, In p ps -> keep p = false -> deleted (p_id p) = true) ->
  In i (map p_id ps) ->
  negb (deleted i) = true ->
  In i (map p_id (filter keep ps)).
Proof.
  intros D X K. apply in_map_iff in X. destruct X as (p & <- & X).
  apply in_map. apply filter_In. split; [exact X|].
  destruct (keep p) eqn:E; [reflexivity|].
  rewrite (D p X E) in K. discriminate.
Qed.

Lemma delete_persons_where_id_wf i : keeps wf (delete_persons_where_id i).
Proof.
  intros s a s' W E.
  destruct (wf_inv s W) as (tp & tc & td & Hp & Hc & Hd & N & B & Fc & Fd).
  unfold delete_persons_where_id in E. run_inv E. same_tables.
  unfold cascade in E. ok_inv. cbn [persons contact_info documents option_map].
  rewrite Hc, Hd. cbn [option_map].
  assert (D : forall p, In p (rows tp) -> negb (p_id p =? i) = false ->
                existsb (fun q => (p_id q =? i) && (p_id q =? p_id p)) (rows tp) = true).
  { intros p X K. apply existsb_exists. exists p. split; [exact X|].
    apply negb_false_iff in K. rewrite K, Z.eqb_refl. reflexivity. }
  apply wf_intro; cbn [rows next_id].
  - apply NoDup_map_filter, N.
  - apply Forall_filter, B.
  - apply Forall_forall. intros c X. apply filter_In in X. destruct X as [X K].
    rewrite Forall_forall in Fc.
    exact (cascade_kept
             (fun j => existsb (fun q => (p_id q =? i) && (p_id q =? j)) (rows tp))
             (fun p => negb (p_id p =? i)) (rows tp) _ D (Fc c X) K).
  - apply Forall_forall. intros d X. apply filter_In in X. destruct X as [X K].
    rewrite Forall_forall in Fd.
    exact (cascade_kept
             (fun j => existsb (fun q => (p_id q =? i) && (p_id q =? j)) (rows tp))
             (fun p => negb (p_id p =? i)) (rows tp) _ D (Fd d X) K).
Qed.

Lemma delete_all_persons_wf : keeps wf delete_all_persons.
Proof.
  intros s a s' W E.
  destruct (wf_inv s W) as (tp & tc & td & Hp & Hc & Hd & N & B & Fc & Fd).
  unfold delete_all_persons in E. run_inv E. same_tables.
  unfold cascade in E. ok_inv. cbn [persons contact_info documents option_map].
  rewrite Hc, Hd. cbn [option_map].
  assert (D : forall j, In j (map p_id (rows tp)) ->
                negb (existsb (fun p => p_id p =? j) (rows tp)) = true -> False).
  { intros j X K. apply negb_true_iff in K. apply existsb_false_not_in in K. auto. }
  apply wf_intro; cbn [rows next_id map]; try constructor.
  - apply Forall_forall. intros c X. apply filter_In in X. destruct X as [X K].
    rewrite Forall_forall in Fc. destruct (D _ (Fc c X) K).
  - apply Forall_forall. intros d X. apply filter_In in X. destruct X as [X K].
    rewrite Forall_forall in Fd. destruct (D _ (Fd d X) K).
Qed.

Lemma keeps_the_persons (I : db -> Prop) : keeps I the_persons.
Proof. intros s a s' H E. apply the_persons_inv in E. destruct E; subst; exact H. Qed.

Ltac keeping :=
  repeat first
    [ apply insert_persons_wf | apply insert_contact_info_wf | apply insert_documents_wf
    | apply update_persons_wf | apply delete_contact_info_of_wf
    | apply delete_documents_of_wf | apply delete_all_contact_info_wf
    | apply delete_all_documents_wf | apply delete_persons_where_id_wf
    | apply delete_all_persons_wf
    | apply keeps_ret | apply keeps_lift
    | apply keeps_bind; [|intro]
    | apply keeps_for_each; intro
    | apply keeps_if ].

Lemma _add_record_wf now r : keeps wf (_add_record now r).
Proof. unfold _add_record, insert_contacts. keeping. Qed.

Lemma _update_record_wf i r : keeps wf (_update_record i r).
Proof. unfold _update_record, insert_contacts. keeping. Qed.

Lemma _delete_record_wf i : keeps wf (_delete_record i).
Proof. unfold _delete_record. keeping. Qed.

Lemma _delete_all_records_wf : keeps wf _delete_all_records.
Proof. unfold _delete_all_records. keeping. Qed.

Lemma run_keeps A (operation : Z -> cursor A) (I : db -> Prop) (w : world) :
  (forall now, keeps I (operation now)) ->
  I (store w) -> I (store (snd (execute_with_retry operation 3 w))).
Proof.
  intros K H. destruct (run_store A operation w) as [E|(now & r & E)].
  - rewrite E. exact H.
  - exact (K now _ _ _ H E).
Qed.

(** X4.  The integrity constraints of the schema (the three tables exist,
    [persons.id] is unique and below its sequence, every contact and
    document row points to a stored person) are kept by every writing
    method, whatever the payload, the id and the faults of the connection,
    whether the call succeeds or fails; [create_tables] establishes them on
    success. *)
Theorem writes_keep_constraints (r : payload) (record_id : Z) (w : world) :
  wf (store w) ->
  wf (store (snd (add_record r w)))
  /\ wf (store (snd (update_record record_id r w)))
  /\ wf (store (snd (delete_record record_id w)))
  /\ wf (store (snd (delete_all_records w)))
  /\ wf (store (snd (create_tables w))).
Proof.
  intro W.
  pose proof (run_keeps Z (fun now => _add_record now r) wf w
                (fun now => _add_record_wf now r) W) as H1.
  pose proof (run_keeps bool (fun _ => _update_record record_id r) wf w
                (fun _ => _update_record_wf record_id r) W) as H2.
  pose proof (run_keeps bool (fun _ => _delete_record record_id) wf w
                (fun _ => _delete_record_wf record_id) W) as H3.
  pose proof (run_keeps bool (fun _ => _delete_all_records) wf w
                (fun _ => _delete_all_records_wf) W) as H4.
  assert (H5 : wf (store (snd (execute_with_retry (fun _ => _create_tables) 3 w)))).
  { destruct (run_store unit (fun _ => _create_tables) w) as [E|(now & u & E)].
    - rewrite E. exact W.
    - rewrite _create_tables_fresh in E.
      assert (S : fresh_db = store (snd (execute_with_retry (fun _ => _create_tables) 3 w)))
        by congruence.
      rewrite <- S. apply wf_fresh_db. }
  unfold add_record, update_record, delete_record, delete_all_records, create_tables.
  destruct (execute_with_retry (fun now => _add_record now r) 3 w) as [[?|?] ?];
  destruct (execute_with_retry (fun _ => _update_record record_id r) 3 w) as [[?|?] ?];
  destruct (execute_with_retry (fun _ => _delete_record record_id) 3 w) as [[?|?] ?];
  destruct (execute_with_retry (fun _ => _delete_all_records) 3 w) as [[?|?] ?];
  destruct (execute_with_retry (fun _ => _create_tables) 3 w) as [[?|?] ?];
  cbn [fst snd] in *; auto.
Qed.

Lemma writes_keep_constraints_witness :
  wf (store sample_world)
  /\ wf (store (snd (add_record sample_payload sample_world)))
  /\ wf (store (snd (update_record 1 sample_payload sample_world)))
  /\ wf (store (snd (delete_record 1 sample_world)))
  /\ wf (store (snd (delete_all_records sample_world)))
  /\ wf (store (snd (create_tables sample_world))).
Proof.
  split; [exact wf_sample_world|].
  apply (writes_keep_constraints sample_payload 1 sample_world wf_sample_world).
Defined.

(** ** The read methods *)

Ltac reading :=
  repeat first
    [ apply preserves_the_persons | apply preserves_the_contact_info
    | apply preserves_the_documents | apply preserves_ret | apply preserves_lift
    | apply preserves_bind; [|intro] ].

Lemma select_aggregated_reads cond ordered :
  preserves (fun s => s) (select_aggregated cond ordered).
Proof. unfold select_aggregated. reading. Qed.

Lemma _get_record_reads i : preserves (fun s => s) (_get_record i).
Proof.
  unfold _get_record. apply preserves_bind; [apply select_aggregated_reads|].
  intros [|record records]; reading.
Qed.

Lemma _get_all_records_reads : preserves (fun s => s) _get_all_records.
Proof.
  unfold _get_all_records. apply preserves_bind; [apply select_aggregated_reads|].
  intros [|record records]; reading.
Qed.

Lemma _search_records_reads q : preserves (fun s => s) (_search_records q).
Proof.
  unfold _search_records. destruct (like_pattern _); [|reading].
  apply preserves_bind; [apply select_aggregated_reads|].
  intros [|record records]; reading.
Qed.

Lemma run_reads A (operation : Z -> cursor A) (w : world) :
  (forall now, preserves (fun s => s) (operation now)) ->
  store (snd (execute_with_retry operation 3 w)) = store w.
Proof.
  intro P. destruct (run_store A operation w) as [E|(now & r & E)]; [exact E|].
  exact (P now _ _ _ E).
Qed.

(** X5.  The three read methods never change the database: whatever the
    id, the query and the faults of the connection, the committed database
    after [get_record], [get_all_records] or [search_records] is the one
    before, also when the call fails. *)
Theorem reads_change_nothing (record_id : Z) (query : string) (w : world) :
  store (snd (get_record record_id w)) = store w
  /\ store (snd (get_all_records w)) = store w
  /\ store (snd (search_records query w)) = store w.
Proof.
  pose proof (run_reads _ (fun _ => _get_record record_id) w
                (fun _ => _get_record_reads record_id)) as H1.
  pose proof (run_reads _ (fun _ => _get_all_records) w
                (fun _ => _get_all_records_reads)) as H2.
  pose proof (run_reads _ (fun _ => _search_records query) w
                (fun _ => _search_records_reads query)) as H3.
  unfold get_record, get_all_records, search_records.
  destruct (execute_with_retry (fun _ => _get_record record_id) 3 w) as [[[?|]|?] ?];
  destruct (execute_with_retry (fun _ => _get_all_records) 3 w) as [[?|?] ?];
  destruct (execute_with_retry (fun _ => _search_records query) 3 w) as [[?|?] ?];
  cbn [fst snd] in *; auto.
Qed.

(** ** [get_record] of an id *)

Lemma filter_id_absent (i : Z) (l : list person_row) :
  existsb (fun p => p_id p =? i) l = false -> filter (fun q => p_id q =? i) l = [].
Proof.
  induction l as [|p l IH]; [reflexivity|].
  cbn. intro H. apply orb_false_iff in H. destruct H as [H1 H2].
  rewrite H1. apply IH, H2.
Qed.

Lemma filter_id_present (i : Z) (l : list person_row) :
  existsb (fun p => p_id p =? i) l = true ->
  exists p rest, filter (fun q => p_id q =? i) l = p :: rest /\ In p l /\ p_id p = i.
Proof.
  intro H. apply existsb_exists in H. destruct H as (q & Q & E).
  destruct (filter (fun q => p_id q =? i) l) as [|p rest] eqn:F.
  - assert (X : In q (filter (fun q => p_id q =? i) l)) by (apply filter_In; auto).
    rewrite F in X. destruct X.
  - exists p, rest. split; [reflexivity|].
    assert (X : In p (filter (fun q => p_id q =? i) l)) by (rewrite F; left; reflexivity).
    apply filter_In in X. destruct X as [X Y]. apply Z.eqb_eq in Y. auto.
Qed.

(** What [_get_record] does, by cases on the first row of the id. *)
Lemma _get_record_cases (record_id : Z) (s : db) tp tc td :
  persons s = Some tp ->
  contact_info s = Some tc ->
  documents s = Some td ->
  _get_record record_id s
  = match filter (fun q => p_id q =? record_id) (rows tp) with
    | [] => Ok (None, s)
    | p :: _ =>
        match kind_values (rows tc) (p_id p) "mobile",
              kind_values (rows tc) (p_id p) "whatsapp",
              kind_values (rows tc) (p_id p) "facebook",
              kind_values (rows tc) (p_id p) "website" with
        | _ :: _, _ :: _, _ :: _, _ :: _ =>
            Ok (Some (to_dict_or_empty (aggregate (rows tc) (rows td) p)), s)
        | _, _, _, _ => Raise TypeError
        end
    end.
Proof.
  intros Hp Hc Hd.
  destruct (filter (fun q => p_id q =? record_id) (rows tp)) as [|p rest] eqn:F.
  - unfold _get_record, select_aggregated, bind, the_persons, the_contact_info,
      the_documents, ret.
    rewrite Hp, Hc, Hd, F. reflexivity.
  - destruct (kind_values (rows tc) (p_id p) "mobile") as [|m1 m] eqn:K1.
    { unfold _get_record, select_aggregated, bind, the_persons, the_contact_info,
        the_documents, ret.
      rewrite Hp, Hc, Hd, F. cbn [map aggregate a_mobile_numbers].
      rewrite (proj2 (contact_agg_null "mobile" p (rows tc) (rows td)) K1).
      reflexivity. }
    destruct (kind_values (rows tc) (p_id p) "whatsapp") as [|w1 w] eqn:K2.
    { unfold _get_record, select_aggregated, bind, the_persons, the_contact_info,
        the_documents, ret.
      rewrite Hp, Hc, Hd, F.
      cbn [map aggregate a_mobile_numbers a_whatsapp_numbers].
      rewrite (iter_contact_agg "mobile" p (rows tc) (rows td))
        by (rewrite K1; discriminate).
      rewrite (proj2 (contact_agg_null "whatsapp" p (rows tc) (rows td)) K2).
      reflexivity. }
    destruct (kind_values (rows tc) (p_id p) "facebook") as [|f1 f] eqn:K3.
    { unfold _get_record, select_aggregated, bind, the_persons, the_contact_info,
        the_documents, ret.
      rewrite Hp, Hc, Hd, F.
      cbn [map aggregate a_mobile_numbers a_whatsapp_numbers a_facebook_links].
      rewrite (iter_contact_agg "mobile" p (rows tc) (rows td))
        by (rewrite K1; discriminate).
      rewrite (iter_contact_agg "whatsapp" p (rows tc) (rows td))
        by (rewrite K2; discriminate).
      rewrite (proj2 (contact_agg_null "facebook" p (rows tc) (rows td)) K3).
      reflexivity. }
    destruct (kind_values (rows tc) (p_id p) "website") as [|s1 s0] eqn:K4.
    { unfold _get_record, select_aggregated, bind, the_persons, the_contact_info,
        the_documents, ret.
      rewrite Hp, Hc, Hd, F.
      cbn [map aggregate a_mobile_numbers a_whatsapp_numbers a_facebook_links
           a_website_links].
      rewrite (iter_contact_agg "mobile" p (rows tc) (rows td))
        by (rewrite K1; discriminate).
      rewrite (iter_contact_agg "whatsapp" p (rows tc) (rows td))
        by (rewrite K2; discriminate).
      rewrite (iter_contact_agg "facebook" p (rows tc) (rows td))
        by (rewrite K3; discriminate).
      rewrite (proj2 (contact_agg_null "website" p (rows tc) (rows td)) K4).
      reflexivity. }
    apply (_get_record_found record_id s tp tc td p rest Hp Hc Hd F).
    + rewrite K1; discriminate.
    + rewrite K2; discriminate.
    + rewrite K3; discriminate.
    + rewrite K4; discriminate.
Qed.

(** [get_record] on a healthy connection, by cases. *)
Lemma get_record_value (record_id : Z) (w : world) :
  has_tables (store w) ->
  no_fault w ->
  fst (get_record record_id w)
  = match filter (fun q => p_id q =? record_id) (person_rows (store w)) with
    | [] => Ok None
    | p :: _ =>
        if lacks_contact_kind (store w) (p_id p) then Raise TypeError
        else Ok (Some (dict_of (store w) p))
    end.
Proof.
  intros T F. destruct (has_tables_inv _ T) as (tp & tc & td & Hp & Hc & Hd).
  pose proof (_get_record_cases record_id (store w) tp tc td Hp Hc Hd) as C.
  unfold person_rows, lacks_contact_kind, contact_values, dict_of, contact_rows,
    document_rows.
  rewrite Hp, Hc, Hd. unfold get_record.
  destruct (filter (fun q => p_id q =? record_id) (rows tp)) as [|p rest].
  - rewrite (run_ok _ (fun _ => _get_record record_id) w _ _ F C). reflexivity.
  - destruct (kind_values (rows tc) (p_id p) "mobile"),
      (kind_values (rows tc) (p_id p) "whatsapp"),
      (kind_values (rows tc) (p_id p) "facebook"),
      (kind_values (rows tc) (p_id p) "website");
      first
        [ rewrite (run_raise _ (fun _ => _get_record record_id) w _ F C eq_refl);
          reflexivity
        | rewrite (run_ok _ (fun _ => _get_record record_id) w _ _ F C); reflexivity ].
Qed.

(** X6.  On a database with its three tables and a healthy connection,
    [get_record] of an id no person has returns [None]: nothing is
    raised. *)
Theorem get_record_of_unknown_id (record_id : Z) (w : world) :
  has_tables (store w) ->
  no_fault w ->
  person_exists (store w) record_id = false ->
  fst (get_record record_id w) = Ok None.
Proof.
  intros T F E. rewrite (get_record_value record_id w T F).
  unfold person_exists in E. rewrite (filter_id_absent _ _ E). reflexivity.
Qed.

Lemma get_record_of_unknown_id_witness :
  has_tables (store sample_world)
  /\ no_fault sample_world
  /\ person_exists (store sample_world) 7 = false
  /\ fst (get_record 7 sample_world) = Ok None.
Proof.
  assert (T : has_tables (store sample_world)) by (repeat split; discriminate).
  split; [exact T|]. split; [reflexivity|]. split; [reflexivity|].
  apply (get_record_of_unknown_id 7 sample_world T eq_refl eq_refl).
Defined.

(** X7.  On a database with its three tables and a healthy connection,
    [get_record] of the id of a stored person raises [TypeError] exactly when
    the person has no stored value of one of the four contact kinds
    ([filter(None, None)]); a person without documents is no such case
    ([record['pdf_urls'] or []]). *)
Theorem get_record_raises_without_contacts (record_id : Z) (w : world) :
  has_tables (store w) ->
  no_fault w ->
  person_exists (store w) record_id = true ->
  (fst (get_record record_id w) = Raise TypeError
   <-> lacks_contact_kind (store w) record_id = true)
  /\ (lacks_contact_kind (store w) record_id = false ->
      exists d, fst (get_record record_id w) = Ok (Some d)
                /\ p_id (out_person d) = record_id
                /\ children_of (store w) d).
Proof.
  intros T F E. rewrite (get_record_value record_id w T F).
  unfold person_exists in E.
  destruct (filter_id_present _ _ E) as (p & rest & Fl & I & P).
  rewrite Fl, P.
  destruct (lacks_contact_kind (store w) record_id).
  - split; [tauto|discriminate].
  - split; [split; discriminate|]. intros _.
    exists (dict_of (store w) p). split; [reflexivity|]. split; [exact P|].
    apply children_of_dict_of, T.
Qed.

Lemma get_record_raises_without_contacts_witness :
  has_tables (store bare_world)
  /\ no_fault bare_world
  /\ person_exists (store bare_world) 1 = true
  /\ lacks_contact_kind (store bare_world) 1 = true
  /\ fst (get_record 1 bare_world) = Raise TypeError.
Proof.
  assert (T : has_tables (store bare_world)) by (repeat split; discriminate).
  split; [exact T|]. split; [reflexivity|]. split; [reflexivity|].
  split; [reflexivity|].
  apply (get_record_raises_without_contacts 1 bare_world T eq_refl eq_refl).
  reflexivity.
Defined.

(** X8.  On a database with its three tables and a healthy connection, a
    dictionary returned by [get_record] has the id asked for and is one of
    the dictionaries [get_all_records] returns. *)
Theorem get_record_in_get_all_records (record_id : Z) (d : person_dict) (w : world) :
  has_tables (store w) ->
  no_fault w ->
  fst (get_record record_id w) = Ok (Some d) ->
  p_id (out_person d) = record_id /\ In d (fst (get_all_records w)).
Proof.
  intros T F G. rewrite (get_record_value record_id w T F) in G.
  destruct (filter (fun q => p_id q =? record_id) (person_rows (store w)))
    as [|p rest] eqn:Fl; [discriminate|].
  assert (X : In p (filter (fun q => p_id q =? record_id) (person_rows (store w))))
    by (rewrite Fl; left; reflexivity).
  apply filter_In in X. destruct X as [X P]. apply Z.eqb_eq in P.
  destruct (lacks_contact_kind (store w) (p_id p)); [discriminate|].
  inversion G; subst d. split; [exact P|].
  rewrite (get_all_records_ok w T F). apply in_map.
  apply (Permutation_in _ (Permutation_sym (order_by_perm _))). exact X.
Qed.

Lemma get_record_in_get_all_records_witness :
  has_tables (store sample_world)
  /\ no_fault sample_world
  /\ exists d, fst (get_record 1 sample_world) = Ok (Some d)
               /\ p_id (out_person d) = 1
               /\ In d (fst (get_all_records sample_world)).
Proof.
  assert (T : has_tables (store sample_world)) by (repeat split; discriminate).
  split; [exact T|]. split; [reflexivity|].
  pose (d := match fst (get_record 1 sample_world) with
             | Ok (Some d) => d
             | _ => mk_dict (sample_person 0 "" 0) [] [] [] [] []
             end).
  assert (G : fst (get_record 1 sample_world) = Ok (Some d)) by (vm_compute; reflexivity).
  exists d. split; [exact G|].
  apply (get_record_in_get_all_records 1 d sample_world T eq_refl G).
Defined.

(** ** [delete_record] and [delete_all_records] *)

Lemma cascade_noop_contacts (i : Z) (ps : list person_row) (l : list contact_row) :
  Forall (fun c => ci_person_id c <> i) l ->
  filter (fun c => negb (existsb (fun p => (p_id p =? i) && (p_id p =? ci_person_id c)) ps)) l
  = l.
Proof.
  induction 1 as [|c l N _ IH]; [reflexivity|].
  cbn [filter]. rewrite IH.
  destruct (existsb (fun p => (p_id p =? i) && (p_id p =? ci_person_id c)) ps) eqn:E;
    [|reflexivity].
  apply existsb_exists in E. destruct E as (p & _ & E).
  apply andb_true_iff in E. destruct E as [E1 E2].
  apply Z.eqb_eq in E1, E2. congruence.
Qed.

Lemma cascade_noop_documents (i : Z) (ps : list person_row) (l : list document_row) :
  Forall (fun d => d_person_id d <> i) l ->
  filter (fun d => negb (existsb (fun p => (p_id p =? i) && (p_id p =? d_person_id d)) ps)) l
  = l.
Proof.
  induction 1 as [|d l N _ IH]; [reflexivity|].
  cbn [filter]. rewrite IH.
  destruct (existsb (fun p => (p_id p =? i) && (p_id p =? d_person_id d)) ps) eqn:E;
    [|reflexivity].
  apply existsb_exists in E. destruct E as (p & _ & E).
  apply andb_true_iff in E. destruct E as [E1 E2].
  apply Z.eqb_eq in E1, E2. congruence.
Qed.

Lemma _delete_record_ok (record_id : Z) (s : db) :
  has_tables s -> _delete_record record_id s = Ok (true, deleted record_id s).
Proof.
  intro T. destruct (has_tables_inv _ T) as (tp & tc & td & Hp & Hc & Hd).
  unfold _delete_record, deleted, delete_contact_info_of, delete_documents_of,
    delete_persons_where_id, cascade, bind, the_persons, the_contact_info,
    the_documents, set_persons, set_contact_info, set_documents, ret.
  rewrite Hp, Hc, Hd. cbn [persons contact_info documents option_map rows next_id].
  rewrite Hp. cbn [persons contact_info documents option_map rows next_id].
  rewrite (cascade_noop_contacts record_id (rows tp) _
             (Forall_filter_contacts record_id (rows tc))),
    (cascade_noop_documents record_id (rows tp) _
       (Forall_filter_documents record_id (rows td))).
  reflexivity.
Qed.

Lemma existsb_filter_out (i : Z) (l : list person_row) :
  existsb (fun p => p_id p =? i) (filter (fun p => negb (p_id p =? i)) l) = false.
Proof.
  induction l as [|p l IH]; [reflexivity|].
  cbn [filter]. destruct (p_id p =? i) eqn:E; cbn [negb existsb]; [exact IH|].
  rewrite E, IH. reflexivity.
Qed.

(** X9.  On a database with its three tables and a healthy connection,
    [delete_record] returns [True] (also for an id no person has) and
    removes exactly the person of that id with its contact and document
    rows: every other person, contact and document row stays, in its place;
    [get_record] of the id then returns [None]. *)
Theorem delete_record_removes_one_person (record_id : Z) (w w' : world) :
  has_tables (store w) ->
  no_fault w ->
  store w' = store (snd (delete_record record_id w)) ->
  no_fault w' ->
  fst (delete_record record_id w) = Some true
  /\ person_rows (store w')
     = filter (fun p => negb (p_id p =? record_id)) (person_rows (store w))
  /\ contact_rows (store w')
     = filter (fun c => negb (ci_person_id c =? record_id)) (contact_rows (store w))
  /\ document_rows (store w')
     = filter (fun d => negb (d_person_id d =? record_id)) (document_rows (store w))
  /\ fst (get_record record_id w') = Ok None.
Proof.
  intros T F S F'. unfold delete_record in *.
  rewrite (run_ok _ (fun _ => _delete_record record_id) w _ _ F
             (_delete_record_ok record_id (store w) T)) in *.
  cbn [fst snd store] in S |- *. split; [reflexivity|].
  destruct (has_tables_inv _ T) as (tp & tc & td & Hp & Hc & Hd).
  assert (D : store w'
              = mk_db (Some (mk_table (filter (fun p => negb (p_id p =? record_id)) (rows tp))
                                      (next_id tp)))
                      (Some (mk_table (filter (fun c => negb (ci_person_id c =? record_id))
                                              (rows tc)) (next_id tc)))
                      (Some (mk_table (filter (fun d => negb (d_person_id d =? record_id))
                                              (rows td)) (next_id td))))
    by (rewrite S; unfold deleted; rewrite Hp, Hc, Hd; reflexivity).
  unfold person_rows, contact_rows, document_rows. rewrite D, Hp, Hc, Hd.
  cbn [persons contact_info documents rows].
  do 3 (split; [reflexivity|]).
  assert (T' : has_tables (store w')) by (rewrite D; repeat split; discriminate).
  rewrite (get_record_value record_id w' T' F').
  unfold person_rows. rewrite D. cbn [persons rows].
  rewrite (filter_id_absent _ _ (existsb_filter_out record_id (rows tp))). reflexivity.
Qed.

Lemma delete_record_removes_one_person_witness :
  has_tables (store two_names_world)
  /\ no_fault two_names_world
  /\ fst (delete_record 1 two_names_world) = Some true
  /\ person_rows (store (snd (delete_record 1 two_names_world)))
     = filter (fun p => negb (p_id p =? 1)) (person_rows (store two_names_world))
  /\ contact_rows (store (snd (delete_record 1 two_names_world)))
     = filter (fun c => negb (ci_person_id c =? 1)) (contact_rows (store two_names_world))
  /\ document_rows (store (snd (delete_record 1 two_names_world)))
     = filter (fun d => negb (d_person_id d =? 1)) (document_rows (store two_names_world))
  /\ fst (get_record 1 (snd (delete_record 1 two_names_world))) = Ok None.
Proof.
  assert (T : has_tables (store two_names_world)) by (repeat split; discriminate).
  split; [exact T|]. split; [reflexivity|].
  apply (delete_record_removes_one_person 1 two_names_world
           (snd (delete_record 1 two_names_world)) T eq_refl eq_refl eq_refl).
Defined.

Lemma _delete_all_records_ok (s : db) :
  has_tables s -> _delete_all_records s = Ok (true, emptied s).
Proof.
  intro T. destruct (has_tables_inv _ T) as (tp & tc & td & Hp & Hc & Hd).
  unfold _delete_all_records, emptied, delete_all_contact_info, delete_all_documents,
    delete_all_persons, cascade, bind, the_persons, the_contact_info,
    the_documents, set_persons, set_contact_info, set_documents, ret.
  rewrite Hp, Hc, Hd. cbn [persons contact_info documents option_map rows next_id].
  rewrite Hp. reflexivity.
Qed.

(** X10.  On a database with its three tables and a healthy connection,
    [delete_all_records] returns [True] and empties the three tables,
    whatever they held; [get_all_records] then returns the empty list.  The
    sequences are not reset: the next [add_record] of a valid payload gets
    the id that was next before the deletion, so no id is given twice. *)
Theorem delete_all_records_empties (r : payload) (w w' : world) :
  has_tables (store w) ->
  no_fault w ->
  store w' = store (snd (delete_all_records w)) ->
  no_fault w' ->
  valid_payload r = true ->
  fst (delete_all_records w) = Some true
  /\ person_rows (store w') = []
  /\ contact_rows (store w') = []
  /\ document_rows (store w') = []
  /\ fst (get_all_records w') = []
  /\ fst (add_record r w') = Some (next_person_id (store w)).
Proof.
  intros T F S F' V. unfold delete_all_records in *.
  rewrite (run_ok _ (fun _ => _delete_all_records) w _ _ F
             (_delete_all_records_ok (store w) T)) in *.
  cbn [fst snd store] in S |- *. split; [reflexivity|].
  destruct (has_tables_inv _ T) as (tp & tc & td & Hp & Hc & Hd).
  assert (D : store w'
              = mk_db (Some (mk_table [] (next_id tp))) (Some (mk_table [] (next_id tc)))
                      (Some (mk_table [] (next_id td))))
    by (rewrite S; unfold emptied; rewrite Hp, Hc, Hd; reflexivity).
  assert (T' : has_tables (store w')) by (rewrite D; repeat split; discriminate).
  unfold person_rows, contact_rows, document_rows. rewrite D.
  cbn [persons contact_info documents rows].
  do 3 (split; [reflexivity|]).
  split.
  - rewrite (get_all_records_ok w' T' F'). unfold person_rows. rewrite D. reflexivity.
  - rewrite (add_record_ok r w' T' V F'). cbn [fst].
    unfold next_person_id. rewrite D, Hp. reflexivity.
Qed.

Lemma delete_all_records_empties_witness :
  has_tables (store two_names_world)
  /\ no_fault two_names_world
  /\ valid_payload sample_payload = true
  /\ fst (delete_all_records two_names_world) = Some true
  /\ person_rows (store (snd (delete_all_records two_names_world))) = []
  /\ contact_rows (store (snd (delete_all_records two_names_world))) = []
  /\ document_rows (store (snd (delete_all_records two_names_world))) = []
  /\ fst (get_all_records (snd (delete_all_records two_names_world))) = []
  /\ fst (add_record sample_payload (snd (delete_all_records two_names_world)))
     = Some (next_person_id (store two_names_world)).
Proof.
  assert (T : has_tables (store two_names_world)) by (repeat split; discriminate).
  split; [exact T|]. split; [reflexivity|]. split; [reflexivity|].
  apply (delete_all_records_empties sample_payload two_names_world
           (snd (delete_all_records two_names_world)) T eq_refl eq_refl eq_refl eq_refl).
Defined.

(** ** The ids [add_record] returns *)

Lemma insert_persons_inv v1 v2 v3 v4 v5 v6 v7 v8 v9 v10 v11 now s id s' :
  insert_persons v1 v2 v3 v4 v5 v6 v7 v8 v9 v10 v11 now s = Ok (id, s') ->
  id = next_person_id s /\ person_exists s' id = true.
Proof.
  intro E. unfold insert_persons in E. run_inv E. ok_inv.
  unfold next_person_id, person_exists, person_rows.
  match goal with H : persons s = Some _ |- _ => rewrite H end.
  cbn [persons rows]. split; [reflexivity|].
  rewrite existsb_app. cbn. rewrite Z.eqb_refl, orb_true_r. reflexivity.
Qed.

Lemma _add_record_inv now r s id s' :
  _add_record now r s = Ok (id, s') ->
  id = next_person_id s /\ person_exists s' id = true.
Proof.
  intro E. unfold _add_record in E.
  do 9 (let R := fresh "R" in
        apply bind_inv in E; destruct E as (? & ? & R & E);
        try (apply lift_inv in R; destruct R; subst)).
  match goal with H : insert_persons _ _ _ _ _ _ _ _ _ _ _ _ _ = Ok _ |- _ =>
    apply insert_persons_inv in H; destruct H as [Hid X]
  end.
  assert (P : preserves persons
                (bind (insert_contacts x7 r)
                   (fun _ => bind (lift (get_list (pdf_urls r)))
                      (fun l => bind (for_each l (fun u => insert_documents x7 u "pdf"))
                         (fun _ => ret x7))))).
  { apply preserves_bind; [apply insert_contacts_persons|intro].
    apply preserves_bind; [apply preserves_lift|intro].
    apply preserves_bind; [|intro; apply preserves_ret].
    apply preserves_for_each. intro. apply insert_documents_persons. }
  assert (Q : id = x7).
  { clear - E. run_inv E. unfold ret in E. inversion E. reflexivity. }
  split; [congruence|].
  unfold person_exists, person_rows in *. rewrite (P _ _ _ E), Q. exact X.
Qed.

(** X11.  On a database that satisfies its constraints, an id returned by
    [add_record] is new: no stored person had it before the call, and a
    person has it after, whatever the payload and the faults of the
    connection. *)
Theorem add_record_returns_new_id (r : payload) (id : Z) (w : world) :
  wf (store w) ->
  fst (add_record r w) = Some id ->
  person_exists (store w) id = false
  /\ person_exists (store (snd (add_record r w))) id = true.
Proof.
  intros W. unfold add_record.
  pose proof (run_result Z (fun now => _add_record now r) w) as R.
  destruct (execute_with_retry (fun now => _add_record now r) 3 w) as [[[i|]|e] w1];
    cbn [fst snd] in *; try discriminate.
  intro E. inversion E; subst i.
  destruct (R id eq_refl) as [now X].
  destruct (_add_record_inv now r (store w) id (store w1) X) as [Hid P].
  split; [|exact P].
  subst id. unfold person_exists.
  destruct (existsb (fun p => p_id p =? next_person_id (store w)) (person_rows (store w)))
    eqn:X1; [|reflexivity].
  apply existsb_exists in X1. destruct X1 as (p & P1 & P2). apply Z.eqb_eq in P2.
  pose proof (wf_below _ W) as B. rewrite Forall_forall in B. specialize (B p P1). lia.
Qed.

Lemma add_record_returns_new_id_witness :
  wf (store sample_world)
  /\ fst (add_record sample_payload sample_world) = Some 2
  /\ person_exists (store sample_world) 2 = false
  /\ person_exists (store (snd (add_record sample_payload sample_world))) 2 = true.
Proof.
  assert (E : fst (add_record sample_payload sample_world) = Some 2)
    by (vm_compute; reflexivity).
  split; [exact wf_sample_world|]. split; [exact E|].
  apply (add_record_returns_new_id sample_payload 2 sample_world wf_sample_world E).
Defined.

(** ** [update_record] of an id no person has, with children *)

Lemma insert_contact_info_fk i kind v s tp tc :
  persons s = Some tp ->
  contact_info s = Some tc ->
  existsb (fun p => p_id p =? i) (rows tp) = false ->
  (String.length kind <=? 50)%nat = true ->
  (String.length v <=? 255)%nat = true ->
  insert_contact_info i kind v s = Raise ForeignKeyViolation.
Proof.
  intros Hp Hc He Hk Hv.
  unfold insert_contact_info, bind, the_contact_info, lift, references_persons.
  rewrite Hc, (varchar_fits _ _ Hk), (varchar_fits _ _ Hv). cbn.
  rewrite Hp, He. reflexivity.
Qed.

Lemma insert_documents_fk i u s tp td :
  persons s = Some tp ->
  documents s = Some td ->
  existsb (fun p => p_id p =? i) (rows tp) = false ->
  insert_documents i u "pdf" s = Raise ForeignKeyViolation.
Proof.
  intros Hp Hd He.
  unfold insert_documents, bind, the_documents, lift, references_persons.
  rewrite Hd. cbn. rewrite Hp, He. reflexivity.
Qed.

Lemma values_within_cons n f v l :
  values_within n f = true -> submitted f = v :: l ->
  get_list f = Ok (v :: l) /\ (String.length v <=? n)%nat = true.
Proof.
  destruct f as [| |l0]; cbn; try discriminate.
  intros H E. subst l0. cbn in H. apply andb_true_iff in H. tauto.
Qed.

Lemma values_within_nil n f :
  values_within n f = true -> submitted f = [] -> get_list f = Ok [].
Proof. destruct f as [| |l0]; cbn; try discriminate; congruence. Qed.

(** With no person of the id, the first contact to insert violates the
    foreign key. *)
Lemma insert_contacts_fk i (r : payload) s tp tc :
  persons s = Some tp ->
  contact_info s = Some tc ->
  existsb (fun p => p_id p =? i) (rows tp) = false ->
  values_within 255 (mobile_numbers r) = true ->
  values_within 255 (whatsapp_numbers r) = true ->
  values_within 255 (facebook_links r) = true ->
  values_within 255 (website_links r) = true ->
  contacts_of i r (next_id tc) <> [] ->
  insert_contacts i r s = Raise ForeignKeyViolation.
Proof.
  intros Hp Hc He V1 V2 V3 V4 N. unfold insert_contacts.
  destruct (submitted (mobile_numbers r)) as [|v1 l1] eqn:S1.
  2:{ destruct (values_within_cons _ _ _ _ V1 S1) as [G L].
      unfold bind at 1. rewrite G. cbn [lift rbind for_each]. unfold bind.
      rewrite (insert_contact_info_fk i "mobile" v1 s tp tc Hp Hc He eq_refl L).
      reflexivity. }
  unfold bind at 1. rewrite (values_within_nil _ _ V1 S1). cbn [lift rbind for_each].
  unfold bind at 1. cbn [ret].
  destruct (submitted (whatsapp_numbers r)) as [|v2 l2] eqn:S2.
  2:{ destruct (values_within_cons _ _ _ _ V2 S2) as [G L].
      unfold bind at 1. rewrite G. cbn [lift rbind for_each]. unfold bind.
      rewrite (insert_contact_info_fk i "whatsapp" v2 s tp tc Hp Hc He eq_refl L).
      reflexivity. }
  unfold bind at 1. rewrite (values_within_nil _ _ V2 S2). cbn [lift rbind for_each].
  unfold bind at 1. cbn [ret].
  destruct (submitted (facebook_links r)) as [|v3 l3] eqn:S3.
  2:{ destruct (values_within_cons _ _ _ _ V3 S3) as [G L].
      unfold bind at 1. rewrite G. cbn [lift rbind for_each]. unfold bind.
      rewrite (insert_contact_info_fk i "facebook" v3 s tp tc Hp Hc He eq_refl L).
      reflexivity. }
  unfold bind at 1. rewrite (values_within_nil _ _ V3 S3). cbn [lift rbind for_each].
  unfold bind at 1. cbn [ret].
  destruct (submitted (website_links r)) as [|v4 l4] eqn:S4.
  2:{ destruct (values_within_cons _ _ _ _ V4 S4) as [G L].
      unfold bind at 1. rewrite G. cbn [lift rbind for_each]. unfold bind.
      rewrite (insert_contact_info_fk i "website" v4 s tp tc Hp Hc He eq_refl L).
      reflexivity. }
  exfalso. apply N. unfold contacts_of. rewrite S1, S2, S3, S4. reflexivity.
Qed.

Lemma _update_record_fk (record_id : Z) (r : payload) (s : db) :
  has_tables s ->
  valid_payload r = true ->
  person_exists s record_id = false ->
  no_children r = false ->
  _update_record record_id r s = Raise ForeignKeyViolation.
Proof.
  intros T V X N. destruct (has_tables_inv _ T) as (tp & tc & td & Hp & Hc & Hd).
  unfold person_exists, person_rows in X. rewrite Hp in X.
  pose proof (update_persons_ok r record_id s tp Hp V) as U.
  rewrite (map_rewritten_absent r _ _ X), table_eta in U.
  pose proof V as V0.
  unfold valid_payload in V. rewrite !andb_true_iff in V.
  destruct V as [[[[[[[[[[[[[H1 H2] H3] H4] H5] H6] H7] H8] H9] C1] C2] C3] C4] L5].
  apply text_within_val in H1, H2, H3, H5, H6. apply present_val in H8, H9.
  destruct H1 as [E1 F1], H2 as [E2 F2], H3 as [E3 F3], H5 as [E5 F5], H6 as [E6 F6].
  unfold _update_record.
  rewrite E1, E2, E3, E5, E6, H8, H9.
  destruct (dob r) as [| |d] eqn:E4; try discriminate.
  cbn [getitem].
  do 8 (unfold bind at 1; cbn [lift rbind]).
  unfold bind at 1. rewrite U.
  unfold bind at 1.
  assert (D : delete_contact_info_of record_id
                (mk_db (Some tp) (contact_info s) (documents s))
              = Ok (tt, mk_db (Some tp)
                              (Some (mk_table
                                       (filter (fun c => negb (ci_person_id c =? record_id))
                                               (rows tc))
                                       (next_id tc)))
                              (documents s))).
  { unfold delete_contact_info_of, bind, the_contact_info, set_contact_info.
    cbn [contact_info]. rewrite Hc. reflexivity. }
  rewrite D.
  destruct (contacts_of record_id r (next_id tc)) as [|c0 cs] eqn:K.
  2:{ unfold bind at 1.
      erewrite insert_contacts_fk;
        [reflexivity | reflexivity | reflexivity | exact X | exact C1 | exact C2
         | exact C3 | exact C4 | ].
      cbn [next_id]. rewrite K. discriminate. }
  assert (Z4 : submitted (mobile_numbers r) = [] /\ submitted (whatsapp_numbers r) = []
               /\ submitted (facebook_links r) = [] /\ submitted (website_links r) = []).
  { unfold contacts_of in K. cbv zeta in K.
    destruct (submitted (mobile_numbers r)); [|discriminate].
    destruct (submitted (whatsapp_numbers r)); [|discriminate].
    destruct (submitted (facebook_links r)); [|discriminate].
    destruct (submitted (website_links r)); [|discriminate]. auto. }
  destruct Z4 as (Z1 & Z2 & Z3 & Z4).
  unfold bind at 1. unfold insert_contacts.
  unfold bind at 1. rewrite (values_within_nil _ _ C1 Z1). cbn [lift rbind for_each].
  unfold bind at 1. cbn [ret].
  unfold bind at 1. rewrite (values_within_nil _ _ C2 Z2). cbn [lift rbind for_each].
  unfold bind at 1. cbn [ret].
  unfold bind at 1. rewrite (values_within_nil _ _ C3 Z3). cbn [lift rbind for_each].
  unfold bind at 1. cbn [ret].
  unfold bind at 1. rewrite (values_within_nil _ _ C4 Z4). cbn [lift rbind for_each ret].
  unfold no_children in N. rewrite Z1, Z2, Z3, Z4 in N.
  destruct (pdf_urls r) as [| |[|u l]] eqn:E5'; try discriminate.
  cbn [contains_key]. unfold bind at 1. unfold bind at 1.
  assert (D2 : forall x y,
             delete_documents_of record_id (mk_db x y (documents s))
             = Ok (tt, mk_db x y
                         (Some (mk_table
                                  (filter (fun d => negb (d_person_id d =? record_id))
                                          (rows td))
                                  (next_id td))))).
  { intros x y. unfold delete_documents_of, bind, the_documents, set_documents.
    cbn [documents]. rewrite Hd. reflexivity. }
  rewrite D2. unfold bind at 1. cbn [get iter lift rbind for_each]. unfold bind at 1.
  erewrite insert_documents_fk; [reflexivity | reflexivity | reflexivity | exact X].
Qed.

(** X12.  On a database with its three tables and a healthy connection,
    [update_record] of an id no person has, with a valid payload that lists
    at least one contact or document, returns [False] (the first INSERT
    violates the foreign key) and leaves the rows of the three tables as
    they were.  (Nothing is said of the sequences: the INSERT that failed
    has taken its id.) *)
Theorem update_record_of_unknown_id_with_children
    (record_id : Z) (r : payload) (w : world) :
  has_tables (store w) ->
  valid_payload r = true ->
  no_fault w ->
  person_exists (store w) record_id = false ->
  no_children r = false ->
  fst (update_record record_id r w) = Some false
  /\ rows_of (store (snd (update_record record_id r w))) = rows_of (store w).
Proof.
  intros T V F X N. unfold update_record.
  rewrite (run_raise _ (fun _ => _update_record record_id r) w _ F
             (_update_record_fk record_id r (store w) T V X N) eq_refl).
  split; reflexivity.
Qed.

Lemma update_record_of_unknown_id_with_children_witness :
  has_tables (store sample_world)
  /\ valid_payload sample_payload = true
  /\ no_fault sample_world
  /\ person_exists (store sample_world) 7 = false
  /\ no_children sample_payload = false
  /\ fst (update_record 7 sample_payload sample_world) = Some false
  /\ rows_of (store (snd (update_record 7 sample_payload sample_world)))
     = rows_of (store sample_world).
Proof.
  assert (T : has_tables (store sample_world)) by (repeat split; discriminate).
  split; [exact T|]. do 4 (split; [reflexivity|]).
  apply (update_record_of_unknown_id_with_children 7 sample_payload sample_world
           T eq_refl eq_refl eq_refl eq_refl).
Defined.

(** ** [search_records], for every query *)

(** X13.  On a database with its three tables and a healthy connection,
    [search_records] succeeds for every query string (the pattern it builds
    always ends in [%], so it never ends in a lone backslash) and returns a
    sub-list of what [get_all_records] returns, in the same order, selected
    by [full_name] alone. *)
Theorem search_records_selects_from_all (query : string) (w : world) :
  has_tables (store w) ->
  no_fault w ->
  exists pattern : list like_token,
    like_pattern (lower ("%" ++ query ++ "%")) = Some (AnyString :: pattern)
    /\ fst (search_records query w)
       = filter (fun d => ilike (p_full_name (out_person d)) (AnyString :: pattern))
                (fst (get_all_records w)).
Proof.
  intros T F. destruct (like_pattern_wrapped query) as [pattern P].
  exists pattern. split; [exact P|].
  rewrite (search_records_ok query _ w T F P), (get_all_records_ok w T F),
    filter_dicts, filter_order_by.
  reflexivity.
Qed.

Lemma search_records_selects_from_all_witness :
  has_tables (store two_names_world)
  /\ no_fault two_names_world
  /\ exists pattern : list like_token,
       like_pattern (lower ("%" ++ "b_b\" ++ "%")) = Some (AnyString :: pattern)
       /\ fst (search_records "b_b\" two_names_world)
          = filter (fun d => ilike (p_full_name (out_person d)) (AnyString :: pattern))
                   (fst (get_all_records two_names_world)).
Proof.
  assert (T : has_tables (store two_names_world)) by (repeat split; discriminate).
  split; [exact T|]. split; [reflexivity|].
  apply (search_records_selects_from_all "b_b\" two_names_world T eq_refl).
Defined.

Lemma attempt_outcome_ext A (op1 op2 : Z -> cursor A) f now s :
  (forall now s, op1 now s = op2 now s) ->
  attempt_outcome op1 f now s = attempt_outcome op2 f now s.
Proof. intro H. unfold attempt_outcome. rewrite H. reflexivity. Qed.

Lemma run_ext A (op1 op2 : Z -> cursor A) (w : world) :
  (forall now s, op1 now s = op2 now s) ->
  execute_with_retry op1 3 w = execute_with_retry op2 3 w.
Proof.
  intro H. rewrite !execute_with_retry_is_policy. unfold retry_policy.
  rewrite !(attempt_outcome_ext A op1 op2 _ _ _ H). reflexivity.
Qed.

(** X14.  The letter case of the query does not matter: two queries that
    differ only in the case of the letters A-Z give the same result, whatever
    the database and the faults of the connection. *)
Theorem search_records_ignores_query_case (q1 q2 : string) (w : world) :
  lower q1 = lower q2 ->
  search_records q1 w = search_records q2 w.
Proof.
  intro L. unfold search_records.
  rewrite (run_ext _ (fun _ => _search_records q1) (fun _ => _search_records q2) w);
    [reflexivity|].
  intros _ s. unfold _search_records. rewrite !lower_wrapped, L. reflexivity.
Qed.

Lemma search_records_ignores_query_case_witness :
  lower "Alice" = lower "aLICE"
  /\ search_records "Alice" two_names_world = search_records "aLICE" two_names_world.
Proof.
  split; [reflexivity|].
  apply (search_records_ignores_query_case "Alice" "aLICE" two_names_world eq_refl).
Defined.
(** * The connection pool *)

Ltac pool_case :=
  cbn; repeat rewrite <- app_assoc; cbn [app]; rewrite ?Z.add_0_r;
  repeat split; try lia; try discriminate; try reflexivity;
  try (intros [? [? ?]]; discriminate).

(** What [get_connection] needs of [init_connection_pool]: without a pool
    it calls the constructor at most three times and leases nothing, and it
    returns normally exactly when the pool then exists. *)
Lemma init_connection_pool_builds (p : pool_state) :
  connection_pool p = false ->
  exists calls : list pool_call,
    pool_calls (snd (init_connection_pool p)) = (pool_calls p ++ calls)%list
    /\ (count_call is_new_pool calls <= 3)%nat
    /\ count_call is_lease calls = 0%nat
    /\ leases (snd (init_connection_pool p)) = leases p
    /\ (fst (init_connection_pool p) = Ok tt
        <-> connection_pool (snd (init_connection_pool p)) = true).
Proof.
  destruct p as [cp cs ls ck cl]. cbn [connection_pool]. intros ->.
  unfold init_connection_pool.
  destruct cs as [|[e1|] cs]; [exists [NewPool true]; pool_case| |
                              exists [NewPool true]; pool_case].
  destruct cs as [|[e2|] cs];
    [exists [NewPool false; PoolSleep 1; NewPool true]; pool_case| |
     exists [NewPool false; PoolSleep 1; NewPool true]; pool_case].
  destruct cs as [|[e3|] cs];
    [exists [NewPool false; PoolSleep 1; NewPool false; PoolSleep 1; NewPool true]
    |exists [NewPool false; PoolSleep 1; NewPool false; PoolSleep 1; NewPool false]
    |exists [NewPool false; PoolSleep 1; NewPool false; PoolSleep 1; NewPool true]];
    pool_case.
Qed.

(** X15.  [init_connection_pool] does nothing when the pool exists.
    Otherwise it calls the constructor at least once and at most three
    times, each call taking the next outcome the environment has for it, and
    sleeps one second between two calls; it returns normally exactly when
    the pool then exists, and it raises exactly when the three calls all
    failed, with the error of the third, whatever the kind of the errors.
    It leases no connection. *)
Theorem init_connection_pool_contract (p : pool_state) :
  let run := init_connection_pool p in
  if connection_pool p then run = (Ok tt, p)
  else
    exists calls : list pool_call,
      pool_calls (snd run) = (pool_calls p ++ calls)%list
      /\ (1 <= count_call is_new_pool calls <= 3)%nat
      /\ constructions (snd run) = skipn (count_call is_new_pool calls) (constructions p)
      /\ count_call is_pool_sleep calls = (count_call is_new_pool calls - 1)%nat
      /\ count_call is_lease calls = 0%nat
      /\ leases (snd run) = leases p
      /\ pool_clock (snd run) = pool_clock p + Z.of_nat (count_call is_pool_sleep calls)
      /\ (fst run = Ok tt <-> connection_pool (snd run) = true)
      /\ (forall e, fst run = Raise e
                    <-> exists e1 e2, all_fail 3 (constructions p) = Some [e1; e2; e]).
Proof.
  destruct p as [cp cs ls ck cl]. cbv zeta. cbn [connection_pool].
  destruct cp; [reflexivity|].
  unfold init_connection_pool.
  destruct cs as [|[e1|] cs].
  - exists [NewPool true]. pool_case.
  - destruct cs as [|[e2|] cs].
    + exists [NewPool false; PoolSleep 1; NewPool true]. pool_case.
    + destruct cs as [|[e3|] cs].
      * exists [NewPool false; PoolSleep 1; NewPool false; PoolSleep 1; NewPool true].
        pool_case.
      * exists [NewPool false; PoolSleep 1; NewPool false; PoolSleep 1; NewPool false].
        pool_case.
        -- intro E. inversion E; subst. exists e1, e2. reflexivity.
        -- intros [x [y E]]. inversion E; subst. reflexivity.
      * exists [NewPool false; PoolSleep 1; NewPool false; PoolSleep 1; NewPool true].
        pool_case.
    + exists [NewPool false; PoolSleep 1; NewPool true]. pool_case.
  - exists [NewPool true]. pool_case.
Qed.

(** X16.  [get_connection] leases from a pool that exists: it calls
    [getconn] once when a pool exists by then and not at all otherwise (it
    never reaches [None.getconn()]); it builds the pool only when there is
    none, with at most three constructor calls; and a connection it returns
    comes from an existing pool. *)
Theorem get_connection_leases_from_a_pool (p : pool_state) :
  let run := get_connection p in
  exists calls : list pool_call,
    pool_calls (snd run) = (pool_calls p ++ calls)%list
    /\ count_call is_lease calls = (if connection_pool (snd run) then 1 else 0)%nat
    /\ (count_call is_new_pool calls <= (if connection_pool p then 0 else 3))%nat
    /\ (if connection_pool p then connection_pool (snd run) = true else True)
    /\ (fst run = Ok tt <-> connection_pool (snd run) = true /\ hd None (leases p) = None).
Proof.
  cbv zeta. unfold get_connection.
  destruct (connection_pool p) eqn:C.
  - destruct p as [cp cs ls ck cl]. cbn in C. subst cp. unfold getconn. cbn.
    destruct ls as [|[e|] ls]; cbn.
    + exists [Lease true]. pool_case.
    + exists [Lease false]. pool_case. intros [_ ?]. discriminate.
    + exists [Lease true]. pool_case.
  - destruct (init_connection_pool_builds p C) as [calls [L [N [Z0 [Ls O]]]]].
    destruct (init_connection_pool p) as [[[]|e] p1]; cbn [fst snd] in *.
    + assert (C1 : connection_pool p1 = true) by (apply O; reflexivity).
      destruct p1 as [cp1 cs1 ls1 ck1 cl1]. cbn in C1, L, Ls. subst cp1 ls1 cl1.
      unfold getconn. cbn.
      destruct (leases p) as [|[e|] ls]; cbn.
      * exists (calls ++ [Lease true])%list. rewrite app_assoc.
        unfold count_call in *. rewrite !filter_app, !length_app, Z0. cbn.
        repeat split; try lia; try discriminate; reflexivity.
      * exists (calls ++ [Lease false])%list. rewrite app_assoc.
        unfold count_call in *. rewrite !filter_app, !length_app, Z0. cbn.
        repeat split; try lia; try discriminate. intros [_ ?]. discriminate.
      * exists (calls ++ [Lease true])%list. rewrite app_assoc.
        unfold count_call in *. rewrite !filter_app, !length_app, Z0. cbn.
        repeat split; try lia; try discriminate; reflexivity.
    + assert (C1 : connection_pool p1 = false).
      { destruct (connection_pool p1); [|reflexivity].
        destruct O as [_ O]. specialize (O eq_refl). discriminate. }
      exists calls. rewrite C1.
      repeat split; try lia; try discriminate; try assumption.
Qed.

(** * The upload service *)

Lemma upload_to_imgbb_with_key (name : string) (h : host) :
  has_api_key h = true ->
  upload_to_imgbb name h
  = (match hd Unreachable (responses h) with Hosted u => Some u | _ => None end,
     mk_host (api_key h) (tl (responses h)) (posted h ++ [name])).
Proof.
  unfold has_api_key, upload_to_imgbb, nonempty. intro K.
  destruct (api_key h) as [key|]; [|discriminate].
  destruct (key =? "")%string; [discriminate|].
  destruct (hd Unreachable (responses h)); reflexivity.
Qed.

Lemma upload_to_imgbb_without_key (name : string) (h : host) :
  has_api_key h = false -> upload_to_imgbb name h = (None, h).
Proof.
  unfold has_api_key, upload_to_imgbb, nonempty. intro K.
  destruct (api_key h) as [key|]; [|reflexivity].
  destruct (key =? "")%string; [reflexivity|discriminate].
Qed.

Lemma hosted_urls_cons (r : response) (rs : list response) :
  hosted_urls (r :: rs) = (hosted_urls [r] ++ hosted_urls rs)%list.
Proof. unfold hosted_urls. cbn [flat_map]. rewrite app_nil_r. reflexivity. Qed.

Lemma upload_pages_with_key (name : string) (images : list bool) :
  forall (i : nat) (image_urls : list string) (h : host),
    has_api_key h = true ->
    upload_pages name i images image_urls h
    = (if (saved_pages images =? List.length images)%nat
       then Some (image_urls ++ hosted_urls (firstn (saved_pages images) (responses h)))%list
       else None,
       mk_host (api_key h) (skipn (saved_pages images) (responses h))
               (posted h ++ map (fun j => name ++ "_page_" ++ str (Z.of_nat j + 1))
                                (seq i (saved_pages images)))).
Proof.
  induction images as [|saved rest IH]; intros i image_urls h K.
  - cbn. rewrite !app_nil_r. destruct h; reflexivity.
  - destruct saved.
    + cbn [upload_pages saved_pages List.length].
      rewrite (upload_to_imgbb_with_key _ h K).
      set (h1 := mk_host (api_key h) (tl (responses h))
                         (posted h ++ [name ++ "_page_" ++ str (Z.of_nat i + 1)])).
      assert (K1 : has_api_key h1 = true) by exact K.
      assert (R : forall urls,
                 upload_pages name (S i) rest urls h1
                 = (if (saved_pages rest =? List.length rest)%nat
                    then Some (urls ++ hosted_urls
                                         (firstn (saved_pages rest) (tl (responses h))))%list
                    else None,
                    mk_host (api_key h) (skipn (S (saved_pages rest)) (responses h))
                            (posted h
                             ++ map (fun j => name ++ "_page_" ++ str (Z.of_nat j + 1))
                                    (seq i (S (saved_pages rest)))))).
      { intro urls. rewrite (IH (S i) urls h1 K1). subst h1. cbn [api_key responses posted].
        f_equal. f_equal.
        - destruct (responses h); [destruct (saved_pages rest)|]; reflexivity.
        - cbn [seq map]. rewrite <- app_assoc. reflexivity. }
      change (S (saved_pages rest) =? S (List.length rest))%nat
        with (saved_pages rest =? List.length rest)%nat.
      destruct (responses h) as [|r rs] eqn:Rs.
      * cbn [hd]. rewrite R. cbn [tl]. rewrite !firstn_nil. reflexivity.
      * cbn [hd firstn]. rewrite (hosted_urls_cons r).
        destruct r as [| | |u]; rewrite R; cbn [tl hosted_urls flat_map app];
          try reflexivity.
        destruct (nonempty u); cbn [app]; [rewrite <- app_assoc|]; reflexivity.
    + cbn. rewrite app_nil_r. destruct h; reflexivity.
Qed.

(** X17.  With an API key in the environment, [process_pdf] posts the pages
    of the file one by one, named [<file>_page_1], [<file>_page_2], ..., up
    to the first page that cannot be saved, each post taking the next
    response of the host.  When every page is saved it returns, in page
    order, the urls of the responses that carry a non-empty one (pages whose
    upload failed are left out silently); when a page cannot be saved it
    returns the empty list, although the pages before it were posted. *)
Theorem process_pdf_returns_hosted_urls (file : pdf_file) (images : list bool) (h : host) :
  pages file = Some images ->
  has_api_key h = true ->
  fst (process_pdf file h)
  = (if (saved_pages images =? List.length images)%nat
     then hosted_urls (firstn (saved_pages images) (responses h))
     else [])
  /\ posted (snd (process_pdf file h))
     = (posted h ++ page_names (pdf_name file) (saved_pages images))%list
  /\ responses (snd (process_pdf file h)) = skipn (saved_pages images) (responses h).
Proof.
  intros P K. unfold process_pdf. rewrite P.
  rewrite (upload_pages_with_key (pdf_name file) images 0 [] h K).
  destruct (saved_pages images =? List.length images)%nat; cbn; repeat split; reflexivity.
Qed.

Lemma process_pdf_returns_hosted_urls_witness :
  fst (process_pdf (mk_pdf_file "nid.pdf" (Some [true; true; true]))
                   (mk_host (Some "k") [Hosted "u1"; Refused; Hosted "u3"; Hosted "u4"] []))
  = ["u1"; "u3"]
  /\ posted (snd (process_pdf (mk_pdf_file "nid.pdf" (Some [true; true; true]))
                    (mk_host (Some "k") [Hosted "u1"; Refused; Hosted "u3"; Hosted "u4"] [])))
     = ["nid.pdf_page_1"; "nid.pdf_page_2"; "nid.pdf_page_3"]
  /\ responses (snd (process_pdf (mk_pdf_file "nid.pdf" (Some [true; true; true]))
                       (mk_host (Some "k") [Hosted "u1"; Refused; Hosted "u3"; Hosted "u4"]
                                [])))
     = [Hosted "u4"].
Proof.
  exact (process_pdf_returns_hosted_urls
           (mk_pdf_file "nid.pdf" (Some [true; true; true])) [true; true; true]
           (mk_host (Some "k") [Hosted "u1"; Refused; Hosted "u3"; Hosted "u4"] [])
           eq_refl eq_refl).
Defined.

Lemma upload_pages_without_key (name : string) (images : list bool) :
  forall (i : nat) (image_urls : list string) (h : host),
    has_api_key h = false ->
    snd (upload_pages name i images image_urls h) = h
    /\ (forall urls, fst (upload_pages name i images image_urls h) = Some urls ->
                     urls = image_urls).
Proof.
  induction images as [|saved rest IH]; intros i image_urls h K.
  - cbn. split; [reflexivity|]. intros urls E. congruence.
  - destruct saved; cbn [upload_pages].
    + rewrite (upload_to_imgbb_without_key _ h K). apply IH, K.
    + cbn. split; [reflexivity|discriminate].
Qed.

(** X18.  Without an API key in the environment (unset or empty) nothing is
    posted and nothing is uploaded: [upload_to_imgbb] returns [None],
    [load_image] returns [None] and [process_pdf] returns the empty list,
    whatever the file, and the host is left as it was. *)
Theorem nothing_is_uploaded_without_api_key
    (name : string) (image : option image_file) (file : pdf_file) (h : host) :
  has_api_key h = false ->
  upload_to_imgbb name h = (None, h)
  /\ load_image image h = (None, h)
  /\ process_pdf file h = ([], h).
Proof.
  intro K. split; [apply upload_to_imgbb_without_key, K|]. split.
  - unfold load_image. destruct image as [f|]; [|reflexivity].
    destruct (png f); [|reflexivity].
    rewrite (upload_to_imgbb_without_key _ h K). reflexivity.
  - unfold process_pdf. destruct (pages file) as [images|]; [|reflexivity].
    destruct (upload_pages_without_key (pdf_name file) images 0 [] h K) as [S U].
    destruct (upload_pages (pdf_name file) 0 images [] h) as [[urls|] h1];
      cbn [fst snd] in *; subst h1; [|reflexivity].
    rewrite (U urls eq_refl). reflexivity.
Qed.

Lemma nothing_is_uploaded_without_api_key_witness :
  upload_to_imgbb "photo" (mk_host (Some "") [Hosted "u1"] [])
  = (None, mk_host (Some "") [Hosted "u1"] [])
  /\ load_image (Some (mk_image_file "photo.png" (Some "iVBOR")))
                (mk_host (Some "") [Hosted "u1"] [])
     = (None, mk_host (Some "") [Hosted "u1"] [])
  /\ process_pdf (mk_pdf_file "nid.pdf" (Some [true; true]))
                 (mk_host (Some "") [Hosted "u1"] [])
     = ([], mk_host (Some "") [Hosted "u1"] []).
Proof.
  exact (nothing_is_uploaded_without_api_key "photo"
           (Some (mk_image_file "photo.png" (Some "iVBOR")))
           (mk_pdf_file "nid.pdf" (Some [true; true]))
           (mk_host (Some "") [Hosted "u1"] []) eq_refl).
Defined.

(** * The entry form *)

Lemma str_inj (a b : Z) : str a = str b -> a = b.
Proof.
  unfold str. intro E.
  assert (H : Some (Z.to_int a) = Some (Z.to_int b)).
  { rewrite <- !DecimalString.NilEmpty.isi. rewrite E. reflexivity. }
  inversion H as [H1].
  rewrite <- (DecimalZ.of_to a), <- (DecimalZ.of_to b), H1. reflexivity.
Qed.

Lemma str_is_a_number (t : string) (n : Z) :
  DecimalString.NilEmpty.int_of_string t = None -> str n <> t.
Proof.
  intros H E. rewrite <- E in H. unfold str in H.
  rewrite DecimalString.NilEmpty.isi in H. discriminate.
Qed.

Lemma append_inj (p x y : string) : p ++ x = p ++ y -> x = y.
Proof.
  induction p as [|c p IH]; cbn; intro E; [exact E|].
  inversion E. auto.
Qed.

Lemma length_append (p x : string) :
  String.length (p ++ x) = (String.length p + String.length x)%nat.
Proof. induction p as [|c p IH]; cbn; [reflexivity|]. rewrite IH. reflexivity. Qed.

Lemma append_inj_r (p q x : string) : p ++ x = q ++ x -> p = q.
Proof.
  revert q. induction p as [|c p IH]; intros [|d q] E.
  - reflexivity.
  - exfalso. apply (f_equal String.length) in E. cbn in E. rewrite length_append in E. lia.
  - exfalso. apply (f_equal String.length) in E. cbn in E. rewrite length_append in E. lia.
  - cbn in E. inversion E. f_equal. auto.
Qed.

Lemma widget_key_inj (p : string) (i j : nat) : widget_key p i = widget_key p j -> i = j.
Proof.
  unfold widget_key. intro E. apply append_inj in E. inversion E as [E1].
  apply str_inj in E1. lia.
Qed.

Lemma count_key_is_no_widget_key (p : string) (i : nat) : p ++ "_count" <> widget_key p i.
Proof.
  unfold widget_key. intro E. apply append_inj in E. inversion E as [E1].
  symmetry in E1. revert E1. apply str_is_a_number. reflexivity.
Qed.

Lemma add_key_is_no_widget_key (p : string) (i : nat) :
  form_prefix p -> "add_" ++ p <> widget_key p i.
Proof.
  unfold form_prefix, widget_key.
  intros [H|[H|[H|[H|[]]]]]; subst p; cbn; discriminate.
Qed.

Lemma add_key_is_no_count_key (p : string) : form_prefix p -> "add_" ++ p <> p ++ "_count".
Proof.
  unfold form_prefix.
  intros [H|[H|[H|[H|[]]]]]; subst p; cbn; discriminate.
Qed.

(** The keys of two groups of the form are apart. *)
Lemma owns_apart (p q k : string) :
  form_prefix p -> form_prefix q -> p <> q -> owns p k -> ~ owns q k.
Proof.
  unfold form_prefix, owns, widget_key.
  intros [P|[P|[P|[P|[]]]]] [Q|[Q|[Q|[Q|[]]]]] N; subst p q;
    try (exfalso; apply N; reflexivity);
    intros [K|[K|[i K]]] [K'|[K'|[j K']]]; subst k; cbn in K'; discriminate.
Qed.

Lemma set_item_same (key : string) (v : pyval) (d : mapping) : set_item key v d key = Some v.
Proof. unfold set_item. rewrite String.eqb_refl. reflexivity. Qed.

Lemma set_item_other (key k : string) (v : pyval) (d : mapping) :
  k <> key -> set_item key v d k = d k.
Proof.
  intro N. unfold set_item. destruct (String.eqb_spec k key); [contradiction|reflexivity].
Qed.

Lemma widget_value_set_other (p : string) (init : option (list string)) (ss : mapping)
    (i j : nat) (v : pyval) :
  i <> j -> widget_value p init (set_item (widget_key p i) v ss) j = widget_value p init ss j.
Proof.
  intro N. unfold widget_value. rewrite set_item_other; [reflexivity|].
  intro E. apply widget_key_inj in E. congruence.
Qed.

Lemma inputs_loop_spec (p : string) (init : option (list string)) (indices : list nat) :
  forall (values : list string) (s : state),
    NoDup indices ->
    exists ss' : mapping,
      inputs_loop p init indices values s
      = (Returned (values ++ filter nonempty
                                    (map (widget_value p init (session_state s)) indices))%list,
         mk_state ss' (secrets s) (imgbb s) (database s) (screen s))
      /\ (forall k, (forall i, k <> widget_key p i) -> ss' k = session_state s k)
      /\ (forall i, widget_value p init ss' i = widget_value p init (session_state s) i).
Proof.
  induction indices as [|i rest IH]; intros values s D.
  - exists (session_state s). cbn. rewrite app_nil_r. destruct s. repeat split; reflexivity.
  - inversion D as [|? ? Ni D']; subst.
    cbn [inputs_loop]. unfold and_then at 1. unfold text_input at 1.
    set (v := match session_state s (p ++ "_" ++ str (Z.of_nat i)) with
              | Some (VStr typed) => typed
              | _ => initial_value init i
              end).
    assert (V : v = widget_value p init (session_state s) i) by reflexivity.
    set (s1 := mk_state (set_item (p ++ "_" ++ str (Z.of_nat i)) (VStr v) (session_state s))
                        (secrets s) (imgbb s) (database s) (screen s)).
    destruct (IH (if nonempty v then (values ++ [v])%list else values) s1 D')
      as [ss' [E [F W]]].
    exists ss'. split; [|split].
    + rewrite E. cbn [map filter]. rewrite <- V.
      f_equal. f_equal.
      assert (M : map (widget_value p init (session_state s1)) rest
                  = map (widget_value p init (session_state s)) rest).
      { apply map_ext_in. intros j J. subst s1. cbn [session_state].
        apply (widget_value_set_other p init (session_state s) i j (VStr v)).
        intro; subst j. contradiction. }
      rewrite M. destruct (nonempty v); [rewrite <- app_assoc|]; reflexivity.
    + intros k K. rewrite (F k K). subst s1. cbn [session_state].
      apply set_item_other. apply K.
    + intro j. rewrite W. subst s1. cbn [session_state].
      destruct (Nat.eq_dec i j) as [<-|N].
      * unfold widget_value at 1. unfold widget_key at 1. rewrite set_item_same. exact V.
      * apply (widget_value_set_other p init (session_state s) i j (VStr v) N).
Qed.

Lemma render_multiple_inputs_spec (p : string) (init : option (list string)) (s : state) :
  form_prefix p ->
  match inputs_of p init (session_state s) with
  | Raise e => render_multiple_inputs p init s = (Raised (Python e), s)
  | Ok inputs =>
      same_but (owns p) s (snd (render_multiple_inputs p init s))
      /\ (forall i, widget_value p init (session_state (snd (render_multiple_inputs p init s))) i
                    = widget_value p init (session_state s) i)
      /\ if truthy (get_item ("add_" ++ p) (session_state s)) then
           fst (render_multiple_inputs p init s) = Rerun
           /\ session_state (snd (render_multiple_inputs p init s)) (p ++ "_count")
              = Some (VInt (inputs + 1))
           /\ session_state (snd (render_multiple_inputs p init s)) ("add_" ++ p)
              = Some (VBool false)
         else
           fst (render_multiple_inputs p init s)
           = Returned (filter nonempty
                              (map (widget_value p init (session_state s))
                                   (seq 0 (Z.to_nat inputs))))
           /\ session_state (snd (render_multiple_inputs p init s)) (p ++ "_count")
              = session_state s (p ++ "_count")
  end.
Proof.
  intro P.
  destruct (inputs_of p init (session_state s)) as [inputs|e] eqn:I;
    unfold render_multiple_inputs, and_then, read_session; rewrite I; [|reflexivity].
  destruct (inputs_loop_spec p init (seq 0 (Z.to_nat inputs)) [] s (seq_NoDup _ _))
    as [ss' [E [F W]]].
  rewrite E. cbn [app session_state].
  assert (A : get_item ("add_" ++ p) ss' = get_item ("add_" ++ p) (session_state s)).
  { unfold get_item. rewrite F; [reflexivity|].
    intro i. apply add_key_is_no_widget_key, P. }
  rewrite A.
  destruct (truthy (get_item ("add_" ++ p) (session_state s))).
  - cbn. repeat split.
    + intros k K. cbn [session_state]. rewrite !set_item_other.
      * apply F. intros i E'. apply K. right. right. exists i. exact E'.
      * intro E'. apply K. left. exact E'.
      * intro E'. apply K. right. left. exact E'.
    + intro i. rewrite <- W. unfold widget_value. cbn [session_state].
      rewrite !set_item_other; [reflexivity| |].
      * intro E'. symmetry in E'. revert E'. apply count_key_is_no_widget_key.
      * intro E'. symmetry in E'. revert E'. apply (add_key_is_no_widget_key p i P).
    + rewrite set_item_other; [apply set_item_same|].
      intro E'. symmetry in E'. revert E'. apply add_key_is_no_count_key, P.
    + apply set_item_same.
  - cbn. repeat split.
    + intros k K. apply F. intros i E'. apply K. right. right. exists i. exact E'.
    + exact W.
    + apply F. intro i. apply count_key_is_no_widget_key.
Qed.

Lemma nonempty_spec (v : string) : nonempty v = true <-> v <> "".
Proof.
  unfold nonempty. destruct (String.eqb_spec v ""); cbn; split; congruence.
Qed.

Lemma filter_nonempty (l : list string) : Forall (fun v => v <> "") (filter nonempty l).
Proof.
  apply Forall_forall. intros v V. apply filter_In in V. apply nonempty_spec, V.
Qed.

Lemma length_entered (f : nat -> string) (n : nat) :
  (List.length (filter nonempty (map f (seq 0 n))) <= n)%nat.
Proof.
  eapply Nat.le_trans; [apply filter_length_le|].
  rewrite length_map, length_seq. apply Nat.le_refl.
Qed.

(** X19.  When [render_multiple_inputs] returns for one of the four groups
    of the entry form, the session holds a count for the group (or none,
    and then the number of stored values counts, one at least), the add flag
    of the group is not set, and the list returned holds, in order, the
    non-empty values of that many inputs: for each input what the session
    holds under its key, the stored value of its position otherwise.  No
    value returned is empty, there are no more values than inputs, and the
    run changes nothing but session keys of the group. *)
Theorem render_multiple_inputs_values
    (key_prefix : string) (initial_values : option (list string)) (s : state)
    (values : list string) :
  form_prefix key_prefix ->
  fst (render_multiple_inputs key_prefix initial_values s) = Returned values ->
  exists inputs : Z,
    inputs_of key_prefix initial_values (session_state s) = Ok inputs
    /\ truthy (get_item ("add_" ++ key_prefix) (session_state s)) = false
    /\ values = filter nonempty
                       (map (widget_value key_prefix initial_values (session_state s))
                            (seq 0 (Z.to_nat inputs)))
    /\ Forall (fun v => v <> "") values
    /\ (List.length values <= Z.to_nat inputs)%nat
    /\ same_but (owns key_prefix) s (snd (render_multiple_inputs key_prefix initial_values s)).
Proof.
  intros P R.
  pose proof (render_multiple_inputs_spec key_prefix initial_values s P) as H.
  destruct (inputs_of key_prefix initial_values (session_state s)) as [inputs|e].
  - exists inputs. destruct H as [B [_ H]].
    destruct (truthy (get_item ("add_" ++ key_prefix) (session_state s))).
    + destruct H as [H _]. rewrite H in R. discriminate.
    + destruct H as [H _]. rewrite H in R. inversion R; subst values.
      repeat split; try apply B.
      * apply filter_nonempty.
      * apply length_entered.
  - rewrite H in R. discriminate.
Qed.

Lemma render_multiple_inputs_values_witness :
  exists inputs : Z,
    inputs_of "mobile" (Some ["017"; ""; "019"])
              (session_state (state_of [("mobile_count", VInt 2); ("mobile_0", VStr "018")]
                                       fresh_world))
    = Ok inputs
    /\ truthy (get_item ("add_" ++ "mobile")
                 (session_state (state_of [("mobile_count", VInt 2); ("mobile_0", VStr "018")]
                                          fresh_world))) = false
    /\ ["018"]
       = filter nonempty
           (map (widget_value "mobile" (Some ["017"; ""; "019"])
                   (session_state
                      (state_of [("mobile_count", VInt 2); ("mobile_0", VStr "018")]
                                fresh_world)))
                (seq 0 (Z.to_nat inputs)))
    /\ Forall (fun v => v <> "") ["018"]
    /\ (List.length ["018"] <= Z.to_nat inputs)%nat
    /\ same_but (owns "mobile")
         (state_of [("mobile_count", VInt 2); ("mobile_0", VStr "018")] fresh_world)
         (snd (render_multiple_inputs "mobile" (Some ["017"; ""; "019"])
                 (state_of [("mobile_count", VInt 2); ("mobile_0", VStr "018")]
                           fresh_world))).
Proof.
  apply (render_multiple_inputs_values "mobile" (Some ["017"; ""; "019"])
           (state_of [("mobile_count", VInt 2); ("mobile_0", VStr "018")] fresh_world)
           ["018"]).
  - left. reflexivity.
  - vm_compute. reflexivity.
Defined.

(** X20.  When [render_multiple_inputs] ends in [st.rerun()] for one of the
    four groups of the entry form (the add flag of the group was set), the
    next run of it on the session it leaves returns, and shows one input
    more: it gives the non-empty values of [inputs + 1] inputs, those of the
    inputs shown before as they were. *)
Theorem add_button_shows_one_more_input
    (key_prefix : string) (initial_values : option (list string)) (s : state) :
  form_prefix key_prefix ->
  fst (render_multiple_inputs key_prefix initial_values s) = Rerun ->
  exists inputs : Z,
    inputs_of key_prefix initial_values (session_state s) = Ok inputs
    /\ fst (render_multiple_inputs key_prefix initial_values
              (snd (render_multiple_inputs key_prefix initial_values s)))
       = Returned (filter nonempty
                          (map (widget_value key_prefix initial_values (session_state s))
                               (seq 0 (Z.to_nat (inputs + 1))))).
Proof.
  intros P R.
  pose proof (render_multiple_inputs_spec key_prefix initial_values s P) as H.
  destruct (inputs_of key_prefix initial_values (session_state s)) as [inputs|e].
  - exists inputs. split; [reflexivity|]. destruct H as [_ [W H]].
    destruct (truthy (get_item ("add_" ++ key_prefix) (session_state s))).
    + destruct H as [_ [C A]].
      set (s1 := snd (render_multiple_inputs key_prefix initial_values s)) in *.
      pose proof (render_multiple_inputs_spec key_prefix initial_values s1 P) as H1.
      unfold inputs_of in H1 at 1. rewrite C in H1.
      unfold get_item in H1. rewrite A in H1. cbn [truthy] in H1.
      destruct H1 as [_ [_ [H1 _]]]. rewrite H1.
      f_equal. f_equal. apply map_ext. exact W.
    + destruct H as [H _]. rewrite H in R. discriminate.
  - rewrite H in R. discriminate.
Qed.

Lemma add_button_shows_one_more_input_witness :
  exists inputs : Z,
    inputs_of "mobile" None
              (session_state (state_of [("add_mobile", VBool true); ("mobile_count", VInt 1);
                                        ("mobile_0", VStr "018")] fresh_world))
    = Ok inputs
    /\ fst (render_multiple_inputs "mobile" None
              (snd (render_multiple_inputs "mobile" None
                      (state_of [("add_mobile", VBool true); ("mobile_count", VInt 1);
                                 ("mobile_0", VStr "018")] fresh_world))))
       = Returned (filter nonempty
                          (map (widget_value "mobile" None
                                  (session_state
                                     (state_of [("add_mobile", VBool true);
                                                ("mobile_count", VInt 1);
                                                ("mobile_0", VStr "018")] fresh_world)))
                               (seq 0 (Z.to_nat (inputs + 1))))).
Proof.
  apply (add_button_shows_one_more_input "mobile" None
           (state_of [("add_mobile", VBool true); ("mobile_count", VInt 1);
                      ("mobile_0", VStr "018")] fresh_world)).
  - left. reflexivity.
  - vm_compute. reflexivity.
Defined.

Lemma and_then_returned A B (c : action A) (k : A -> action B) (s : state) (b : B) :
  fst (and_then c k s) = Returned b ->
  exists a s1, c s = (Returned a, s1) /\ and_then c k s = k a s1.
Proof.
  unfold and_then. destruct (c s) as [[a| | |e] s1]; cbn; try discriminate.
  intros _. exists a, s1. split; reflexivity.
Qed.

Lemma init_counts_spec (prefixes : list string) :
  forall s : state,
    exists ss' : mapping,
      init_counts prefixes s
      = (Returned tt, mk_state ss' (secrets s) (imgbb s) (database s) (screen s))
      /\ (forall p, In p prefixes ->
                    ss' (p ++ "_count")
                    = match session_state s (p ++ "_count") with
                      | Some v => Some v
                      | None => Some (VInt 1)
                      end)
      /\ (forall k, (forall p, In p prefixes -> k <> p ++ "_count") ->
                    ss' k = session_state s k).
Proof.
  unfold init_counts.
  induction prefixes as [|q rest IH]; intro s.
  - exists (session_state s). destruct s. cbn. repeat split. intros p [].
  - cbn [for_loop]. unfold and_then at 1. unfold and_then at 1. unfold read_session at 1.
    set (s1 := if has_key (q ++ "_count") (session_state s) then s
               else mk_state (set_item (q ++ "_count") (VInt 1) (session_state s))
                             (secrets s) (imgbb s) (database s) (screen s)).
    assert (E1 : (if has_key (q ++ "_count") (session_state s) then done tt
                  else assign (q ++ "_count") (VInt 1)) s = (Returned tt, s1)).
    { subst s1. destruct (has_key (q ++ "_count") (session_state s)); reflexivity. }
    rewrite E1.
    assert (C1 : secrets s1 = secrets s /\ imgbb s1 = imgbb s /\ database s1 = database s
                 /\ screen s1 = screen s).
    { subst s1. destruct (has_key (q ++ "_count") (session_state s)); repeat split. }
    destruct C1 as [C1 [C2 [C3 C4]]].
    assert (Q : session_state s1 (q ++ "_count")
                = match session_state s (q ++ "_count") with
                  | Some v => Some v
                  | None => Some (VInt 1)
                  end).
    { subst s1. unfold has_key. destruct (session_state s (q ++ "_count")) eqn:X.
      - exact X.
      - cbn [session_state]. apply set_item_same. }
    assert (O : forall k, k <> q ++ "_count" -> session_state s1 k = session_state s k).
    { intros k K. subst s1. destruct (has_key (q ++ "_count") (session_state s));
        [reflexivity|]. cbn [session_state]. apply set_item_other, K. }
    destruct (IH s1) as [ss' [E [F G]]].
    exists ss'. rewrite E, C1, C2, C3, C4. split; [reflexivity|]. split.
    + intros p [<-|P].
      * destruct (in_dec string_dec q rest) as [I|I].
        -- rewrite (F q I), Q. destruct (session_state s (q ++ "_count")); reflexivity.
        -- rewrite G; [exact Q|]. intros p P E'. apply append_inj_r in E'. congruence.
      * rewrite (F p P).
        destruct (string_dec p q) as [->|N]; [rewrite Q|rewrite O].
        -- destruct (session_state s (q ++ "_count")); reflexivity.
        -- reflexivity.
        -- intro E'. apply append_inj_r in E'. congruence.
    + intros k K. rewrite G.
      * apply O. apply K. left. reflexivity.
      * intros p P. apply K. right. exact P.
Qed.

Lemma widget_key_is_no_count_key (p q : string) (i : nat) :
  form_prefix p -> form_prefix q -> widget_key p i <> q ++ "_count".
Proof.
  intros P Q E. destruct (string_dec p q) as [->|N].
  - symmetry in E. revert E. apply count_key_is_no_widget_key.
  - apply (owns_apart p q (widget_key p i) P Q N).
    + right. right. exists i. reflexivity.
    + left. exact E.
Qed.

Lemma group_values (p : string) (init : option (list string)) (ss : mapping) (sk : state)
    (values : list string) :
  form_prefix p ->
  session_state sk (p ++ "_count")
  = match ss (p ++ "_count") with
    | Some v => Some v
    | None => Some (VInt 1)
    end ->
  (forall i, session_state sk (widget_key p i) = ss (widget_key p i)) ->
  fst (render_multiple_inputs p init sk) = Returned values ->
  values = entered ss p init.
Proof.
  intros P C W R.
  pose proof (render_multiple_inputs_spec p init sk P) as H.
  unfold inputs_of in H. rewrite C in H. unfold entered, shown_inputs.
  assert (M : forall n, map (widget_value p init (session_state sk)) (seq 0 n)
                        = map (widget_value p init ss) (seq 0 n)).
  { intro n. apply map_ext. intro i. unfold widget_value. rewrite W. reflexivity. }
  destruct (ss (p ++ "_count")) as [[|b|n|t]|];
    try (rewrite H in R; discriminate);
    destruct H as [_ [_ H]];
    destruct (truthy (get_item ("add_" ++ p) (session_state sk)));
    destruct H as [H _]; rewrite H in R; try discriminate;
    injection R as <-;
    first [rewrite M; reflexivity | rewrite <- M; reflexivity].
Qed.

Lemma same_but_keeps (p q : string) (s s' : state) (k : string) :
  form_prefix p -> form_prefix q -> p <> q ->
  same_but (owns q) s s' -> owns p k -> session_state s' k = session_state s k.
Proof.
  intros P Q N [_ [_ [_ [_ F]]]] O. apply F. apply (owns_apart p q k P Q N O).
Qed.

Lemma returned_same_but (p : string) (init : option (list string)) (s s1 : state)
    (values : list string) :
  form_prefix p ->
  render_multiple_inputs p init s = (Returned values, s1) ->
  same_but (owns p) s s1.
Proof.
  intros P E.
  pose proof (render_multiple_inputs_spec p init s P) as H. rewrite E in H.
  destruct (inputs_of p init (session_state s)); [apply H|discriminate].
Qed.

Lemma extend_pdf_urls_spec (files : list pdf_file) :
  forall (pdf_urls : list string) (s : state),
    exists new_urls s',
      extend_pdf_urls files pdf_urls s = (Returned (pdf_urls ++ new_urls)%list, s').
Proof.
  induction files as [|file rest IH]; intros pdf_urls s.
  - exists [], s. cbn. rewrite app_nil_r. reflexivity.
  - cbn [extend_pdf_urls]. unfold and_then at 1. unfold on_host at 1.
    destruct (process_pdf file (imgbb s)) as [new h].
    destruct (IH (pdf_urls ++ new)%list
                 (mk_state (session_state s) (secrets s) h (database s) (screen s)))
      as [more [s' E]].
    exists (new ++ more)%list, s'. rewrite E, app_assoc. reflexivity.
Qed.

Lemma form_prefix_mobile : form_prefix "mobile".
Proof. left. reflexivity. Qed.

Lemma form_prefix_whatsapp : form_prefix "whatsapp".
Proof. right. left. reflexivity. Qed.

Lemma form_prefix_facebook : form_prefix "facebook".
Proof. right. right. left. reflexivity. Qed.

Lemma form_prefix_website : form_prefix "website".
Proof. right. right. right. left. reflexivity. Qed.

Lemma owns_count (p : string) : owns p (p ++ "_count").
Proof. left. reflexivity. Qed.

Lemma owns_widget (p : string) (i : nat) : owns p (widget_key p i).
Proof. right. right. exists i. reflexivity. Qed.

(** What the entry form returns when it returns a payload. *)
Lemma render_entry_form_returns
    (record : option person_dict) (ui : entry_widgets) (s : state) (r : payload) :
  fst (render_entry_form record ui s) = Returned (Some r) ->
  submit_clicked ui = true /\ required_filled ui = true
  /\ exists image_data new_urls,
       r = payload_of record ui (session_state s) image_data new_urls.
Proof.
  intro R. unfold render_entry_form in R.
  destruct (init_counts_spec ["mobile"; "whatsapp"; "facebook"; "website"] s)
    as [ss0 [E0 [C0 F0]]].
  set (s0 := mk_state ss0 (secrets s) (imgbb s) (database s) (screen s)) in *.
  unfold and_then at 1 in R. rewrite E0 in R.
  assert (Wk : forall p i, form_prefix p ->
                           session_state s0 (widget_key p i) = session_state s (widget_key p i)).
  { intros p i P. apply F0. intros q Q. apply widget_key_is_no_count_key; assumption. }
  destruct (and_then_returned _ _ _ _ s0 _ R) as [mobile [s1 [E1 R1]]].
  rewrite R1 in R. clear R1.
  pose proof (returned_same_but _ _ _ _ _ form_prefix_mobile E1) as B1.
  destruct (and_then_returned _ _ _ _ s1 _ R) as [whatsapp [s2 [E2 R2]]].
  rewrite R2 in R. clear R2.
  pose proof (returned_same_but _ _ _ _ _ form_prefix_whatsapp E2) as B2.
  destruct (and_then_returned _ _ _ _ s2 _ R) as [facebook [s3 [E3 R3]]].
  rewrite R3 in R. clear R3.
  pose proof (returned_same_but _ _ _ _ _ form_prefix_facebook E3) as B3.
  destruct (and_then_returned _ _ _ _ s3 _ R) as [website [s4 [E4 R4]]].
  rewrite R4 in R. clear R4.
  assert (V1 : mobile = entered (session_state s) "mobile"
                                (option_map out_mobile_numbers record)).
  { apply (group_values "mobile" _ (session_state s) s0 mobile form_prefix_mobile).
    - apply C0, form_prefix_mobile.
    - intro i. apply Wk, form_prefix_mobile.
    - rewrite E1. reflexivity. }
  assert (V2 : whatsapp = entered (session_state s) "whatsapp"
                                  (option_map out_whatsapp_numbers record)).
  { apply (group_values "whatsapp" _ (session_state s) s1 whatsapp form_prefix_whatsapp).
    - rewrite (same_but_keeps "whatsapp" "mobile" s0 s1 _ form_prefix_whatsapp
                 form_prefix_mobile ltac:(discriminate) B1 (owns_count _)).
      apply C0, form_prefix_whatsapp.
    - intro i.
      rewrite (same_but_keeps "whatsapp" "mobile" s0 s1 _ form_prefix_whatsapp
                 form_prefix_mobile ltac:(discriminate) B1 (owns_widget _ i)).
      apply Wk, form_prefix_whatsapp.
    - rewrite E2. reflexivity. }
  assert (V3 : facebook = entered (session_state s) "facebook"
                                  (option_map out_facebook_links record)).
  { apply (group_values "facebook" _ (session_state s) s2 facebook form_prefix_facebook).
    - rewrite (same_but_keeps "facebook" "whatsapp" s1 s2 _ form_prefix_facebook
                 form_prefix_whatsapp ltac:(discriminate) B2 (owns_count _)).
      rewrite (same_but_keeps "facebook" "mobile" s0 s1 _ form_prefix_facebook
                 form_prefix_mobile ltac:(discriminate) B1 (owns_count _)).
      apply C0, form_prefix_facebook.
    - intro i.
      rewrite (same_but_keeps "facebook" "whatsapp" s1 s2 _ form_prefix_facebook
                 form_prefix_whatsapp ltac:(discriminate) B2 (owns_widget _ i)).
      rewrite (same_but_keeps "facebook" "mobile" s0 s1 _ form_prefix_facebook
                 form_prefix_mobile ltac:(discriminate) B1 (owns_widget _ i)).
      apply Wk, form_prefix_facebook.
    - rewrite E3. reflexivity. }
  assert (V4 : website = entered (session_state s) "website"
                                 (option_map out_website_links record)).
  { apply (group_values "website" _ (session_state s) s3 website form_prefix_website).
    - rewrite (same_but_keeps "website" "facebook" s2 s3 _ form_prefix_website
                 form_prefix_facebook ltac:(discriminate) B3 (owns_count _)).
      rewrite (same_but_keeps "website" "whatsapp" s1 s2 _ form_prefix_website
                 form_prefix_whatsapp ltac:(discriminate) B2 (owns_count _)).
      rewrite (same_but_keeps "website" "mobile" s0 s1 _ form_prefix_website
                 form_prefix_mobile ltac:(discriminate) B1 (owns_count _)).
      apply C0, form_prefix_website.
    - intro i.
      rewrite (same_but_keeps "website" "facebook" s2 s3 _ form_prefix_website
                 form_prefix_facebook ltac:(discriminate) B3 (owns_widget _ i)).
      rewrite (same_but_keeps "website" "whatsapp" s1 s2 _ form_prefix_website
                 form_prefix_whatsapp ltac:(discriminate) B2 (owns_widget _ i)).
      rewrite (same_but_keeps "website" "mobile" s0 s1 _ form_prefix_website
                 form_prefix_mobile ltac:(discriminate) B1 (owns_widget _ i)).
      apply Wk, form_prefix_website.
    - rewrite E4. reflexivity. }
  clear E0 E1 E2 E3 E4 B1 B2 B3 C0 F0 Wk. subst mobile whatsapp facebook website.
  unfold on_submit in R.
  destruct (submit_clicked ui).
  - split; [reflexivity|].
    destruct (required_filled ui); cbn [negb] in R.
    + split; [reflexivity|].
      destruct (and_then_returned _ _ _ _ s4 _ R) as [image_data [s5 [_ R5]]].
      rewrite R5 in R. clear R5.
      destruct (extend_pdf_urls_spec (pdf_uploaded ui) (stored_pdf_urls record) s5)
        as [new_urls [s6 E6]].
      unfold and_then in R.
      change (match record with Some r0 => out_pdf_urls r0 | None => [] end)
        with (stored_pdf_urls record) in R.
      rewrite E6 in R. cbn [fst done] in R.
      exists image_data, new_urls. injection R as <-. reflexivity.
    + exfalso. cbn in R. discriminate.
  - exfalso.
    destruct (add_mobile_clicked ui), (add_whatsapp_clicked ui), (add_facebook_clicked ui),
      (add_website_clicked ui); cbn in R; discriminate.
Qed.

Lemma length_entered_group (ss : mapping) (p : string) (init : option (list string)) :
  (List.length (entered ss p init) <= Z.to_nat (shown_inputs ss p))%nat.
Proof. apply length_entered. Qed.

(** X21.  When [render_entry_form] returns a payload, the form was
    submitted with its six mandatory texts filled in, and the payload binds
    every key the data layer reads: the scalar keys to what the widgets
    give, each of the four contact lists to the non-empty values of the
    inputs the session shows for the group (as many as its count says, one
    when it has none, however many values the record holds), and
    [pdf_urls] to the urls of the record followed by the new ones.  So no
    contact value is empty, no list is longer than the count of its group,
    and no stored document url is left out. *)
Theorem render_entry_form_payload
    (record : option person_dict) (ui : entry_widgets) (s : state) (r : payload) :
  fst (render_entry_form record ui s) = Returned (Some r) ->
  submit_clicked ui = true
  /\ required_filled ui = true
  /\ (exists image_data new_urls,
        r = payload_of record ui (session_state s) image_data new_urls)
  /\ missing_key r = None
  /\ contains_key (pdf_urls r) = true
  /\ Forall (fun v => v <> "")
            (submitted (mobile_numbers r) ++ submitted (whatsapp_numbers r)
             ++ submitted (facebook_links r) ++ submitted (website_links r))
  /\ (List.length (submitted (mobile_numbers r))
      <= Z.to_nat (shown_inputs (session_state s) "mobile"))%nat
  /\ (List.length (submitted (whatsapp_numbers r))
      <= Z.to_nat (shown_inputs (session_state s) "whatsapp"))%nat
  /\ (List.length (submitted (facebook_links r))
      <= Z.to_nat (shown_inputs (session_state s) "facebook"))%nat
  /\ (List.length (submitted (website_links r))
      <= Z.to_nat (shown_inputs (session_state s) "website"))%nat.
Proof.
  intro R.
  destruct (render_entry_form_returns record ui s r R) as [S [F [image_data [new_urls E]]]].
  split; [exact S|]. split; [exact F|]. split; [exists image_data, new_urls; exact E|].
  subst r. unfold payload_of.
  cbn [missing_key contains_key full_name father_name mother_name dob gender nid
       permanent_address present_address pdf_urls mobile_numbers whatsapp_numbers
       facebook_links website_links submitted negb].
  split; [reflexivity|]. split; [reflexivity|]. split.
  - unfold entered. repeat (apply Forall_app; split); apply filter_nonempty.
  - repeat split; apply length_entered_group.
Qed.

Lemma render_entry_form_payload_witness :
  submit_clicked sample_entry = true
  /\ required_filled sample_entry = true
  /\ (exists image_data new_urls,
        payload_of None sample_entry (session_of sample_session) None []
        = payload_of None sample_entry
                     (session_state (state_of sample_session fresh_world))
                     image_data new_urls)
  /\ missing_key (payload_of None sample_entry (session_of sample_session) None []) = None
  /\ contains_key (pdf_urls (payload_of None sample_entry (session_of sample_session) None []))
     = true
  /\ Forall (fun v => v <> "")
            (submitted (mobile_numbers
                          (payload_of None sample_entry (session_of sample_session) None []))
             ++ submitted (whatsapp_numbers
                             (payload_of None sample_entry (session_of sample_session) None []))
             ++ submitted (facebook_links
                             (payload_of None sample_entry (session_of sample_session) None []))
             ++ submitted (website_links
                             (payload_of None sample_entry (session_of sample_session) None
                                         [])))
  /\ (List.length (submitted (mobile_numbers
                                (payload_of None sample_entry (session_of sample_session)
                                            None [])))
      <= Z.to_nat (shown_inputs (session_state (state_of sample_session fresh_world))
                                "mobile"))%nat
  /\ (List.length (submitted (whatsapp_numbers
                                (payload_of None sample_entry (session_of sample_session)
                                            None [])))
      <= Z.to_nat (shown_inputs (session_state (state_of sample_session fresh_world))
                                "whatsapp"))%nat
  /\ (List.length (submitted (facebook_links
                                (payload_of None sample_entry (session_of sample_session)
                                            None [])))
      <= Z.to_nat (shown_inputs (session_state (state_of sample_session fresh_world))
                                "facebook"))%nat
  /\ (List.length (submitted (website_links
                                (payload_of None sample_entry (session_of sample_session)
                                            None [])))
      <= Z.to_nat (shown_inputs (session_state (state_of sample_session fresh_world))
                                "website"))%nat.
Proof.
  apply (render_entry_form_payload None sample_entry (state_of sample_session fresh_world)
           (payload_of None sample_entry (session_of sample_session) None [])).
  vm_compute. reflexivity.
Defined.

Lemma forallb_app_true A (f : A -> bool) (l1 l2 : list A) :
  forallb f (l1 ++ l2) = true -> forallb f l1 = true /\ forallb f l2 = true.
Proof. rewrite forallb_app. apply andb_prop. Qed.

Lemma gender_text_fits (g : gender_option) : (String.length (gender_text g) <=? 50)%nat = true.
Proof. destruct g; reflexivity. Qed.

(** The payload of a form whose texts and contact values fit their columns
    is one the schema accepts. *)
Lemma payload_of_valid (record : option person_dict) (ui : entry_widgets) (ss : mapping)
    (image_data : option image) (new_urls : list string) :
  texts_fit ui = true ->
  contacts_fit record ss = true ->
  valid_payload (payload_of record ui ss image_data new_urls) = true.
Proof.
  unfold texts_fit, contacts_fit. intros T C.
  repeat (apply andb_prop in T; destruct T as [T ?]).
  apply forallb_app_true in C. destruct C as [C1 C].
  apply forallb_app_true in C. destruct C as [C2 C].
  apply forallb_app_true in C. destruct C as [C3 C4].
  unfold valid_payload, payload_of.
  cbn [full_name father_name mother_name dob gender nid voter_no permanent_address
       present_address mobile_numbers whatsapp_numbers facebook_links website_links pdf_urls
       text_within present values_within is_list].
  destruct (voter_no_text ui); cbn [bound get];
    rewrite T, C1, C2, C3, C4, gender_text_fits;
    repeat match goal with H : _ = true |- _ => rewrite H; clear H end;
    reflexivity.
Qed.

(** X22.  The form and the data layer fit together: when the entry form of
    the Data Entry page returns a payload whose texts and contact values
    fit their columns, [add_record] of it, on a database that satisfies its
    constraints and a healthy connection, returns the next id and stores one
    more person, with the texts, the date and the option of the widgets and
    the image of the payload; the contact values stored for that person are
    the non-empty values the form showed, group by group, and its document
    urls are the [pdf_urls] of the payload. *)
Theorem form_payload_is_stored (ui : entry_widgets) (s : state) (r : payload) (w : world) :
  fst (render_entry_form None ui s) = Returned (Some r) ->
  texts_fit ui = true ->
  contacts_fit None (session_state s) = true ->
  wf (store w) ->
  no_fault w ->
  let id := next_person_id (store w) in
  let after := store (snd (add_record r w)) in
  fst (add_record r w) = Some id
  /\ person_rows after
     = (person_rows (store w)
        ++ [mk_person id (full_name_text ui) (father_name_text ui) (mother_name_text ui)
                      (dob_picked ui) (gender_text (gender_picked ui)) (nid_text ui)
                      (voter_no_text ui) (permanent_address_text ui)
                      (present_address_text ui) (get (image_data r)) (description_text ui)
                      (clock w)])%list
  /\ pdf_values after id = submitted (pdf_urls r)
  /\ contact_values after id "mobile" = entered (session_state s) "mobile" None
  /\ contact_values after id "whatsapp" = entered (session_state s) "whatsapp" None
  /\ contact_values after id "facebook" = entered (session_state s) "facebook" None
  /\ contact_values after id "website" = entered (session_state s) "website" None.
Proof.
  intros R T C W F. cbv zeta.
  destruct (render_entry_form_returns None ui s r R) as [_ [_ [img [new_urls E]]]].
  pose proof (payload_of_valid None ui (session_state s) img new_urls T C) as V.
  rewrite <- E in V.
  rewrite (add_record_ok r w (wf_has_tables _ W) V F). cbn [fst snd store].
  destruct (added_values r (clock w) _ W) as (A1 & A2 & A3 & A4 & A5).
  split; [reflexivity|]. split; [|split; [exact A5|]].
  - rewrite (person_rows_added r (clock w) _ (wf_has_tables _ W)).
    subst r. unfold row_of, payload_of. cbn.
    destruct (voter_no_text ui), img, (description_text ui); reflexivity.
  - rewrite A1, A2, A3, A4. subst r. repeat split; reflexivity.
Qed.

Lemma form_payload_is_stored_witness :
  let r := payload_of None entry_with_document (session_of sample_session) None
                      ["https://i.example/u1.png"] in
  let id := next_person_id (store sample_world) in
  let after := store (snd (add_record r sample_world)) in
  submitted (pdf_urls r) = ["https://i.example/u1.png"]
  /\ fst (add_record r sample_world) = Some id
  /\ person_rows after
     = (person_rows (store sample_world)
        ++ [mk_person id (full_name_text entry_with_document)
                      (father_name_text entry_with_document)
                      (mother_name_text entry_with_document) (dob_picked entry_with_document)
                      (gender_text (gender_picked entry_with_document))
                      (nid_text entry_with_document) (voter_no_text entry_with_document)
                      (permanent_address_text entry_with_document)
                      (present_address_text entry_with_document) (get (image_data r))
                      (description_text entry_with_document) (clock sample_world)])%list
  /\ pdf_values after id = submitted (pdf_urls r)
  /\ contact_values after id "mobile" = entered (session_state uploading_state) "mobile" None
  /\ contact_values after id "whatsapp"
     = entered (session_state uploading_state) "whatsapp" None
  /\ contact_values after id "facebook"
     = entered (session_state uploading_state) "facebook" None
  /\ contact_values after id "website" = entered (session_state uploading_state) "website" None.
Proof.
  split; [reflexivity|].
  apply (form_payload_is_stored entry_with_document uploading_state
           (payload_of None entry_with_document (session_of sample_session) None
                       ["https://i.example/u1.png"]) sample_world).
  - vm_compute. reflexivity.
  - reflexivity.
  - vm_compute. reflexivity.
  - exact wf_sample_world.
  - reflexivity.
Defined.

(** * The login gate *)

(** [init_auth()] followed by [login_form()], case by case. *)
Lemma login_gate_run (password : string) (login_clicked : bool) (s : state) :
  and_then init_auth (fun _ => login_form password login_clicked) s
  = let ss0 := if has_key "authenticated" (session_state s) then session_state s
               else set_item "authenticated" (VBool false) (session_state s) in
    let s0 := mk_state ss0 (secrets s) (imgbb s) (database s) (screen s) in
    let v := get_item "authenticated" ss0 in
    if truthy v then (Returned (VBool true), s0)
    else if login_clicked then
           match secrets s "WEB_PASS" with
           | None => (Raised (Python (KeyError "WEB_PASS")), s0)
           | Some pass =>
               if equals_str password pass then
                 (Rerun,
                  mk_state (set_item "authenticated" (VBool true) ss0) (secrets s) (imgbb s)
                           (database s)
                           (screen s ++ [st_success "Successfully logged in!"]))
               else
                 (Returned v,
                  mk_state ss0 (secrets s) (imgbb s) (database s)
                           (screen s ++ [st_error "Incorrect password"]))
           end
         else (Returned v, s0).
Proof.
  destruct s as [ss sec h w scr]. cbv zeta.
  unfold init_auth, login_form, authenticated.
  unfold and_then, secret, assign, show, st_rerun, done, raise, read_session, has_key,
    get_item.
  cbn [session_state secrets imgbb database screen].
  destruct (ss "authenticated") as [v|] eqn:A; [destruct (truthy v) eqn:T|];
    destruct login_clicked;
    destruct (sec "WEB_PASS") as [pass|] eqn:S;
    try destruct (equals_str password pass) eqn:Q;
    repeat (progress (cbn [session_state secrets imgbb database screen truthy];
                      rewrite ?A, ?T, ?S, ?Q, ?set_item_same));
    reflexivity.
Qed.

Lemma no_new_card_refl (s : state) : no_new_card (screen s) s.
Proof. exists []. rewrite app_nil_r. split; constructor. Qed.

(** The ways [init_auth()] followed by [login_form()] ends. *)
Lemma login_gate (password : string) (login_clicked : bool) (s : state) :
  let run := and_then init_auth (fun _ => login_form password login_clicked) s in
  secrets (snd run) = secrets s /\ imgbb (snd run) = imgbb s
  /\ database (snd run) = database s
  /\ no_new_card (screen s) (snd run)
  /\ logged_in (snd run) = logged_in s || right_password password login_clicked s
  /\ if logged_in s then
       fst run = Returned (VBool true) /\ screen (snd run) = screen s
       /\ forall k, k <> "authenticated" -> session_state (snd run) k = session_state s k
     else match fst run with
          | Returned v => truthy v = false /\ right_password password login_clicked s = false
          | Rerun => right_password password login_clicked s = true
          | Stopped => False
          | Raised e =>
              e = Python (KeyError "WEB_PASS") /\ login_clicked = true
              /\ secrets s "WEB_PASS" = None
          end.
Proof.
  cbv zeta. rewrite login_gate_run. cbv zeta.
  unfold logged_in, right_password, has_key, get_item.
  destruct s as [ss sec h w scr]. cbn [session_state secrets imgbb database screen].
  destruct (ss "authenticated") as [v|] eqn:A.
  - rewrite A. destruct (truthy v) eqn:T.
    + cbn [fst snd session_state secrets imgbb database screen]. rewrite A, T.
      repeat split. apply (no_new_card_refl (mk_state ss sec h w scr)).
    + destruct login_clicked; cbn [andb orb].
      * destruct (sec "WEB_PASS") as [pass|].
        -- destruct (equals_str password pass);
             cbn [fst snd session_state secrets imgbb database screen];
             rewrite ?set_item_same, ?A, ?T; repeat split;
             eexists; (split; [reflexivity|]); repeat constructor.
        -- cbn [fst snd session_state secrets imgbb database screen]. rewrite A, T.
           repeat split. apply (no_new_card_refl (mk_state ss sec h w scr)).
      * cbn [fst snd session_state secrets imgbb database screen]. rewrite A, T.
        repeat split. apply (no_new_card_refl (mk_state ss sec h w scr)).
  - rewrite set_item_same. cbn [truthy].
    destruct login_clicked; cbn [andb orb].
    + destruct (sec "WEB_PASS") as [pass|].
      * destruct (equals_str password pass);
          cbn [fst snd session_state secrets imgbb database screen truthy];
          rewrite ?set_item_same; repeat split;
          eexists; (split; [reflexivity|]); repeat constructor.
      * cbn [fst snd session_state secrets imgbb database screen truthy].
        rewrite ?set_item_same. repeat split.
        apply (no_new_card_refl (mk_state ss sec h w scr)).
    + cbn [fst snd session_state secrets imgbb database screen truthy].
      rewrite ?set_item_same. repeat split.
      apply (no_new_card_refl (mk_state ss sec h w scr)).
Qed.


(** * Script runs: what an action keeps *)

Lemma stays_done A (I : state -> Prop) (a : A) : stays I (done a).
Proof. intros s H. exact H. Qed.

Lemma stays_and_then A B (I : state -> Prop) (c : action A) (k : A -> action B) :
  stays I c -> (forall a, stays I (k a)) -> stays I (and_then c k).
Proof.
  intros C K s H. unfold and_then. specialize (C s H).
  destruct (c s) as [[a| | |e] s1]; cbn [snd] in *; try exact C.
  apply K, C.
Qed.

Lemma stays_try_except A (I : state -> Prop) (body : action A) (handler : ui_exn -> action A) :
  stays I body -> (forall e, stays I (handler e)) -> stays I (try_except body handler).
Proof.
  intros C K s H. unfold try_except. specialize (C s H).
  destruct (body s) as [[a| | |e] s1]; cbn [snd] in *; try exact C.
  apply K, C.
Qed.

Lemma stays_for_loop A (I : state -> Prop) (l : list A) (body : A -> action unit) :
  (forall x, stays I (body x)) -> stays I (for_loop l body).
Proof.
  intro B. induction l as [|x rest IH]; cbn [for_loop].
  - apply stays_done.
  - apply stays_and_then; [apply B|]. intros _. exact IH.
Qed.

Lemma stays_if A (I : state -> Prop) (b : bool) (x y : action A) :
  stays I x -> stays I y -> stays I (if b then x else y).
Proof. destruct b; auto. Qed.

Lemma stays_assign (I : state -> Prop) (key : string) (v : pyval) :
  outward I -> stays I (assign key v).
Proof. intros O s H. apply (O s); [reflexivity|reflexivity|exact H]. Qed.

Lemma stays_read_session (I : state -> Prop) : stays I read_session.
Proof. intros s H. exact H. Qed.

Lemma stays_st_rerun A (I : state -> Prop) : stays I (@st_rerun A).
Proof. intros s H. exact H. Qed.

Lemma stays_st_stop A (I : state -> Prop) : stays I (@st_stop A).
Proof. intros s H. exact H. Qed.

Lemma stays_raise A (I : state -> Prop) (e : ui_exn) : stays I (@raise A e).
Proof. intros s H. exact H. Qed.

Lemma stays_secret (I : state -> Prop) (key : string) : stays I (secret key).
Proof. intros s H. unfold secret. destruct (secrets s key); exact H. Qed.

Lemma stays_on_host A (I : state -> Prop) (f : host -> A * host) :
  outward I -> stays I (on_host f).
Proof.
  intros O s H. unfold on_host. destruct (f (imgbb s)) as [a h].
  apply (O s); [reflexivity|reflexivity|exact H].
Qed.

Lemma stays_text_input (I : state -> Prop) (value key : string) :
  outward I -> stays I (text_input value key).
Proof. intros O s H. apply (O s); [reflexivity|reflexivity|exact H]. Qed.

Lemma stays_inputs_loop (I : state -> Prop) (p : string) (init : option (list string))
    (indices : list nat) :
  outward I -> forall values, stays I (inputs_loop p init indices values).
Proof.
  intro O. induction indices as [|i rest IH]; intro values; cbn [inputs_loop].
  - apply stays_done.
  - apply stays_and_then; [apply stays_text_input, O|]. intro v. apply IH.
Qed.

Lemma stays_render_multiple_inputs (I : state -> Prop) (p : string)
    (init : option (list string)) :
  outward I -> stays I (render_multiple_inputs p init).
Proof.
  intro O. unfold render_multiple_inputs.
  apply stays_and_then; [apply stays_read_session|]. intro ss.
  destruct (inputs_of p init ss); [|apply stays_raise].
  apply stays_and_then; [apply stays_inputs_loop, O|]. intro values.
  apply stays_and_then; [apply stays_read_session|]. intro ss1.
  apply stays_if; [|apply stays_done].
  apply stays_and_then; [apply stays_assign, O|]. intros _.
  apply stays_and_then; [apply stays_assign, O|]. intros _.
  apply stays_st_rerun.
Qed.

Lemma stays_init_key (I : state -> Prop) (key : string) (v : pyval) :
  outward I -> stays I (init_key key v).
Proof.
  intro O. unfold init_key.
  apply stays_and_then; [apply stays_read_session|]. intro ss.
  apply stays_if; [apply stays_done|apply stays_assign, O].
Qed.

Lemma stays_extend_pdf_urls (I : state -> Prop) (files : list pdf_file) :
  outward I -> forall pdf_urls, stays I (extend_pdf_urls files pdf_urls).
Proof.
  intro O. induction files as [|file rest IH]; intro pdf_urls; cbn [extend_pdf_urls].
  - apply stays_done.
  - apply stays_and_then; [apply stays_on_host, O|]. intro new. apply IH.
Qed.

Lemma outward_no_new_card (before : list message) : outward (no_new_card before).
Proof.
  intros s s' _ S [msgs [E F]]. exists msgs. rewrite S. split; assumption.
Qed.

Lemma stays_show (before : list message) (m : message) :
  is_card m = false -> stays (no_new_card before) (show m).
Proof.
  intros M s [msgs [E F]]. exists (msgs ++ [m])%list. cbn. rewrite E, app_assoc.
  split; [reflexivity|]. apply Forall_app. split; [exact F|]. repeat constructor. exact M.
Qed.

Lemma stays_on_database A (before : list message) (f : world -> A * world) :
  stays (no_new_card before) (on_database f).
Proof.
  intros s [msgs [E F]]. unfold on_database. destruct (f (database s)) as [a w].
  exists msgs. split; assumption.
Qed.

Lemma stays_render_entry_form (before : list message) (record : option person_dict)
    (ui : entry_widgets) :
  stays (no_new_card before) (render_entry_form record ui).
Proof.
  pose proof (outward_no_new_card before) as O.
  unfold render_entry_form, init_counts.
  apply stays_and_then.
  { apply stays_for_loop. intro p.
    apply stays_and_then; [apply stays_read_session|]. intro ss.
    apply stays_if; [apply stays_done|apply stays_assign, O]. }
  intros _.
  do 4 (apply stays_and_then; [apply stays_render_multiple_inputs, O|]; intro).
  unfold on_submit.
  apply stays_if.
  - apply stays_if.
    + apply stays_and_then; [apply stays_show; reflexivity|]. intros _. apply stays_done.
    + apply stays_and_then.
      { destruct (image_uploaded ui); [apply stays_on_host, O|apply stays_done]. }
      intro image_data.
      apply stays_and_then; [apply stays_extend_pdf_urls, O|]. intro pdf_urls.
      apply stays_done.
  - repeat (apply stays_and_then;
            [apply stays_if; [apply stays_assign, O|apply stays_done]|]; intros _).
    apply stays_done.
Qed.

Lemma stays_data_entry_page (before : list message) (i : inputs) :
  stays (no_new_card before) (data_entry_page i).
Proof.
  unfold data_entry_page. apply stays_try_except.
  - apply stays_and_then; [apply stays_render_entry_form|]. intros [record|].
    + apply stays_and_then; [apply stays_on_database|]. intros [id|].
      * apply stays_and_then; [apply stays_show; reflexivity|]. intros _.
        apply stays_st_rerun.
      * apply stays_show. reflexivity.
    + apply stays_done.
  - intro e. apply stays_show. reflexivity.
Qed.

(** * The script [app.py] *)

Lemma create_tables_store (w : world) :
  fst (create_tables w) = Ok tt -> store (snd (create_tables w)) = fresh_db.
Proof.
  unfold create_tables.
  pose proof (run_result unit (fun _ => _create_tables) w) as R.
  pose proof (run_returns unit (fun _ => _create_tables) w) as N.
  destruct (execute_with_retry (fun _ => _create_tables) 3 w) as [[[[]|]|e] w'];
    cbn [fst snd] in *; try discriminate; try congruence.
  intros _. destruct (R tt eq_refl) as [now H].
  rewrite _create_tables_fresh in H. congruence.
Qed.

Lemma get_all_records_fresh (w : world) :
  store w = fresh_db ->
  fst (get_all_records w) = [] /\ store (snd (get_all_records w)) = fresh_db.
Proof.
  intro S. unfold get_all_records.
  pose proof (run_result _ (fun _ => _get_all_records) w) as R.
  pose proof (run_reads _ (fun _ => _get_all_records) w (fun _ => _get_all_records_reads))
    as K.
  destruct (execute_with_retry (fun _ => _get_all_records) 3 w) as [[[l|]|e] w'];
    cbn [fst snd or_empty] in *; rewrite K, S; split; try reflexivity.
  destruct (R l eq_refl) as [now H]. rewrite S in H.
  change (_get_all_records fresh_db) with (@Ok (list person_dict * db) ([], fresh_db)) in H.
  congruence.
Qed.

Lemma search_records_fresh (query : string) (w : world) :
  store w = fresh_db ->
  fst (search_records query w) = [] /\ store (snd (search_records query w)) = fresh_db.
Proof.
  intro S. unfold search_records.
  pose proof (run_result _ (fun _ => _search_records query) w) as R.
  pose proof (run_reads _ (fun _ => _search_records query) w
                (fun _ => _search_records_reads query)) as K.
  destruct (execute_with_retry (fun _ => _search_records query) 3 w) as [[[l|]|e] w'];
    cbn [fst snd or_empty] in *; rewrite K, S; split; try reflexivity.
  destruct (R l eq_refl) as [now H]. rewrite S in H. unfold _search_records in H.
  destruct (like_pattern (lower ("%" ++ query ++ "%"))) as [pattern|];
    [|discriminate].
  change (Ok ([], fresh_db) = Ok (l, store w')) in H. congruence.
Qed.

Lemma and_then_from A B (I Q : state -> Prop) (c : action A) (k : A -> action B) :
  stays I c ->
  (forall s, I s -> Q s) ->
  (forall a s, I s -> Q (snd (k a s))) ->
  forall s, I s -> Q (snd (and_then c k s)).
Proof.
  intros C W K s H. unfold and_then. specialize (C s H).
  destruct (c s) as [[a| | |e] s1]; cbn [snd] in *; auto.
Qed.

Lemma outward_on_fresh_tables (before : list message) : outward (on_fresh_tables before).
Proof.
  intros s s' D S [N F]. split; [apply (outward_no_new_card before s s' D S N)|].
  rewrite D. exact F.
Qed.

Lemma view_records_page_quiet (before : list message) (i : inputs) (s : state) :
  on_fresh_tables before s -> no_new_card before (snd (view_records_page i s)).
Proof.
  intros [N F]. unfold view_records_page, try_except, and_then, on_database.
  destruct (get_all_records_fresh (database s) F) as [G _].
  destruct (get_all_records (database s)) as [records w]. cbn [fst] in G. subst records.
  cbn. destruct N as [msgs [E M]]. eexists (msgs ++ [_])%list.
  rewrite E, app_assoc. split; [reflexivity|].
  apply Forall_app. split; [exact M|]. repeat constructor.
Qed.

Lemma search_page_quiet (before : list message) (i : inputs) (s : state) :
  on_fresh_tables before s -> no_new_card before (snd (search_page i s)).
Proof.
  intros [N F]. unfold search_page. destruct (nonempty (search_text i)); [|exact N].
  unfold try_except, and_then, on_database.
  destruct (search_records_fresh (search_text i) (database s) F) as [G _].
  destruct (search_records (search_text i) (database s)) as [records w].
  cbn [fst] in G. subst records.
  cbn. destruct N as [msgs [E M]]. eexists (msgs ++ [_])%list.
  rewrite E, app_assoc. split; [reflexivity|].
  apply Forall_app. split; [exact M|]. repeat constructor.
Qed.

Lemma data_management_page_quiet (before : list message) (i : inputs) (s : state) :
  on_fresh_tables before s -> no_new_card before (snd (data_management_page i s)).
Proof.
  intros [N F]. unfold data_management_page.
  pose proof (outward_no_new_card before) as O.
  apply (and_then_from _ _ (no_new_card before) (no_new_card before)).
  - apply stays_try_except; [|intro e; apply stays_show; reflexivity].
    apply stays_and_then; [apply stays_on_database|]. intro records.
    destruct records as [|r rs]; [apply stays_show; reflexivity|].
    apply stays_for_loop. intro record.
    apply stays_if; [|apply stays_done].
    apply stays_and_then; [apply stays_on_database|]. intros [[|]|];
      first [apply stays_show; reflexivity
            |apply stays_and_then; [apply stays_show; reflexivity|]; intros _;
             apply stays_st_rerun].
  - auto.
  - intros _ s0 H0. revert s0 H0.
    apply stays_and_then; [apply stays_if; [apply stays_assign, O|apply stays_done]|].
    intros _. apply stays_and_then; [apply stays_read_session|]. intro ss.
    destruct (ss "show_delete_confirmation") as [v|]; [|apply stays_raise].
    apply stays_if; [|apply stays_done].
    apply stays_and_then; [apply stays_show; reflexivity|]. intros _.
    apply stays_and_then.
    + apply stays_if; [|apply stays_done]. apply stays_try_except.
      * apply stays_and_then; [apply stays_on_database|]. intros [[|]|];
          first [apply stays_show; reflexivity
                |apply stays_and_then; [apply stays_show; reflexivity|]; intros _;
                 apply stays_and_then; [apply stays_assign, O|]; intros _;
                 apply stays_st_rerun].
      * intro e. apply stays_show. reflexivity.
    + intros _. apply stays_if; [|apply stays_done].
      apply stays_and_then; [apply stays_assign, O|]. intros _. apply stays_st_rerun.
  - exact N.
Qed.

Lemma stays_logout (I : state -> Prop) : outward I -> stays I logout.
Proof.
  intro O. unfold logout, authenticated.
  apply stays_and_then.
  - apply stays_and_then; [apply stays_read_session|]. intro ss.
    destruct (ss "authenticated"); [apply stays_done|apply stays_raise].
  - intro v. apply stays_if; [apply stays_assign, O|apply stays_done].
Qed.

Lemma db_create_tables_cases (before : list message) (s : state) :
  no_new_card before s ->
  match db_create_tables s with
  | (Returned _, s1) => on_fresh_tables before s1
  | (_, s1) => no_new_card before s1
  end.
Proof.
  intro N. unfold db_create_tables, and_then, on_database.
  pose proof (create_tables_store (database s)) as C.
  destruct (create_tables (database s)) as [[[]|e] w1]; cbn [fst snd] in *.
  - split; [|apply C; reflexivity].
    destruct N as [msgs [E M]]. exists msgs. split; assumption.
  - destruct N as [msgs [E M]]. exists msgs. split; assumption.
Qed.

Lemma no_new_card_of_fresh (before : list message) (s : state) :
  on_fresh_tables before s -> no_new_card before s.
Proof. intros [N _]. exact N. Qed.

Lemma main_content_quiet (before : list message) (i : inputs) (s : state) :
  no_new_card before s -> no_new_card before (snd (main_content i s)).
Proof.
  intro N. unfold main_content. unfold and_then at 1.
  pose proof (db_create_tables_cases before s N) as C.
  pose proof (outward_on_fresh_tables before) as O.
  destruct (db_create_tables s) as [[[]| | |e] s1]; cbn [snd]; try exact C.
  revert s1 C.
  apply (and_then_from _ _ (on_fresh_tables before) (no_new_card before));
    [apply stays_init_key, O|apply no_new_card_of_fresh|intros _].
  apply (and_then_from _ _ (on_fresh_tables before) (no_new_card before));
    [apply stays_init_key, O|apply no_new_card_of_fresh|intros _].
  apply (and_then_from _ _ (on_fresh_tables before) (no_new_card before));
    [apply stays_init_key, O|apply no_new_card_of_fresh|intros _].
  apply (and_then_from _ _ (on_fresh_tables before) (no_new_card before));
    [apply stays_assign, O|apply no_new_card_of_fresh|intros _].
  apply (and_then_from _ _ (on_fresh_tables before) (no_new_card before));
    [|apply no_new_card_of_fresh|intros _].
  - apply stays_if; [|apply stays_done].
    apply stays_and_then; [apply stays_logout, O|]. intros _. apply stays_st_rerun.
  - intros s1 C. destruct (page_picked i).
    + apply stays_data_entry_page, C.
    + apply view_records_page_quiet, C.
    + apply search_page_quiet, C.
    + apply data_management_page_quiet, C.
Qed.

Lemma and_then_assoc A B C (c : action A) (k1 : A -> action B) (k2 : B -> action C)
    (s : state) :
  and_then (and_then c k1) k2 s = and_then c (fun a => and_then (k1 a) k2) s.
Proof. unfold and_then. destruct (c s) as [[a| | |e] s1]; reflexivity. Qed.

Lemma app_run (i : inputs) (s : state) :
  app_script i s
  = match and_then init_auth (fun _ => login_form (password_text i) (login_button i)) s with
    | (Returned v, s1) => (if negb (truthy v) then st_stop else main_content i) s1
    | (Rerun, s1) => (Rerun, s1)
    | (Stopped, s1) => (Stopped, s1)
    | (Raised e, s1) => (Raised e, s1)
    end.
Proof. unfold app_script. rewrite <- and_then_assoc. reflexivity. Qed.

(** X24.  A run of the script never puts the card of a record on the page:
    whatever the session, the inputs, the database and the faults of the
    connection, what the run adds to the screen holds no record card.  A
    run that is let through the login gate starts with [create_tables()],
    so what [get_all_records] and [search_records] find is the empty list
    (or nothing, when they fail). *)
Theorem app_never_shows_a_record (i : inputs) (s : state) :
  exists msgs : list message,
    screen (snd (app_script i s)) = (screen s ++ msgs)%list
    /\ Forall (fun m => is_card m = false) msgs.
Proof.
  change (no_new_card (screen s) (snd (app_script i s))).
  rewrite app_run.
  pose proof (login_gate (password_text i) (login_button i) s) as G. cbv zeta in G.
  destruct G as [_ [_ [_ [N _]]]].
  destruct (and_then init_auth (fun _ => login_form (password_text i) (login_button i)) s)
    as [[v| | |e] s1]; cbn [snd] in *; try exact N.
  destruct (negb (truthy v)); [exact N|].
  apply main_content_quiet, N.
Qed.

(** A run on a session that is not logged in, once the module [database]
    is loaded. *)
Lemma app_script_logged_out (i : inputs) (s : state) :
  logged_in s = false ->
  database (snd (app_script i s)) = database s
  /\ imgbb (snd (app_script i s)) = imgbb s
  /\ match fst (app_script i s) with
     | Returned _ => False
     | Rerun => right_password (password_text i) (login_button i) s = true
     | Stopped => right_password (password_text i) (login_button i) s = false
     | Raised e => e = Python (KeyError "WEB_PASS") /\ login_button i = true
     end.
Proof.
  intro L. rewrite app_run.
  pose proof (login_gate (password_text i) (login_button i) s) as G. cbv zeta in G.
  destruct G as [_ [H [D [_ [_ G]]]]]. rewrite L in G.
  destruct (and_then init_auth (fun _ => login_form (password_text i) (login_button i)) s)
    as [[v| | |e] s1]; cbn [fst snd] in *.
  - destruct G as [T R]. rewrite T. cbn. repeat split; assumption.
  - repeat split; assumption.
  - contradiction.
  - destruct G as [E [C _]]. repeat split; assumption.
Qed.

(** What the import of [database] leaves: the session, the secrets, the
    image host and the screen as they were, and the database as
    [create_tables] leaves it when the pool could be built. *)
Lemma import_database_run (p : pool_state) (s : state) :
  session_state (snd (import_database p s)) = session_state s
  /\ imgbb (snd (import_database p s)) = imgbb s
  /\ database (snd (import_database p s))
     = match fst (init_connection_pool (without_pool p)) with
       | Ok _ => snd (create_tables (database s))
       | Raise _ => database s
       end
  /\ match fst (import_database p s) with
     | Returned _ =>
         fst (init_connection_pool (without_pool p)) = Ok tt
         /\ fst (create_tables (database s)) = Ok tt
     | Raised _ => True
     | _ => False
     end.
Proof.
  unfold import_database.
  destruct (fst (init_connection_pool (without_pool p))) as [[]|e].
  - unfold db_create_tables, and_then, on_database.
    destruct (create_tables (database s)) as [[[]|e] w1]; cbn; repeat split.
  - cbn. repeat split.
Qed.

(** X25.  A run of the script on a session that is not logged in does not
    reach the page code, and the only thing that touches the database is the
    import of the module [database] on the first run of a process.  In a
    process that has the module loaded, the database and the image host are
    left as they were, whatever the inputs, and the run stops at the login
    form, or restarts when the right password was given, or raises when the
    secret is missing.  On the first run of a process [Database()] runs
    before the login form: when the pool can be built the database is then
    as [create_tables] leaves it (the three tables dropped and created again
    when it succeeds), and as it was otherwise; the image host is not
    touched, and the run does not come to its end either. *)
Theorem app_needs_login (p : pool_state) (i : inputs) (s : state) :
  logged_in s = false ->
  database (snd (app_script i s)) = database s
  /\ imgbb (snd (app_script i s)) = imgbb s
  /\ match fst (app_script i s) with
     | Returned _ => False
     | Rerun => right_password (password_text i) (login_button i) s = true
     | Stopped => right_password (password_text i) (login_button i) s = false
     | Raised e => e = Python (KeyError "WEB_PASS") /\ login_button i = true
     end
  /\ database (snd (first_run p i s))
     = match fst (init_connection_pool (without_pool p)) with
       | Ok _ => snd (create_tables (database s))
       | Raise _ => database s
       end
  /\ imgbb (snd (first_run p i s)) = imgbb s
  /\ match fst (first_run p i s) with
     | Returned _ => False
     | _ => True
     end.
Proof.
  intro L.
  destruct (app_script_logged_out i s L) as [D [H O]].
  split; [exact D|]. split; [exact H|]. split; [exact O|].
  destruct (import_database_run p s) as [S1 [H1 [D1 O1]]].
  unfold first_run, and_then.
  destruct (import_database p s) as [[[]| | |e] s1]; cbn [fst snd] in *;
    try contradiction; try (repeat split; assumption).
  assert (L1 : logged_in s1 = false) by (unfold logged_in in *; rewrite S1; exact L).
  destruct (app_script_logged_out i s1 L1) as [D2 [H2 O2]].
  rewrite D2, H2, D1, H1. split; [reflexivity|]. split; [reflexivity|].
  destruct (fst (app_script i s1)); [contradiction|exact I|exact I|exact I].
Qed.

Lemma app_needs_login_witness :
  person_rows (store (database logged_out_state)) <> []
  /\ store (database (snd (first_run working_pool (visit View_records) logged_out_state)))
     = fresh_db
  /\ database (snd (app_script (visit View_records) logged_out_state))
     = database logged_out_state
  /\ imgbb (snd (app_script (visit View_records) logged_out_state)) = imgbb logged_out_state
  /\ match fst (app_script (visit View_records) logged_out_state) with
     | Returned _ => False
     | Rerun =>
         right_password (password_text (visit View_records))
                        (login_button (visit View_records)) logged_out_state = true
     | Stopped =>
         right_password (password_text (visit View_records))
                        (login_button (visit View_records)) logged_out_state = false
     | Raised e =>
         e = Python (KeyError "WEB_PASS") /\ login_button (visit View_records) = true
     end
  /\ database (snd (first_run working_pool (visit View_records) logged_out_state))
     = match fst (init_connection_pool (without_pool working_pool)) with
       | Ok _ => snd (create_tables (database logged_out_state))
       | Raise _ => database logged_out_state
       end
  /\ imgbb (snd (first_run working_pool (visit View_records) logged_out_state))
     = imgbb logged_out_state
  /\ match fst (first_run working_pool (visit View_records) logged_out_state) with
     | Returned _ => False
     | _ => True
     end.
Proof.
  split; [discriminate|]. split; [vm_compute; reflexivity|].
  apply (app_needs_login working_pool (visit View_records) logged_out_state). reflexivity.
Defined.

Lemma same_but_refl (keys : string -> Prop) (s : state) : same_but keys s s.
Proof. repeat split. Qed.

Lemma same_but_trans (keys : string -> Prop) (s1 s2 s3 : state) :
  same_but keys s1 s2 -> same_but keys s2 s3 -> same_but keys s1 s3.
Proof.
  intros (A1 & A2 & A3 & A4 & A5) (B1 & B2 & B3 & B4 & B5).
  repeat split; try congruence.
  intros k K. rewrite (B5 k K). apply A5, K.
Qed.

Lemma same_but_assign (keys : string -> Prop) (key : string) (v : pyval) (s : state) :
  keys key ->
  same_but keys s (mk_state (set_item key v (session_state s)) (secrets s) (imgbb s)
                            (database s) (screen s)).
Proof.
  intro K. repeat split. intros k N. cbn [session_state]. apply set_item_other.
  intro E. apply N. rewrite E. exact K.
Qed.

Lemma init_key_session (key : string) (v : pyval) (s : state) :
  script_key key ->
  exists s', init_key key v s = (Returned tt, s') /\ same_but script_key s s'.
Proof.
  intro K. unfold init_key, and_then, read_session.
  destruct (has_key key (session_state s)).
  - exists s. split; [reflexivity|apply same_but_refl].
  - eexists. split; [reflexivity|]. apply same_but_assign, K.
Qed.

(** The script between [db.create_tables()] and the page, when Logout is
    not clicked. *)
Lemma page_setup (v : pyval) (k : action unit) (s : state) :
  exists s',
    same_but script_key s s'
    /\ (init_key "current_page" (VStr "entry") >>
        init_key "editing_record" VNone >>
        init_key "show_delete_confirmation" (VBool false) >>
        assign "current_page" v >>
        done tt >> k) s
       = k s'.
Proof.
  unfold and_then at 1.
  destruct (init_key_session "current_page" (VStr "entry") s) as [s1 [E1 O1]];
    [right; left; reflexivity|]. rewrite E1.
  unfold and_then at 1.
  destruct (init_key_session "editing_record" VNone s1) as [s2 [E2 O2]];
    [right; right; left; reflexivity|]. rewrite E2.
  unfold and_then at 1.
  destruct (init_key_session "show_delete_confirmation" (VBool false) s2) as [s3 [E3 O3]];
    [right; right; right; left; reflexivity|].
  rewrite E3.
  eexists. split; [|reflexivity].
  apply (same_but_trans script_key s s3);
    [|apply same_but_assign; right; left; reflexivity].
  apply (same_but_trans script_key s s2); [|exact O3].
  apply (same_but_trans script_key s s1); assumption.
Qed.

Lemma db_create_tables_ok (s : state) :
  no_fault (database s) ->
  db_create_tables s
  = (Returned tt,
     mk_state (session_state s) (secrets s) (imgbb s)
              (mk_world fresh_db (clock (database s)) (tl (faults (database s)))
                        (log (database s) ++ calls_of_success))
              (screen s)).
Proof.
  intro NF. unfold db_create_tables, and_then, on_database, create_tables.
  rewrite (run_ok unit (fun _ => _create_tables) (database s) tt fresh_db NF
             (_create_tables_fresh _)).
  reflexivity.
Qed.

(** The script from [db.create_tables()] to the page, on a healthy
    connection and without Logout. *)
Lemma main_content_page (i : inputs) (s : state) :
  logout_button i = false ->
  no_fault (database s) ->
  exists s',
    main_content i s
    = match page_picked i with
      | Data_entry => data_entry_page i
      | View_records => view_records_page i
      | Search => search_page i
      | Data_management => data_management_page i
      end s'
    /\ secrets s' = secrets s /\ imgbb s' = imgbb s /\ screen s' = screen s
    /\ database s' = mk_world fresh_db (clock (database s)) (tl (faults (database s)))
                              (log (database s) ++ calls_of_success)
    /\ forall k, ~ script_key k -> session_state s' k = session_state s k.
Proof.
  intros O NF. unfold main_content. rewrite O.
  unfold and_then at 1. rewrite (db_create_tables_ok s NF).
  match goal with
  | |- context [and_then _ (fun _ => and_then _ (fun _ => and_then _ (fun _ =>
                  and_then (assign _ ?v) (fun _ => and_then _ (fun _ => ?k)))))] =>
      destruct (page_setup v k
                  (mk_state (session_state s) (secrets s) (imgbb s)
                            (mk_world fresh_db (clock (database s))
                                      (tl (faults (database s)))
                                      (log (database s) ++ calls_of_success))
                            (screen s)))
        as [s' [(S1 & S2 & S3 & S4 & S5) E]]
  end.
  exists s'. split; [exact E|]. cbn in S1, S2, S3, S4, S5. repeat split; assumption.
Qed.

(** X26.  The View Records page shows no record of an earlier run: a run of
    the script on a logged-in session and a healthy connection, with View
    Records picked, puts on the page the notice that no records were found
    and nothing else, and leaves the three tables empty with their sequences
    at 1, whatever the database held before the run. *)
Theorem view_records_shows_no_stored_record (i : inputs) (s : state) :
  logged_in s = true ->
  page_picked i = View_records ->
  logout_button i = false ->
  no_fault (database s) ->
  fst (app_script i s) = Returned tt
  /\ screen (snd (app_script i s))
     = (screen s
        ++ [st_info "No records found. Add some records using the Data Entry form."])%list
  /\ store (database (snd (app_script i s))) = fresh_db.
Proof.
  intros L P O F. rewrite app_run.
  pose proof (login_gate (password_text i) (login_button i) s) as G. cbv zeta in G.
  destruct G as [_ [_ [D [_ [_ G]]]]]. rewrite L in G. destruct G as [R [S _]].
  destruct (and_then init_auth (fun _ => login_form (password_text i) (login_button i)) s)
    as [c s1]; cbn [fst snd] in *. subst c. cbn [truthy negb].
  rewrite <- D in F.
  destruct (main_content_page i s1 O F) as [s2 [E [_ [_ [S2 [D2 _]]]]]].
  rewrite E, P. unfold view_records_page, try_except, and_then, on_database.
  assert (Fr : store (database s2) = fresh_db) by (rewrite D2; reflexivity).
  destruct (get_all_records_fresh (database s2) Fr) as [G1 G2].
  destruct (get_all_records (database s2)) as [records w3]. cbn [fst snd] in G1, G2.
  subst records. cbn. rewrite S2, S. repeat split. exact G2.
Qed.

Lemma view_records_shows_no_stored_record_witness :
  person_rows (store (database logged_in_state)) <> []
  /\ fst (app_script (visit View_records) logged_in_state) = Returned tt
  /\ screen (snd (app_script (visit View_records) logged_in_state))
     = (screen logged_in_state
        ++ [st_info "No records found. Add some records using the Data Entry form."])%list
  /\ store (database (snd (app_script (visit View_records) logged_in_state))) = fresh_db.
Proof.
  split; [discriminate|].
  apply (view_records_shows_no_stored_record (visit View_records) logged_in_state);
    reflexivity.
Defined.

(** * The Data Entry page, end to end *)

Lemma group_returns (p : string) (init : option (list string)) (ss : mapping) (sk : state) :
  form_prefix p ->
  session_state sk (p ++ "_count")
  = match ss (p ++ "_count") with
    | Some v => Some v
    | None => Some (VInt 1)
    end ->
  (forall i, session_state sk (widget_key p i) = ss (widget_key p i)) ->
  session_state sk ("add_" ++ p) = ss ("add_" ++ p) ->
  ready ss p = true ->
  exists sk',
    render_multiple_inputs p init sk = (Returned (entered ss p init), sk')
    /\ same_but (owns p) sk sk'.
Proof.
  intros P C W A R.
  pose proof (render_multiple_inputs_spec p init sk P) as H.
  unfold ready in R. apply andb_prop in R. destruct R as [R1 R2].
  assert (F : truthy (get_item ("add_" ++ p) (session_state sk)) = false).
  { unfold get_item in *. rewrite A. destruct (truthy _); [discriminate|reflexivity]. }
  assert (I : inputs_of p init (session_state sk) = Ok (shown_inputs ss p)).
  { unfold inputs_of, shown_inputs. rewrite C.
    destruct (ss (p ++ "_count")) as [[|b|n|t]|]; try discriminate; reflexivity. }
  rewrite I, F in H. destruct H as [B [_ [V _]]].
  exists (snd (render_multiple_inputs p init sk)). split; [|exact B].
  rewrite (surjective_pairing (render_multiple_inputs p init sk)), V.
  f_equal. f_equal. unfold entered. f_equal.
  apply map_ext. intro i. unfold widget_value. rewrite W. reflexivity.
Qed.

Lemma add_key_is_no_other_count_key (p q : string) :
  form_prefix p -> form_prefix q -> "add_" ++ p <> q ++ "_count".
Proof.
  intros P Q E. destruct (string_dec p q) as [->|N].
  - revert E. apply add_key_is_no_count_key, Q.
  - apply (owns_apart p q ("add_" ++ p) P Q N).
    + right. left. reflexivity.
    + left. exact E.
Qed.

Lemma owns_add (p : string) : owns p ("add_" ++ p).
Proof. right. left. reflexivity. Qed.

Lemma extend_pdf_urls_outward (files : list pdf_file) :
  forall (pdf_urls : list string) (s : state),
    exists new_urls s',
      extend_pdf_urls files pdf_urls s = (Returned (pdf_urls ++ new_urls)%list, s')
      /\ database s' = database s /\ screen s' = screen s.
Proof.
  induction files as [|file rest IH]; intros pdf_urls s.
  - exists [], s. cbn. rewrite app_nil_r. repeat split.
  - cbn [extend_pdf_urls]. unfold and_then at 1. unfold on_host at 1.
    destruct (process_pdf file (imgbb s)) as [new h].
    destruct (IH (pdf_urls ++ new)%list
                 (mk_state (session_state s) (secrets s) h (database s) (screen s)))
      as [more [s' [E [D S]]]].
    exists (new ++ more)%list, s'. rewrite E, app_assoc. repeat split; assumption.
Qed.

(** The four groups of a form that is ready return what was entered, and
    the form goes on to its submit block. *)
Lemma form_groups (record : option person_dict) (ui : entry_widgets) (s : state) :
  form_ready (session_state s) = true ->
  exists s4,
    render_entry_form record ui s
    = on_submit record ui
        (entered (session_state s) "mobile" (option_map out_mobile_numbers record))
        (entered (session_state s) "whatsapp" (option_map out_whatsapp_numbers record))
        (entered (session_state s) "facebook" (option_map out_facebook_links record))
        (entered (session_state s) "website" (option_map out_website_links record)) s4
    /\ secrets s4 = secrets s /\ imgbb s4 = imgbb s /\ database s4 = database s
    /\ screen s4 = screen s.
Proof.
  intros Rdy. unfold form_ready in Rdy. cbn [forallb] in Rdy.
  apply andb_prop in Rdy. destruct Rdy as [R1 Rdy].
  apply andb_prop in Rdy. destruct Rdy as [R2 Rdy].
  apply andb_prop in Rdy. destruct Rdy as [R3 Rdy].
  apply andb_prop in Rdy. destruct Rdy as [R4 _].
  unfold render_entry_form.
  destruct (init_counts_spec ["mobile"; "whatsapp"; "facebook"; "website"] s)
    as [ss0 [E0 [C0 F0]]].
  set (s0 := mk_state ss0 (secrets s) (imgbb s) (database s) (screen s)) in *.
  unfold and_then at 1. rewrite E0.
  assert (Wk : forall p i, form_prefix p ->
                           session_state s0 (widget_key p i) = session_state s (widget_key p i)).
  { intros p i P. apply F0. intros q Q. apply widget_key_is_no_count_key; assumption. }
  assert (Ak : forall p, form_prefix p ->
                         session_state s0 ("add_" ++ p) = session_state s ("add_" ++ p)).
  { intros p P. apply F0. intros q Q. apply add_key_is_no_other_count_key; assumption. }
  destruct (group_returns "mobile" (option_map out_mobile_numbers record) (session_state s) s0
              form_prefix_mobile (C0 _ form_prefix_mobile)
              (fun i => Wk _ i form_prefix_mobile) (Ak _ form_prefix_mobile) R1)
    as [s1 [E1 B1]].
  unfold and_then at 1. rewrite E1.
  assert (K1 : forall p k, form_prefix p -> p <> "mobile" -> owns p k ->
                           session_state s1 k = session_state s0 k).
  { intros p k P N O. apply (same_but_keeps p "mobile" s0 s1 k P form_prefix_mobile N B1 O). }
  destruct (group_returns "whatsapp" (option_map out_whatsapp_numbers record)
              (session_state s) s1 form_prefix_whatsapp) as [s2 [E2 B2]].
  { rewrite (K1 "whatsapp" _ form_prefix_whatsapp ltac:(discriminate) (owns_count _)).
    apply C0, form_prefix_whatsapp. }
  { intro i.
    rewrite (K1 "whatsapp" _ form_prefix_whatsapp ltac:(discriminate) (owns_widget _ i)).
    apply Wk, form_prefix_whatsapp. }
  { rewrite (K1 "whatsapp" _ form_prefix_whatsapp ltac:(discriminate) (owns_add _)).
    apply Ak, form_prefix_whatsapp. }
  { exact R2. }
  unfold and_then at 1. rewrite E2.
  assert (K2 : forall p k, form_prefix p -> p <> "mobile" -> p <> "whatsapp" -> owns p k ->
                           session_state s2 k = session_state s0 k).
  { intros p k P N1 N2 O.
    rewrite (same_but_keeps p "whatsapp" s1 s2 k P form_prefix_whatsapp N2 B2 O).
    apply (K1 p k P N1 O). }
  destruct (group_returns "facebook" (option_map out_facebook_links record)
              (session_state s) s2 form_prefix_facebook) as [s3 [E3 B3]].
  { rewrite (K2 "facebook" _ form_prefix_facebook ltac:(discriminate) ltac:(discriminate)
               (owns_count _)).
    apply C0, form_prefix_facebook. }
  { intro i.
    rewrite (K2 "facebook" _ form_prefix_facebook ltac:(discriminate) ltac:(discriminate)
               (owns_widget _ i)).
    apply Wk, form_prefix_facebook. }
  { rewrite (K2 "facebook" _ form_prefix_facebook ltac:(discriminate) ltac:(discriminate)
               (owns_add _)).
    apply Ak, form_prefix_facebook. }
  { exact R3. }
  unfold and_then at 1. rewrite E3.
  assert (K3 : forall k, owns "website" k -> session_state s3 k = session_state s0 k).
  { intros k O.
    rewrite (same_but_keeps "website" "facebook" s2 s3 k form_prefix_website
               form_prefix_facebook ltac:(discriminate) B3 O).
    apply (K2 "website" k form_prefix_website ltac:(discriminate) ltac:(discriminate) O). }
  destruct (group_returns "website" (option_map out_website_links record)
              (session_state s) s3 form_prefix_website) as [s4 [E4 B4]].
  { rewrite (K3 _ (owns_count _)). apply C0, form_prefix_website. }
  { intro i. rewrite (K3 _ (owns_widget _ i)). apply Wk, form_prefix_website. }
  { rewrite (K3 _ (owns_add _)). apply Ak, form_prefix_website. }
  { exact R4. }
  unfold and_then at 1. rewrite E4.
  exists s4. split; [reflexivity|].
  destruct B1 as (A1 & H1 & D1 & S1 & _), B2 as (A2 & H2 & D2 & S2 & _),
    B3 as (A3 & H3 & D3 & S3 & _), B4 as (A4 & H4 & D4 & S4 & _).
  repeat split.
  - rewrite A4, A3, A2, A1. reflexivity.
  - rewrite H4, H3, H2, H1. reflexivity.
  - rewrite D4, D3, D2, D1. reflexivity.
  - rewrite S4, S3, S2, S1. reflexivity.
Qed.

(** A submitted form with its mandatory texts filled in returns a payload,
    when its four groups are ready. *)
Lemma render_entry_form_submits
    (record : option person_dict) (ui : entry_widgets) (s : state) :
  submit_clicked ui = true ->
  required_filled ui = true ->
  form_ready (session_state s) = true ->
  exists image_data new_urls s',
    render_entry_form record ui s
    = (Returned (Some (payload_of record ui (session_state s) image_data new_urls)), s')
    /\ database s' = database s /\ screen s' = screen s.
Proof.
  intros Sub Req Rdy.
  destruct (form_groups record ui s Rdy) as [s4 [E [_ [_ [D4 S4]]]]].
  rewrite E. unfold on_submit. rewrite Sub, Req. cbn [negb].
  change (match record with Some r0 => out_pdf_urls r0 | None => [] end)
    with (stored_pdf_urls record).
  unfold and_then at 1.
  destruct (image_uploaded ui) as [file|].
  - unfold on_host at 1. destruct (load_image (Some file) (imgbb s4)) as [image_data h].
    unfold and_then at 1.
    destruct (extend_pdf_urls_outward (pdf_uploaded ui) (stored_pdf_urls record)
                (mk_state (session_state s4) (secrets s4) h (database s4) (screen s4)))
      as [new_urls [s5 [E5 [D5 S5]]]].
    rewrite E5. exists image_data, new_urls, s5.
    split; [reflexivity|]. cbn in D5, S5. split; congruence.
  - unfold done at 1. unfold and_then at 1.
    destruct (extend_pdf_urls_outward (pdf_uploaded ui) (stored_pdf_urls record) s4)
      as [new_urls [s5 [E5 [D5 S5]]]].
    rewrite E5. eexists _, new_urls, s5.
    split; [reflexivity|]. split; congruence.
Qed.

(** X27.  The entry form on a session in which its four groups are ready
    (an integer count or none, no add flag set) returns, and leaves the
    database as it was: submitted with the six mandatory texts filled in, it
    returns the payload of the widgets and puts nothing on the page;
    submitted with a mandatory text empty, it returns [None] and shows the
    error; not submitted, it returns [None] and shows nothing. *)
Theorem render_entry_form_outcome
    (record : option person_dict) (ui : entry_widgets) (s : state) :
  form_ready (session_state s) = true ->
  let run := render_entry_form record ui s in
  database (snd run) = database s
  /\ if submit_clicked ui then
       if required_filled ui then
         (exists image_data new_urls,
            fst run
            = Returned (Some (payload_of record ui (session_state s) image_data new_urls)))
         /\ screen (snd run) = screen s
       else
         fst run = Returned None
         /\ screen (snd run)
            = (screen s ++ [st_error "Please fill all required fields marked with *"])%list
     else fst run = Returned None /\ screen (snd run) = screen s.
Proof.
  intro Rdy. cbv zeta.
  destruct (submit_clicked ui) eqn:Sub; [destruct (required_filled ui) eqn:Req|].
  - destruct (render_entry_form_submits record ui s Sub Req Rdy)
      as [image_data [new_urls [s' [E [D S]]]]].
    rewrite E. cbn [fst snd]. split; [exact D|]. split; [|exact S].
    exists image_data, new_urls. reflexivity.
  - destruct (form_groups record ui s Rdy) as [s4 [E [_ [_ [D4 S4]]]]].
    rewrite E. unfold on_submit. rewrite Sub, Req. cbn. rewrite S4. repeat split. exact D4.
  - destruct (form_groups record ui s Rdy) as [s4 [E [_ [_ [D4 S4]]]]].
    rewrite E. unfold on_submit. rewrite Sub.
    destruct (add_mobile_clicked ui), (add_whatsapp_clicked ui), (add_facebook_clicked ui),
      (add_website_clicked ui); cbn; repeat split; assumption.
Qed.

Lemma render_entry_form_outcome_witness :
  let run := render_entry_form None sample_entry logged_in_state in
  database (snd run) = database logged_in_state
  /\ if submit_clicked sample_entry then
       if required_filled sample_entry then
         (exists image_data new_urls,
            fst run
            = Returned (Some (payload_of None sample_entry (session_state logged_in_state)
                                         image_data new_urls)))
         /\ screen (snd run) = screen logged_in_state
       else
         fst run = Returned None
         /\ screen (snd run)
            = (screen logged_in_state
               ++ [st_error "Please fill all required fields marked with *"])%list
     else fst run = Returned None /\ screen (snd run) = screen logged_in_state.
Proof.
  apply (render_entry_form_outcome None sample_entry logged_in_state). reflexivity.
Defined.

Lemma form_key_is_no_script_key (p k : string) : form_prefix p -> owns p k -> ~ script_key k.
Proof.
  unfold form_prefix, owns, script_key, widget_key.
  intros [P|[P|[P|[P|[]]]]] [K|[K|[j K]]] [S|[S|[S|[S|[]]]]]; subst p k;
    cbn in S; discriminate.
Qed.

Lemma entered_ext (ss ss' : mapping) (p : string) (init : option (list string)) :
  (forall k, owns p k -> ss' k = ss k) -> entered ss' p init = entered ss p init.
Proof.
  intro H. unfold entered, shown_inputs. rewrite (H _ (owns_count p)).
  f_equal. apply map_ext. intro i. unfold widget_value. rewrite (H _ (owns_widget p i)).
  reflexivity.
Qed.

Lemma ready_ext (ss ss' : mapping) (p : string) :
  (forall k, owns p k -> ss' k = ss k) -> ready ss' p = ready ss p.
Proof.
  intro H. unfold ready, get_item. rewrite (H _ (owns_count p)), (H _ (owns_add p)).
  reflexivity.
Qed.

Lemma form_ready_ext (ss ss' : mapping) :
  (forall k, ~ script_key k -> ss' k = ss k) -> form_ready ss' = form_ready ss.
Proof.
  intro H. unfold form_ready. cbn [forallb].
  rewrite (ready_ext ss ss' "mobile"), (ready_ext ss ss' "whatsapp"),
    (ready_ext ss ss' "facebook"), (ready_ext ss ss' "website"); [reflexivity| | | |];
    intros k O; apply H.
  - apply (form_key_is_no_script_key "website" k form_prefix_website O).
  - apply (form_key_is_no_script_key "facebook" k form_prefix_facebook O).
  - apply (form_key_is_no_script_key "whatsapp" k form_prefix_whatsapp O).
  - apply (form_key_is_no_script_key "mobile" k form_prefix_mobile O).
Qed.

Lemma payload_of_ext (record : option person_dict) (ui : entry_widgets) (ss ss' : mapping)
    (image_data : option image) (new_urls : list string) :
  (forall k, ~ script_key k -> ss' k = ss k) ->
  payload_of record ui ss' image_data new_urls = payload_of record ui ss image_data new_urls.
Proof.
  intro H. unfold payload_of.
  rewrite (entered_ext ss ss' "mobile"), (entered_ext ss ss' "whatsapp"),
    (entered_ext ss ss' "facebook"), (entered_ext ss ss' "website"); [reflexivity| | | |];
    intros k O; apply H.
  - apply (form_key_is_no_script_key "website" k form_prefix_website O).
  - apply (form_key_is_no_script_key "facebook" k form_prefix_facebook O).
  - apply (form_key_is_no_script_key "whatsapp" k form_prefix_whatsapp O).
  - apply (form_key_is_no_script_key "mobile" k form_prefix_mobile O).
Qed.

(** X28.  Every record entered through the Data Entry page gets the id 1
    and is alone in the database: a run of the script on a logged-in session
    and a connection without faults, with Data Entry picked and the form
    submitted with its mandatory texts filled in, texts and contact values
    that fit their columns and its four groups ready, reports "Record added
    successfully! ID: 1" and ends in [st.rerun()]; the table of persons then
    holds the row of the form and no other, whatever it held before the
    run. *)
Theorem data_entry_starts_over (i : inputs) (s : state) :
  logged_in s = true ->
  page_picked i = Data_entry ->
  logout_button i = false ->
  faults (database s) = [] ->
  submit_clicked (entry i) = true ->
  required_filled (entry i) = true ->
  form_ready (session_state s) = true ->
  texts_fit (entry i) = true ->
  contacts_fit None (session_state s) = true ->
  fst (app_script i s) = Rerun
  /\ screen (snd (app_script i s))
     = (screen s ++ [st_success "Record added successfully! ID: 1"])%list
  /\ exists image_data new_urls,
       person_rows (store (database (snd (app_script i s))))
       = [row_of (payload_of None (entry i) (session_state s) image_data new_urls) 1
                 (clock (database s))].
Proof.
  intros L P O F Sub Req Rdy T C. rewrite app_run.
  pose proof (login_gate (password_text i) (login_button i) s) as G. cbv zeta in G.
  destruct G as [_ [_ [D [_ [_ G]]]]]. rewrite L in G. destruct G as [R [S K]].
  destruct (and_then init_auth (fun _ => login_form (password_text i) (login_button i)) s)
    as [c s1]; cbn [fst snd] in *. subst c. cbn [truthy negb].
  assert (NF : no_fault (database s1)) by (unfold no_fault; rewrite D, F; reflexivity).
  destruct (main_content_page i s1 O NF) as [s2 [E [_ [_ [S2 [D2 K2]]]]]].
  rewrite E, P.
  assert (K' : forall k, ~ script_key k -> session_state s2 k = session_state s k).
  { intros k N. rewrite (K2 k N). apply K. intro A. apply N. left. symmetry. exact A. }
  rewrite <- (form_ready_ext _ _ K') in Rdy.
  destruct (render_entry_form_submits None (entry i) s2 Sub Req Rdy)
    as [image_data [new_urls [s3 [E3 [D3 S3]]]]].
  rewrite (payload_of_ext None (entry i) _ _ image_data new_urls K') in E3.
  assert (V : valid_payload (payload_of None (entry i) (session_state s) image_data new_urls)
              = true) by (apply payload_of_valid; assumption).
  assert (Tb : has_tables (store (database s3))).
  { rewrite D3, D2. repeat split; discriminate. }
  assert (NF3 : no_fault (database s3)).
  { unfold no_fault. rewrite D3, D2, D, F. reflexivity. }
  assert (Run : exists sf,
             data_entry_page i s2 = (Rerun, sf)
             /\ screen sf = (screen s3 ++ [st_success "Record added successfully! ID: 1"])%list
             /\ store (database sf)
                = added (payload_of None (entry i) (session_state s) image_data new_urls)
                        (clock (database s3)) (store (database s3))).
  { unfold data_entry_page, try_except, and_then. rewrite E3. unfold on_database.
    rewrite (add_record_ok _ (database s3) Tb V NF3).
    replace (next_person_id (store (database s3))) with 1
      by (rewrite D3, D2; reflexivity).
    eexists. split; [reflexivity|]. split; reflexivity. }
  destruct Run as [sf [Run [Sf Df]]]. rewrite Run. cbn [fst snd].
  rewrite Sf, S3, S2, S, Df. split; [reflexivity|]. split; [reflexivity|].
  exists image_data, new_urls.
  rewrite person_rows_added by exact Tb.
  rewrite D3, D2, D. reflexivity.
Qed.

Lemma data_entry_starts_over_witness :
  person_rows (store (database logged_in_state)) <> []
  /\ fst (app_script entry_submitted logged_in_state) = Rerun
  /\ screen (snd (app_script entry_submitted logged_in_state))
     = (screen logged_in_state ++ [st_success "Record added successfully! ID: 1"])%list
  /\ exists image_data new_urls,
       person_rows (store (database (snd (app_script entry_submitted logged_in_state))))
       = [row_of (payload_of None (entry entry_submitted) (session_state logged_in_state)
                             image_data new_urls) 1
                 (clock (database logged_in_state))].
Proof.
  split; [discriminate|].
  apply (data_entry_starts_over entry_submitted logged_in_state);
    try reflexivity; vm_compute; reflexivity.
Defined.

(** * The record card *)

(** X29.  Saving the edit form of a record card rewrites the contacts of
    the record from the inputs the form shows: when the card of a stored
    person is being edited and the form is submitted (mandatory texts filled
    in, texts and contact values fitting their columns, groups ready), on a
    healthy connection, the card reports the update, clears
    [editing_record] and ends in [st.rerun()]; the values then stored for
    the person are, group by group, the non-empty values of the inputs shown
    (as many as the session's count says, one when it has none), so stored
    values beyond that count are gone; the document urls of the record are
    all kept, followed by the new ones. *)
Theorem edit_keeps_the_shown_values
    (b : record_buttons) (ui : entry_widgets) (d : person_dict) (s : state) :
  let id := p_id (out_person d) in
  let ss := session_state s in
  edit_clicked b id = false ->
  equals_int (get_item "editing_record" ss) id = true ->
  submit_clicked ui = true ->
  required_filled ui = true ->
  form_ready ss = true ->
  texts_fit ui = true ->
  contacts_fit (Some d) ss = true ->
  has_tables (store (database s)) ->
  person_exists (store (database s)) id = true ->
  no_fault (database s) ->
  let run := render_record_card b ui d s in
  let after := store (database (snd run)) in
  fst run = Rerun
  /\ screen (snd run)
     = (screen s ++ [record_card d; st_success "Record updated successfully!"])%list
  /\ session_state (snd run) "editing_record" = Some VNone
  /\ contact_values after id "mobile" = entered ss "mobile" (Some (out_mobile_numbers d))
  /\ contact_values after id "whatsapp" = entered ss "whatsapp" (Some (out_whatsapp_numbers d))
  /\ contact_values after id "facebook" = entered ss "facebook" (Some (out_facebook_links d))
  /\ contact_values after id "website" = entered ss "website" (Some (out_website_links d))
  /\ (List.length (contact_values after id "mobile") <= Z.to_nat (shown_inputs ss "mobile"))%nat
  /\ exists new_urls, pdf_values after id = (out_pdf_urls d ++ new_urls)%list.
Proof.
  cbv zeta. intros Ed Eq Sub Req Rdy T C Tb X NF.
  set (s1 := mk_state (session_state s) (secrets s) (imgbb s) (database s)
                      (screen s ++ [record_card d])).
  destruct (render_entry_form_submits (Some d) ui s1 Sub Req Rdy)
    as [image_data [new_urls [s2 [E2 [D2 S2]]]]].
  cbn [session_state database screen s1] in E2, D2, S2.
  set (r := payload_of (Some d) ui (session_state s) image_data new_urls) in *.
  assert (V : valid_payload r = true) by (apply payload_of_valid; assumption).
  assert (Tb2 : has_tables (store (database s2))) by (rewrite D2; exact Tb).
  assert (NF2 : no_fault (database s2)) by (rewrite D2; exact NF).
  assert (X2 : person_exists (store (database s2)) (p_id (out_person d)) = true)
    by (rewrite D2; exact X).
  assert (Run : exists sf,
             render_record_card b ui d s = (Rerun, sf)
             /\ screen sf = (screen s2 ++ [st_success "Record updated successfully!"])%list
             /\ session_state sf "editing_record" = Some VNone
             /\ store (database sf) = updated r (p_id (out_person d)) (store (database s2))).
  { unfold render_record_card. rewrite Ed.
    unfold and_then at 1. unfold show at 1. fold s1.
    unfold and_then at 1. unfold done at 1.
    unfold and_then at 1. unfold read_session at 1.
    change (session_state s1) with (session_state s). rewrite Eq.
    unfold and_then at 1. rewrite E2.
    unfold and_then at 1. unfold on_database at 1.
    rewrite (update_record_ok _ r (database s2) Tb2 V (or_intror X2) NF2).
    eexists. split; [reflexivity|]. cbn. repeat split. }
  destruct Run as [sf [Run [Sf [Ef Df]]]]. rewrite Run. cbn [fst snd].
  rewrite Sf, S2, Df, D2, <- app_assoc.
  destruct (updated_values r (p_id (out_person d)) _ Tb) as (A1 & A2 & A3 & A4 & A5).
  rewrite A1, A2, A3, A4, A5.
  split; [reflexivity|]. split; [reflexivity|]. split; [exact Ef|].
  do 4 (split; [reflexivity|]).
  split; [apply length_entered_group|].
  exists new_urls. reflexivity.
Qed.

Lemma edit_keeps_the_shown_values_witness :
  contact_values (store (database editing_state)) 1 "mobile" = ["01711"; "01811"]
  /\ let id := p_id (out_person stored_record) in
     let ss := session_state editing_state in
     let run := render_record_card no_buttons sample_entry stored_record editing_state in
     let after := store (database (snd run)) in
     fst run = Rerun
     /\ screen (snd run)
        = (screen editing_state
           ++ [record_card stored_record; st_success "Record updated successfully!"])%list
     /\ session_state (snd run) "editing_record" = Some VNone
     /\ contact_values after id "mobile"
        = entered ss "mobile" (Some (out_mobile_numbers stored_record))
     /\ contact_values after id "whatsapp"
        = entered ss "whatsapp" (Some (out_whatsapp_numbers stored_record))
     /\ contact_values after id "facebook"
        = entered ss "facebook" (Some (out_facebook_links stored_record))
     /\ contact_values after id "website"
        = entered ss "website" (Some (out_website_links stored_record))
     /\ (List.length (contact_values after id "mobile")
         <= Z.to_nat (shown_inputs ss "mobile"))%nat
     /\ exists new_urls, pdf_values after id = (out_pdf_urls stored_record ++ new_urls)%list.
Proof.
  split; [vm_compute; reflexivity|].
  apply (edit_keeps_the_shown_values no_buttons sample_entry stored_record editing_state);
    try reflexivity; try (vm_compute; reflexivity).
  repeat split; discriminate.
Defined.

(** * What the form does not check *)

Lemma _add_record_too_long (record : option person_dict) (ui : entry_widgets) (ss : mapping)
    (img : option image) (new_urls : list string) (now : Z) (s : db) :
  too_long 255 (full_name_text ui) = true ->
  exists e, _add_record now (payload_of record ui ss img new_urls) s = Raise e.
Proof.
  unfold too_long. intro L. apply andb_prop in L. destruct L as [L1 L2].
  apply negb_true_iff in L1, L2.
  unfold _add_record, payload_of.
  cbn [full_name father_name mother_name dob gender nid voter_no permanent_address
       present_address image_data description getitem].
  unfold bind at 1. cbn [lift rbind].
  unfold bind at 1. cbn [lift rbind].
  unfold bind at 1. cbn [lift rbind].
  unfold bind at 1. cbn [lift rbind].
  unfold bind at 1. cbn [lift rbind].
  unfold bind at 1. cbn [lift rbind].
  unfold bind at 1. cbn [lift rbind].
  unfold bind at 1. cbn [lift rbind].
  unfold bind at 1. unfold insert_persons. unfold bind at 1. unfold the_persons.
  destruct (persons s) as [t|]; [|eexists; reflexivity].
  unfold bind at 1. unfold lift at 1. unfold varchar at 1. rewrite L1, L2.
  eexists. reflexivity.
Qed.

(** X30.  The form checks that the mandatory texts are filled in, not that
    they fit: on the Data Entry page, a submitted form whose full name is
    too long for its column (more than 255 characters, with more than blanks
    beyond) is handed to [add_record], which stores nothing; the page shows
    "Failed to add record. Please try again." and runs on, and the database
    is what it was, whatever it holds and whatever the faults of the
    connection. *)
Theorem long_name_passes_the_form (i : inputs) (s : state) :
  form_ready (session_state s) = true ->
  submit_clicked (entry i) = true ->
  required_filled (entry i) = true ->
  too_long 255 (full_name_text (entry i)) = true ->
  fst (data_entry_page i s) = Returned tt
  /\ screen (snd (data_entry_page i s))
     = (screen s ++ [st_error "Failed to add record. Please try again."])%list
  /\ store (database (snd (data_entry_page i s))) = store (database s).
Proof.
  intros Rdy Sub Req L.
  destruct (render_entry_form_submits None (entry i) s Sub Req Rdy)
    as [image_data [new_urls [s1 [E1 [D1 S1]]]]].
  set (r := payload_of None (entry i) (session_state s) image_data new_urls) in *.
  assert (N : exists e, fst (execute_with_retry (fun now => _add_record now r) 3 (database s1))
                        = Raise e).
  { apply run_never. intros now s0. apply _add_record_too_long, L. }
  destruct N as [e N].
  pose proof (run_raise_store _ (fun now => _add_record now r) (database s1) e N) as K.
  assert (Run : exists sf,
             data_entry_page i s = (Returned tt, sf)
             /\ screen sf = (screen s1 ++ [st_error "Failed to add record. Please try again."])%list
             /\ store (database sf) = store (database s1)).
  { unfold data_entry_page, try_except, and_then. rewrite E1.
    unfold on_database, add_record.
    destruct (execute_with_retry (fun now => _add_record now r) 3 (database s1))
      as [[x|e'] w']; cbn [fst snd] in *; [discriminate|].
    eexists. split; [reflexivity|]. split; [reflexivity|exact K]. }
  destruct Run as [sf [Run [Sf Df]]]. rewrite Run. cbn [fst snd].
  rewrite Sf, Df, S1, D1. repeat split.
Qed.

Lemma long_name_passes_the_form_witness :
  fst (data_entry_page long_name_submitted logged_in_state) = Returned tt
  /\ screen (snd (data_entry_page long_name_submitted logged_in_state))
     = (screen logged_in_state ++ [st_error "Failed to add record. Please try again."])%list
  /\ store (database (snd (data_entry_page long_name_submitted logged_in_state)))
     = store (database logged_in_state).
Proof.
  apply (long_name_passes_the_form long_name_submitted logged_in_state);
    vm_compute; reflexivity.
Defined.
